(** * user_agent.base: generation of navigator configs and User-Agent headers

    A shallow embedding of [src/user_agent/base.py] together with the part of
    the Python runtime it relies on (exceptions, the shared random source,
    [str] methods, [datetime] arithmetic), followed by the properties of the
    generator that are established on it. *)

From Stdlib Require Import String Ascii List ZArith Lia Bool DecimalString.
Import ListNotations.
Local Open Scope list_scope.
Local Open Scope string_scope.
Local Open Scope Z_scope.

(* ===================================================================== *)
(** ** The Python runtime *)
(* ===================================================================== *)

(** Exceptions the program can raise.  [InvalidOption] is the class imported
    from [.error]; the others are builtins. *)
Inductive exn : Type :=
| InvalidOption (msg : string)
| AssertionError
| IndexError
| KeyError (key : string)
| ValueError
| OverflowError
| UnboundLocalError (name : string).

(** The outcome of evaluating an expression that may raise. *)
Inductive outcome (A : Type) : Type :=
| Return (a : A)
| Raise (e : exn).
Arguments Return {A} a.
Arguments Raise {A} e.

Definition obind {A B} (c : outcome A) (k : A -> outcome B) : outcome B :=
  match c with
  | Return a => k a
  | Raise e => Raise e
  end.

Notation "x <~ c ;; k" := (obind c (fun x => k))
  (at level 61, c at next level, right associativity).
Notation "' pat <~ c ;; k" := (obind c (fun x => match x with pat => k end))
  (at level 61, pat pattern, c at next level, right associativity).

(** The process-wide state a call can observe or change: the shared random
    source of the [random] module, seen as the sequence of raw values it will
    hand out together with how many were consumed, and the log of emitted
    warnings (message and stack level). *)
Record world : Type := mkWorld {
  tape : nat -> Z;
  pos : nat;
  warnings : list (string * Z)
}.

(** Statements: state passing with exceptions.  A raised exception keeps the
    state reached so far. *)
Definition M (A : Type) : Type := world -> outcome A * world.

Definition ret {A} (a : A) : M A := fun w => (Return a, w).
Definition raise {A} (e : exn) : M A := fun w => (Raise e, w).
Definition bind {A B} (c : M A) (k : A -> M B) : M B :=
  fun w => match c w with
           | (Return a, w') => k a w'
           | (Raise e, w') => (Raise e, w')
           end.
Definition lift {A} (c : outcome A) : M A := fun w => (c, w).

Notation "x <- c ;; k" := (bind c (fun x => k))
  (at level 61, c at next level, right associativity).
Notation "' pat <- c ;; k" := (bind c (fun x => match x with pat => k end))
  (at level 61, pat pattern, c at next level, right associativity).

(** [assert cond] *)
Definition assert (cond : bool) : M unit :=
  if cond then ret tt else raise AssertionError.

(** [try: body except IndexError: handler] *)
Definition try_except_IndexError {A} (body handler : M A) : M A :=
  fun w => match body w with
           | (Raise IndexError, w') => handler w'
           | r => r
           end.

(** *** The [random] module

    One raw value is consumed per draw and reduced to the requested range, so
    a seed is a [world] and every value of the range is produced by some
    seed. *)
Definition advance (w : world) : world :=
  mkWorld (tape w) (S (pos w)) (warnings w).

Definition randbelow (n : Z) : M Z :=
  fun w => (Return (tape w (pos w) mod n), advance w).

(** [random.choice(seq)] *)
Definition choice {A} (seq : list A) : M A :=
  match seq with
  | [] => raise IndexError
  | d :: _ =>
      i <- randbelow (Z.of_nat (length seq)) ;;
      ret (nth (Z.to_nat i) seq d)
  end.

(** [random.randint(a, b)], both ends included. *)
Definition randint (a b : Z) : M Z :=
  if b <? a then raise ValueError
  else k <- randbelow (b - a + 1) ;; ret (a + k).

(** *** Strings *)

Definition mem (x : string) (l : list string) : bool :=
  existsb (String.eqb x) l.

(** [s.startswith(p)] *)
Definition startswith (s p : string) : bool := prefix p s.

(** [bool(s)] *)
Definition truthy (s : string) : bool :=
  match s with EmptyString => false | _ => true end.

Fixpoint rev_string (acc s : string) : string :=
  match s with
  | EmptyString => acc
  | String c s' => rev_string (String c acc) s'
  end.

(** [s.split(sep)] for a non-empty [sep]: [skip] counts the characters of a
    separator just matched that are still to be dropped, [cur] is the current
    field, reversed. *)
Fixpoint split_go (sep : string) (skip : nat) (cur s : string) : list string :=
  match s with
  | EmptyString => [rev_string "" cur]
  | String c s' =>
      match skip with
      | S k => split_go sep k cur s'
      | O =>
          if prefix sep s
          then rev_string "" cur :: split_go sep (Nat.pred (String.length sep)) "" s'
          else split_go sep O (String c cur) s'
      end
  end.

Definition split (s sep : string) : list string := split_go sep O "" s.

(** [s.split(sep, 1)]: cut at the first occurrence of [sep], if any. *)
Fixpoint split_once_go (sep cur s : string) : list string :=
  if prefix sep s
  then [rev_string "" cur; substring (String.length sep) (String.length s) s]
  else match s with
       | EmptyString => [rev_string "" cur]
       | String c s' => split_once_go sep (String c cur) s'
       end.

Definition split_once (s sep : string) : list string := split_once_go sep "" s.

(** [s.replace(a, b)] for single characters. *)
Fixpoint replace_char (a b : ascii) (s : string) : string :=
  match s with
  | EmptyString => EmptyString
  | String c s' => String (if Ascii.eqb c a then b else c) (replace_char a b s')
  end.

(** [str(n)] and ["%d" % n] *)
Definition str_int (n : Z) : string := NilZero.string_of_int (Z.to_int n).

(** [needle in s], the substring test. *)
Fixpoint contains (s needle : string) : bool :=
  prefix needle s ||
  match s with
  | EmptyString => false
  | String _ s' => contains s' needle
  end.

(** *** Sequences and dicts *)

(** [seq[i]] for [i >= 0]. *)
Definition subscript {A} (seq : list A) (i : nat) : outcome A :=
  match nth_error seq i with
  | Some x => Return x
  | None => Raise IndexError
  end.

(** [seq[-1]] *)
Definition last_item {A} (seq : list A) : outcome A :=
  match rev seq with
  | x :: _ => Return x
  | [] => Raise IndexError
  end.

(** [seq.index(x)] *)
Fixpoint index {A} (eqb : A -> A -> bool) (x : A) (seq : list A) : outcome nat :=
  match seq with
  | [] => Raise ValueError
  | y :: rest => if eqb y x then Return O
                 else (i <~ index eqb x rest ;; Return (S i))
  end.

(** [range(a, b)] *)
Definition range (a b : Z) : list Z :=
  map (fun k => a + Z.of_nat k) (seq 0 (Z.to_nat (b - a))).

(** A dict with string keys, in insertion order. *)
Definition dict (V : Type) : Type := list (string * V).

Fixpoint getitem {V} (d : dict V) (k : string) : outcome V :=
  match d with
  | [] => Raise (KeyError k)
  | (k', v) :: rest => if String.eqb k' k then Return v else getitem rest k
  end.

Definition keys {V} (d : dict V) : list string := map fst d.

(** [k in d] *)
Definition has_key {V} (d : dict V) (k : string) : bool := mem k (keys d).

(** The values stored in the component and config dicts: a string or [None]. *)
Inductive pyval : Type :=
| VNone
| VStr (s : string).

Definition pyval_eqb (a b : pyval) : bool :=
  match a, b with
  | VNone, VNone => true
  | VStr x, VStr y => String.eqb x y
  | _, _ => false
  end.

(** [str(v)], as [str.format] renders a field. *)
Definition str_of (v : pyval) : string :=
  match v with
  | VNone => "None"
  | VStr s => s
  end.

(** [itertools.product(a, b, c)] *)
Definition product3 {A B C} (a : list A) (b : list B) (c : list C)
  : list (A * B * C) :=
  flat_map (fun x => flat_map (fun y => map (fun z => (x, y, z)) c) b) a.

(** *** [datetime]

    Naive datetimes with whole seconds, and the proleptic Gregorian ordinal
    arithmetic of the standard library. *)
Record datetime : Type := mk_datetime {
  year : Z; month : Z; day : Z; hour : Z; minute : Z; second : Z
}.

(** [datetime(y, m, d)] *)
Definition datetime_ (y m d : Z) : datetime := mk_datetime y m d 0 0 0.

Definition datetime_eqb (a b : datetime) : bool :=
  (year a =? year b) && (month a =? month b) && (day a =? day b) &&
  (hour a =? hour b) && (minute a =? minute b) && (second a =? second b).

(** A normalised [timedelta]: [0 <= td_seconds < 86400]. *)
Record timedelta : Type := mk_timedelta { td_days : Z; td_seconds : Z }.

(** [timedelta(days=d, seconds=s)] *)
Definition timedelta_ (d s : Z) : timedelta :=
  mk_timedelta (d + s / 86400) (s mod 86400).

Definition total_seconds (t : timedelta) : Z :=
  td_days t * 86400 + td_seconds t.

Definition is_leap (y : Z) : bool :=
  (y mod 4 =? 0) && (negb (y mod 100 =? 0) || (y mod 400 =? 0)).

Definition DAYS_IN_MONTH : list Z :=
  [-1; 31; 28; 31; 30; 31; 30; 31; 31; 30; 31; 30; 31].
Definition DAYS_BEFORE_MONTH : list Z :=
  [-1; 0; 31; 59; 90; 120; 151; 181; 212; 243; 273; 304; 334].

Definition MAXORDINAL : Z := 3652059.

Definition days_before_year (y : Z) : Z :=
  let y := y - 1 in y * 365 + y / 4 - y / 100 + y / 400.

Definition days_before_month (y m : Z) : Z :=
  nth (Z.to_nat m) DAYS_BEFORE_MONTH 0 +
  (if (2 <? m) && is_leap y then 1 else 0).

Definition ymd2ord (y m d : Z) : Z :=
  days_before_year y + days_before_month y m + d.

Definition ord2ymd (n : Z) : Z * Z * Z :=
  let n := n - 1 in
  let n400 := n / 146097 in
  let n := n mod 146097 in
  let y := n400 * 400 + 1 in
  let n100 := n / 36524 in
  let n := n mod 36524 in
  let n4 := n / 1461 in
  let n := n mod 1461 in
  let n1 := n / 365 in
  let n := n mod 365 in
  let y := y + n100 * 100 + n4 * 4 + n1 in
  if (n1 =? 4) || (n100 =? 4) then (y - 1, 12, 31)
  else
    let leapyear := (n1 =? 3) && (negb (n4 =? 24) || (n100 =? 3)) in
    let m := Z.shiftr (n + 50) 5 in
    let preceding := nth (Z.to_nat m) DAYS_BEFORE_MONTH 0 +
                     (if (2 <? m) && leapyear then 1 else 0) in
    if n <? preceding
    then
      let m := m - 1 in
      let preceding := preceding -
                       (nth (Z.to_nat m) DAYS_IN_MONTH 0 +
                        (if (m =? 2) && leapyear then 1 else 0)) in
      (y, m, n - preceding + 1)
    else (y, m, n - preceding + 1).

Definition toordinal (t : datetime) : Z := ymd2ord (year t) (month t) (day t).

Definition second_of_day (t : datetime) : Z :=
  second t + minute t * 60 + hour t * 3600.

(** [t + delta] *)
Definition dt_add (t : datetime) (delta : timedelta) : outcome datetime :=
  let sum := timedelta_ (toordinal t + td_days delta)
                        (second_of_day t + td_seconds delta) in
  let h := td_seconds sum / 3600 in
  let rem := td_seconds sum mod 3600 in
  if (0 <? td_days sum) && (td_days sum <=? MAXORDINAL)
  then let '(y, m, d) := ord2ymd (td_days sum) in
       Return (mk_datetime y m d h (rem / 60) (rem mod 60))
  else Raise OverflowError.

(** [a - b] for two datetimes *)
Definition dt_sub (a b : datetime) : timedelta :=
  timedelta_ (toordinal a - toordinal b) (second_of_day a - second_of_day b).

(** Zero-padded two-digit field of [strftime]. *)
Definition fmt02 (n : Z) : string :=
  if n <? 10 then "0" ++ str_int n else str_int n.

(** [t.strftime("%Y%m%d%H%M%S")] *)
Definition strftime_YmdHMS (t : datetime) : string :=
  str_int (year t) ++ fmt02 (month t) ++ fmt02 (day t) ++
  fmt02 (hour t) ++ fmt02 (minute t) ++ fmt02 (second t).

(* ===================================================================== *)
(** ** Collaborators outside [base.py] *)
(* ===================================================================== *)

(** The [.device] module: [from .device import SMARTPHONE_DEV_IDS,
    TABLET_DEV_IDS].  Its two catalogs of device model identifiers are taken
    as they are, whatever their contents. *)
Record device_module : Type := {
  SMARTPHONE_DEV_IDS : list string;
  TABLET_DEV_IDS : list string
}.

(** Modelled from the spec: the [warn] helper of the [.warning] module, which
    "accepts a message and a stack-depth hint, has no effect on data flow".
    The emitted notice is recorded in the world. *)
Definition warn (msg : string) (stacklevel : Z) : M unit :=
  fun w => (Return tt,
            mkWorld (tape w) (pos w) (warnings w ++ [(msg, stacklevel)])%list).

(* ===================================================================== *)
(** ** The catalogs of [base.py] *)
(* ===================================================================== *)

Definition DEVICE_TYPE_OS : dict (list string) :=
  [ ("desktop", ["win"; "mac"; "linux"]);
    ("smartphone", ["android"]);
    ("tablet", ["android"]) ].

Definition OS_DEVICE_TYPE : dict (list string) :=
  [ ("win", ["desktop"]);
    ("linux", ["desktop"]);
    ("mac", ["desktop"]);
    ("android", ["smartphone"; "tablet"]) ].

Definition DEVICE_TYPE_NAVIGATOR : dict (list string) :=
  [ ("desktop", ["chrome"; "firefox"; "ie"]);
    ("smartphone", ["firefox"; "chrome"]);
    ("tablet", ["firefox"; "chrome"]) ].

Definition NAVIGATOR_DEVICE_TYPE : dict (list string) :=
  [ ("ie", ["desktop"]);
    ("chrome", ["desktop"; "smartphone"; "tablet"]);
    ("firefox", ["desktop"; "smartphone"; "tablet"]) ].

Definition OS_PLATFORM : dict (list string) :=
  [ ("win",
     [ "Windows NT 5.1"; "Windows NT 6.1"; "Windows NT 6.2";
       "Windows NT 6.3"; "Windows NT 10.0" ]);
    ("mac",
     [ "Macintosh; Intel Mac OS X 10.8"; "Macintosh; Intel Mac OS X 10.9";
       "Macintosh; Intel Mac OS X 10.10"; "Macintosh; Intel Mac OS X 10.11";
       "Macintosh; Intel Mac OS X 10.12"; "Macintosh; Intel Mac OS X 10.13";
       "Macintosh; Intel Mac OS X 10.14"; "Macintosh; Intel Mac OS X 10.15" ]);
    ("linux", [ "X11; Linux"; "X11; Ubuntu; Linux" ]);
    ("android",
     [ "Android 4.4"; "Android 4.4.1"; "Android 4.4.2"; "Android 4.4.3";
       "Android 4.4.4"; "Android 5.0"; "Android 5.0.1"; "Android 5.0.2";
       "Android 5.1"; "Android 5.1.1"; "Android 6.0"; "Android 6.0.1";
       "Android 7.0"; "Android 7.1"; "Android 7.1.1"; "Android 7.1.2";
       "Android 8.0"; "Android 8.1"; "Android 9"; "Android 10";
       "Android 11" ]) ].

Definition OS_CPU : dict (list string) :=
  [ ("win", [ ""; "Win64; x64"; "WOW64" ]);
    ("linux", [ "i686"; "x86_64"; "i686 on x86_64" ]);
    ("mac", [ "" ]);
    ("android", [ "armv7l"; "armv8l" ]) ].

Definition OS_NAVIGATOR : dict (list string) :=
  [ ("win", ["chrome"; "firefox"; "ie"]);
    ("mac", ["firefox"; "chrome"]);
    ("linux", ["chrome"; "firefox"]);
    ("android", ["firefox"; "chrome"]) ].

Definition NAVIGATOR_OS : dict (list string) :=
  [ ("chrome", ["win"; "linux"; "mac"; "android"]);
    ("firefox", ["win"; "linux"; "mac"; "android"]);
    ("ie", ["win"]) ].

Definition FIREFOX_VERSION : list (string * datetime) :=
  [ ("0.9", datetime_ 2004 6 28);
    ("0.9.3", datetime_ 2004 8 4);
    ("0.10", datetime_ 2004 9 14);
    ("0.10.1", datetime_ 2004 9 14);
    ("1.0.1", datetime_ 2005 2 24);
    ("1.0.2", datetime_ 2005 3 23);
    ("1.0.3", datetime_ 2005 4 15);
    ("1.0.4", datetime_ 2005 5 11);
    ("1.0.5", datetime_ 2005 7 12);
    ("1.0.6", datetime_ 2005 7 19);
    ("1.0.7", datetime_ 2005 9 20);
    ("1.0.8", datetime_ 2006 4 13);
    ("1.5.0.1", datetime_ 2006 2 1);
    ("1.5.0.2", datetime_ 2006 4 13);
    ("1.5.0.3", datetime_ 2006 5 2);
    ("1.5.0.4", datetime_ 2006 6 1);
    ("1.5.0.5", datetime_ 2006 7 27);
    ("1.5.0.6", datetime_ 2006 8 2);
    ("1.5.0.7", datetime_ 2006 9 14);
    ("1.5.0.8", datetime_ 2006 11 7);
    ("1.5.0.9", datetime_ 2007 3 20);
    ("2.0.0.1", datetime_ 2006 12 19);
    ("2.0.0.2", datetime_ 2007 2 23);
    ("2.0.0.3", datetime_ 2007 3 20);
    ("2.0.0.4", datetime_ 2007 5 30);
    ("2.0.0.5", datetime_ 2007 7 17);
    ("2.0.0.6", datetime_ 2007 7 30);
    ("2.0.0.7", datetime_ 2007 9 18);
    ("2.0.0.8", datetime_ 2007 10 18);
    ("2.0.0.9", datetime_ 2007 11 1);
    ("2.0.0.11", datetime_ 2007 11 30);
    ("2.0.0.12", datetime_ 2008 2 7);
    ("2.0.0.13", datetime_ 2008 3 25);
    ("2.0.0.14", datetime_ 2008 4 16);
    ("2.0.0.15", datetime_ 2008 7 1);
    ("2.0.0.16", datetime_ 2008 7 15);
    ("2.0.0.17", datetime_ 2008 9 23);
    ("2.0.0.18", datetime_ 2008 11 12);
    ("2.0.0.19", datetime_ 2008 12 16);
    ("3.0.1", datetime_ 2008 7 16);
    ("3.0.2", datetime_ 2008 9 23);
    ("3.0.3", datetime_ 2008 9 26);
    ("3.0.4", datetime_ 2008 11 12);
    ("3.0.5", datetime_ 2008 12 16);
    ("3.0.6", datetime_ 2009 2 3);
    ("3.0.7", datetime_ 2009 3 4);
    ("3.0.8", datetime_ 2009 3 27);
    ("3.0.9", datetime_ 2009 4 21);
    ("3.0.10", datetime_ 2009 4 27);
    ("3.0.11", datetime_ 2009 6 11);
    ("3.0.12", datetime_ 2009 7 21);
    ("3.0.13", datetime_ 2009 8 3);
    ("3.0.14", datetime_ 2009 9 9);
    ("3.0.15", datetime_ 2009 10 27);
    ("3.0.16", datetime_ 2009 12 15);
    ("3.0.17", datetime_ 2010 1 5);
    ("3.0.18", datetime_ 2010 2 17);
    ("3.0.19", datetime_ 2010 3 30);
    ("3.5.1", datetime_ 2009 7 16);
    ("3.5.2", datetime_ 2009 8 3);
    ("3.5.3", datetime_ 2009 9 9);
    ("3.5.4", datetime_ 2009 10 27);
    ("3.5.5", datetime_ 2009 11 5);
    ("3.5.6", datetime_ 2009 12 15);
    ("3.5.7", datetime_ 2010 1 5);
    ("3.5.8", datetime_ 2010 2 17);
    ("3.5.9", datetime_ 2010 3 30);
    ("3.5.10", datetime_ 2010 6 22);
    ("3.5.11", datetime_ 2010 7 20);
    ("3.5.12", datetime_ 2010 9 7);
    ("3.5.13", datetime_ 2010 9 15);
    ("3.5.14", datetime_ 2010 10 19);
    ("3.5.15", datetime_ 2010 10 27);
    ("3.5.16", datetime_ 2010 12 9);
    ("3.5.17", datetime_ 2011 3 1);
    ("3.5.18", datetime_ 2011 3 22);
    ("3.6.2", datetime_ 2010 3 22);
    ("3.6.3", datetime_ 2010 4 1);
    ("3.6.4", datetime_ 2010 6 22);
    ("3.6.6", datetime_ 2010 6 26);
    ("3.6.7", datetime_ 2010 7 20);
    ("3.6.8", datetime_ 2010 7 23);
    ("3.6.9", datetime_ 2010 9 7);
    ("3.6.10", datetime_ 2010 9 15);
    ("3.6.11", datetime_ 2010 10 19);
    ("3.6.12", datetime_ 2010 10 27);
    ("3.6.13", datetime_ 2010 12 9);
    ("3.6.14", datetime_ 2011 3 1);
    ("3.6.15", datetime_ 2011 3 4);
    ("3.6.16", datetime_ 2011 3 22);
    ("3.6.17", datetime_ 2011 4 28);
    ("3.6.18", datetime_ 2011 6 21);
    ("3.6.19", datetime_ 2011 7 11);
    ("3.6.20", datetime_ 2011 8 16);
    ("3.6.21", datetime_ 2011 8 30);
    ("3.6.22", datetime_ 2011 9 6);
    ("3.6.23", datetime_ 2011 9 27);
    ("3.6.24", datetime_ 2011 11 8);
    ("3.6.25", datetime_ 2011 12 20);
    ("3.6.26", datetime_ 2012 1 31);
    ("3.6.27", datetime_ 2012 2 17);
    ("4.0", datetime_ 2011 3 22);
    ("4.0.1", datetime_ 2011 4 28);
    ("5.0", datetime_ 2011 6 21);
    ("7.0", datetime_ 2011 9 27);
    ("8.0", datetime_ 2011 11 8);
    ("9.0", datetime_ 2011 12 20);
    ("5.0.1", datetime_ 2011 7 11);
    ("6.0", datetime_ 2011 8 16);
    ("6.0.1", datetime_ 2011 8 30);
    ("6.0.2", datetime_ 2011 9 6);
    ("7.0.1", datetime_ 2011 9 29);
    ("8.0.1", datetime_ 2011 11 21);
    ("9.0.1", datetime_ 2011 12 21);
    ("10.0", datetime_ 2012 1 31);
    ("11.0", datetime_ 2012 3 13);
    ("14.0.1", datetime_ 2012 7 17);
    ("10.0.1", datetime_ 2012 2 10);
    ("10.0.2", datetime_ 2012 2 16);
    ("10.0.3", datetime_ 2012 3 13);
    ("10.0.4", datetime_ 2012 4 24);
    ("10.0.5", datetime_ 2012 6 5);
    ("10.0.6", datetime_ 2012 7 17);
    ("10.0.7", datetime_ 2012 8 28);
    ("10.0.8", datetime_ 2012 10 9);
    ("10.0.9", datetime_ 2012 10 12);
    ("10.0.10", datetime_ 2012 10 26);
    ("10.0.11", datetime_ 2012 11 20);
    ("12.0", datetime_ 2012 4 24);
    ("13.0", datetime_ 2012 6 5);
    ("13.0.1", datetime_ 2012 6 15);
    ("15.0", datetime_ 2012 8 28);
    ("15.0.1", datetime_ 2012 9 6);
    ("16.0", datetime_ 2012 10 9);
    ("16.0.1", datetime_ 2012 10 11);
    ("16.0.2", datetime_ 2012 10 26);
    ("17.0", datetime_ 2012 11 20);
    ("17.0.1", datetime_ 2012 11 30);
    ("17.0.2", datetime_ 2013 1 8);
    ("17.0.3", datetime_ 2013 2 19);
    ("17.0.4", datetime_ 2013 3 7);
    ("17.0.5", datetime_ 2013 4 2);
    ("17.0.6", datetime_ 2013 5 14);
    ("17.0.7", datetime_ 2013 6 25);
    ("17.0.8", datetime_ 2013 8 6);
    ("17.0.9", datetime_ 2013 9 17);
    ("17.0.10", datetime_ 2013 10 29);
    ("17.0.11", datetime_ 2013 11 15);
    ("18.0", datetime_ 2013 1 6);
    ("18.0.1", datetime_ 2013 1 18);
    ("18.0.2", datetime_ 2013 2 5);
    ("19.0", datetime_ 2013 2 19);
    ("19.0.1", datetime_ 2013 2 27);
    ("19.0.2", datetime_ 2013 3 7);
    ("20.0", datetime_ 2013 4 2);
    ("20.0.1", datetime_ 2013 4 11);
    ("21.0", datetime_ 2013 5 14);
    ("22.0", datetime_ 2013 6 25);
    ("23.0", datetime_ 2013 8 6);
    ("23.0.1", datetime_ 2013 8 17);
    ("24.0", datetime_ 2013 9 17);
    ("24.1.0", datetime_ 2013 10 29);
    ("24.1.1", datetime_ 2013 11 15);
    ("24.2.0", datetime_ 2013 12 10);
    ("24.3.0", datetime_ 2013 12 10);
    ("24.4.0", datetime_ 2013 12 10);
    ("24.5.0", datetime_ 2013 12 10);
    ("24.6.0", datetime_ 2013 12 10);
    ("24.7.0", datetime_ 2013 12 10);
    ("24.8.0", datetime_ 2013 12 10);
    ("24.8.1", datetime_ 2013 12 10);
    ("25.0", datetime_ 2013 10 29);
    ("25.0.1", datetime_ 2013 11 15);
    ("26.0", datetime_ 2013 12 10);
    ("27.0", datetime_ 2014 2 4);
    ("27.0.1", datetime_ 2014 2 14);
    ("28.0", datetime_ 2014 3 18);
    ("29.0", datetime_ 2014 4 29);
    ("29.0.1", datetime_ 2014 5 9);
    ("30.0", datetime_ 2014 6 10);
    ("31.0", datetime_ 2014 7 22);
    ("31.1.0", datetime_ 2014 9 2);
    ("31.1.1", datetime_ 2014 9 2);
    ("31.2.0", datetime_ 2014 10 14);
    ("31.3.0", datetime_ 2014 12 1);
    ("31.4.0", datetime_ 2015 1 13);
    ("31.5.0", datetime_ 2015 2 24);
    ("31.5.3", datetime_ 2015 3 21);
    ("31.6.0", datetime_ 2015 3 31);
    ("31.7.0", datetime_ 2015 5 12);
    ("31.8.0", datetime_ 2015 7 2);
    ("32.0", datetime_ 2014 9 2);
    ("32.0.1", datetime_ 2014 9 12);
    ("32.0.2", datetime_ 2014 9 18);
    ("32.0.3", datetime_ 2014 9 24);
    ("33.0", datetime_ 2014 10 14);
    ("33.0.1", datetime_ 2014 10 24);
    ("33.0.2", datetime_ 2014 10 28);
    ("33.0.3", datetime_ 2014 11 7);
    ("33.1", datetime_ 2014 11 10);
    ("33.1.1", datetime_ 2014 11 14);
    ("34.0", datetime_ 2014 12 1);
    ("34.0.5", datetime_ 2014 12 1);
    ("35.0", datetime_ 2015 1 13);
    ("35.0.1", datetime_ 2015 1 27);
    ("36.0", datetime_ 2015 2 24);
    ("36.0.1", datetime_ 2015 3 6);
    ("36.0.2", datetime_ 2015 3 16);
    ("36.0.3", datetime_ 2015 3 20);
    ("36.0.4", datetime_ 2015 3 21);
    ("37.0", datetime_ 2015 3 31);
    ("37.0.1", datetime_ 2015 4 3);
    ("37.0.2", datetime_ 2015 4 20);
    ("38.0", datetime_ 2015 5 12);
    ("38.0.1", datetime_ 2015 5 14);
    ("38.1.0", datetime_ 2015 7 2);
    ("38.1.1", datetime_ 2015 8 6);
    ("38.2.0", datetime_ 2015 8 11);
    ("38.2.1", datetime_ 2015 8 27);
    ("38.3.0", datetime_ 2015 9 22);
    ("38.4.0", datetime_ 2015 11 3);
    ("38.5.0", datetime_ 2015 12 15);
    ("38.5.1", datetime_ 2015 12 21);
    ("38.5.2", datetime_ 2015 12 22);
    ("38.6.0", datetime_ 2016 1 26);
    ("38.6.1", datetime_ 2016 2 11);
    ("38.7.0", datetime_ 2016 3 8);
    ("38.7.1", datetime_ 2016 3 16);
    ("38.8.0", datetime_ 2016 4 26);
    ("38.0.5", datetime_ 2015 6 2);
    ("39.0", datetime_ 2015 7 2);
    ("39.0.3", datetime_ 2015 8 6);
    ("40.0", datetime_ 2015 8 11);
    ("40.0.2", datetime_ 2015 8 13);
    ("40.0.3", datetime_ 2015 8 27);
    ("41.0", datetime_ 2015 9 22);
    ("41.0.1", datetime_ 2015 9 30);
    ("41.0.2", datetime_ 2015 10 15);
    ("42.0", datetime_ 2015 11 3);
    ("43.0", datetime_ 2015 12 15);
    ("43.0.1", datetime_ 2015 12 18);
    ("43.0.2", datetime_ 2015 12 22);
    ("43.0.3", datetime_ 2015 12 28);
    ("43.0.4", datetime_ 2016 1 6);
    ("44.0", datetime_ 2016 1 26);
    ("44.0.1", datetime_ 2016 2 8);
    ("44.0.2", datetime_ 2016 2 11);
    ("45.0", datetime_ 2016 3 8);
    ("45.0.1", datetime_ 2016 3 16);
    ("45.0.2", datetime_ 2016 4 12);
    ("45.1.0", datetime_ 2016 4 26);
    ("45.1.1", datetime_ 2016 5 3);
    ("45.2.0", datetime_ 2016 6 7);
    ("45.3.0", datetime_ 2016 8 2);
    ("45.4.0", datetime_ 2016 9 20);
    ("45.5.0", datetime_ 2016 11 15);
    ("45.5.1", datetime_ 2016 11 30);
    ("45.6.0", datetime_ 2016 12 13);
    ("45.7.0", datetime_ 2017 1 24);
    ("45.8.0", datetime_ 2017 3 7);
    ("45.9.0", datetime_ 2017 4 19);
    ("46.0", datetime_ 2016 4 26);
    ("46.0.1", datetime_ 2016 5 3);
    ("47.0", datetime_ 2016 6 7);
    ("47.0.1", datetime_ 2016 6 28);
    ("48.0", datetime_ 2016 8 2);
    ("48.0.1", datetime_ 2016 8 18);
    ("48.0.2", datetime_ 2016 8 24);
    ("49.0", datetime_ 2016 8 2);
    ("49.0.1", datetime_ 2016 9 23);
    ("50.0", datetime_ 2016 11 15);
    ("50.0.1", datetime_ 2016 11 28);
    ("50.0.2", datetime_ 2016 11 30);
    ("51.0", datetime_ 2017 1 24);
    ("51.0.1", datetime_ 2017 1 26);
    ("52.0", datetime_ 2017 3 7);
    ("52.1.0", datetime_ 2017 4 19);
    ("52.1.1", datetime_ 2017 5 19);
    ("52.1.2", datetime_ 2017 5 19);
    ("52.2.0", datetime_ 2017 6 13);
    ("52.2.1", datetime_ 2017 6 29);
    ("52.3.0", datetime_ 2017 8 8);
    ("52.4.0", datetime_ 2017 9 28);
    ("52.4.1", datetime_ 2017 10 9);
    ("52.5.0", datetime_ 2017 12 7);
    ("52.5.3", datetime_ 2017 12 28);
    ("52.6.0", datetime_ 2018 1 23);
    ("52.7.0", datetime_ 2018 3 13);
    ("52.7.1", datetime_ 2018 3 14);
    ("52.7.2", datetime_ 2018 3 16);
    ("52.7.3", datetime_ 2018 3 26);
    ("52.7.4", datetime_ 2018 4 30);
    ("52.8.0", datetime_ 2018 5 9);
    ("52.8.1", datetime_ 2018 6 6);
    ("52.9.0", datetime_ 2018 6 26);
    ("53.0", datetime_ 2017 4 19);
    ("53.0.2", datetime_ 2017 5 5);
    ("53.0.3", datetime_ 2017 5 19);
    ("54.0", datetime_ 2017 6 13);
    ("54.0.1", datetime_ 2017 6 29);
    ("55.0", datetime_ 2017 8 8);
    ("55.0.1", datetime_ 2017 8 10);
    ("55.0.2", datetime_ 2017 8 16);
    ("55.0.3", datetime_ 2017 8 25);
    ("56.0", datetime_ 2017 9 28);
    ("56.0.1", datetime_ 2017 10 9);
    ("56.0.2", datetime_ 2017 10 26);
    ("57.0", datetime_ 2017 11 14);
    ("57.0.1", datetime_ 2017 11 29);
    ("57.0.2", datetime_ 2017 12 7);
    ("57.0.3", datetime_ 2017 12 28);
    ("57.0.4", datetime_ 2018 1 4);
    ("58.0", datetime_ 2018 1 23);
    ("58.0.1", datetime_ 2018 1 29);
    ("58.0.2", datetime_ 2018 2 7);
    ("59.0", datetime_ 2018 3 13);
    ("59.0.1", datetime_ 2018 3 16);
    ("59.0.2", datetime_ 2018 3 26);
    ("59.0.3", datetime_ 2018 4 30);
    ("60.0", datetime_ 2018 5 9);
    ("60.0.1", datetime_ 2018 5 16);
    ("60.0.2", datetime_ 2018 6 6);
    ("60.1.0", datetime_ 2018 6 26);
    ("60.2.0", datetime_ 2018 9 5);
    ("60.2.1", datetime_ 2018 9 21);
    ("60.2.2", datetime_ 2018 10 2);
    ("60.3.0", datetime_ 2018 10 23);
    ("60.4.0", datetime_ 2018 12 11);
    ("60.5.0", datetime_ 2019 1 29);
    ("60.5.1", datetime_ 2019 2 12);
    ("60.5.2", datetime_ 2019 2 22);
    ("60.6.0", datetime_ 2019 3 19);
    ("60.6.1", datetime_ 2019 3 22);
    ("60.6.2", datetime_ 2019 5 5);
    ("60.6.3", datetime_ 2019 5 8);
    ("60.7.0", datetime_ 2019 5 21);
    ("60.7.1", datetime_ 2019 6 18);
    ("60.7.2", datetime_ 2019 6 20);
    ("60.8.0", datetime_ 2019 7 9);
    ("60.9.0", datetime_ 2019 9 3);
    ("61.0", datetime_ 2018 6 26);
    ("61.0.1", datetime_ 2018 7 5);
    ("61.0.2", datetime_ 2018 8 8);
    ("62.0", datetime_ 2018 9 5);
    ("62.0.1", datetime_ 2018 9 7);
    ("62.0.2", datetime_ 2018 9 21);
    ("62.0.3", datetime_ 2018 10 2);
    ("63.0", datetime_ 2018 10 23);
    ("63.0.1", datetime_ 2018 10 31);
    ("63.0.2", datetime_ 2018 11 7);
    ("63.0.3", datetime_ 2018 11 15);
    ("64.0", datetime_ 2018 12 11);
    ("64.0.1", datetime_ 2018 12 14);
    ("64.0.2", datetime_ 2019 1 9);
    ("65.0", datetime_ 2019 1 29);
    ("65.0.1", datetime_ 2019 2 12);
    ("65.0.2", datetime_ 2019 2 28);
    ("66.0", datetime_ 2019 3 19);
    ("66.0.1", datetime_ 2019 3 22);
    ("66.0.2", datetime_ 2019 3 27);
    ("66.0.3", datetime_ 2019 4 10);
    ("66.0.4", datetime_ 2019 5 5);
    ("66.0.5", datetime_ 2019 5 7);
    ("67.0", datetime_ 2019 5 21);
    ("67.0.1", datetime_ 2019 6 4);
    ("67.0.2", datetime_ 2019 6 11);
    ("67.0.3", datetime_ 2019 6 18);
    ("67.0.4", datetime_ 2019 6 20);
    ("68.0", datetime_ 2019 7 13);
    ("68.0.1", datetime_ 2019 7 18);
    ("68.0.2", datetime_ 2019 8 14);
    ("68.1.0", datetime_ 2019 9 3);
    ("68.2.0", datetime_ 2019 10 22);
    ("68.3.0", datetime_ 2019 12 3);
    ("68.4.0", datetime_ 2020 1 7);
    ("68.4.1", datetime_ 2020 1 8);
    ("68.4.2", datetime_ 2020 1 20);
    ("68.5.0", datetime_ 2020 2 11);
    ("68.6.0", datetime_ 2020 3 10);
    ("68.6.1", datetime_ 2020 4 3);
    ("68.7.0", datetime_ 2020 4 7);
    ("68.8.0", datetime_ 2020 5 5);
    ("68.9.0", datetime_ 2020 6 2);
    ("68.10.0", datetime_ 2020 6 30);
    ("68.11.0", datetime_ 2020 7 28);
    ("68.12.0", datetime_ 2020 8 25);
    ("69.0", datetime_ 2019 9 3);
    ("69.0.1", datetime_ 2019 9 18);
    ("69.0.2", datetime_ 2019 10 3);
    ("69.0.3", datetime_ 2019 10 10);
    ("70.0", datetime_ 2019 10 22);
    ("70.0.1", datetime_ 2019 10 31);
    ("71.0", datetime_ 2019 12 3);
    ("72.0", datetime_ 2020 1 7);
    ("72.0.1", datetime_ 2020 1 8);
    ("72.0.2", datetime_ 2020 1 20);
    ("73.0", datetime_ 2020 2 11);
    ("73.0.1", datetime_ 2020 2 18);
    ("74.0", datetime_ 2020 3 10);
    ("74.0.1", datetime_ 2020 4 3);
    ("75.0", datetime_ 2020 4 7);
    ("76.0", datetime_ 2020 5 5);
    ("76.0.1", datetime_ 2020 5 8);
    ("77.0", datetime_ 2020 6 2);
    ("77.0.1", datetime_ 2020 6 3);
    ("78.0", datetime_ 2020 6 30);
    ("78.0.1", datetime_ 2020 7 1);
    ("78.0.2", datetime_ 2020 7 9);
    ("78.1.0", datetime_ 2020 7 28);
    ("78.2.0", datetime_ 2020 8 25);
    ("78.3.0", datetime_ 2020 9 22);
    ("78.3.1", datetime_ 2020 10 1);
    ("78.4.0", datetime_ 2020 10 20);
    ("78.4.1", datetime_ 2020 11 10);
    ("78.5.0", datetime_ 2020 11 17);
    ("78.6.0", datetime_ 2020 12 15);
    ("78.6.1", datetime_ 2021 1 6);
    ("79.0", datetime_ 2020 7 28);
    ("80.0", datetime_ 2020 8 25);
    ("80.0.1", datetime_ 2020 9 1);
    ("81.0", datetime_ 2020 9 22);
    ("81.0.1", datetime_ 2020 10 1);
    ("81.0.2", datetime_ 2020 10 13);
    ("82.0", datetime_ 2020 10 20);
    ("82.0.1", datetime_ 2020 10 27);
    ("82.0.2", datetime_ 2020 10 28);
    ("82.0.3", datetime_ 2020 11 10);
    ("83.0", datetime_ 2020 11 17);
    ("84.0", datetime_ 2020 12 15);
    ("84.0.1", datetime_ 2020 12 22);
    ("84.0.2", datetime_ 2021 1 6) ].

Definition CHROME_BUILD : list (Z * Z * Z) :=
  [ (49, 2623, 2623);
    (50, 2661, 2661);
    (51, 2704, 2704);
    (52, 2743, 2743);
    (53, 2785, 2785);
    (54, 2840, 2840);
    (55, 2883, 2883);
    (56, 2924, 2924);
    (57, 2987, 2987);
    (58, 3029, 3029);
    (59, 3071, 3071);
    (60, 3112, 3112);
    (61, 3163, 3163);
    (62, 3202, 3202);
    (63, 3239, 3239);
    (64, 3251, 3282);
    (65, 3325, 3325);
    (66, 3359, 3359);
    (67, 3396, 3396);
    (68, 3440, 3440);
    (69, 3497, 3497);
    (70, 3538, 3538);
    (71, 3578, 3578);
    (72, 3626, 3626);
    (73, 3683, 3683);
    (74, 3729, 3729);
    (75, 3770, 3770);
    (76, 3809, 3809);
    (77, 3865, 3865);
    (78, 3904, 3904);
    (79, 3945, 3945);
    (80, 3987, 3987);
    (81, 4044, 4044);
    (83, 4103, 4103);
    (84, 4147, 4147);
    (85, 4183, 4183);
    (86, 4240, 4240);
    (87, 4280, 4280) ].

(** (numeric ver, string ver, trident ver) *)
Definition IE_VERSION : list (Z * string * string) :=
  [ (8, "MSIE 8.0", "4.0");
    (9, "MSIE 9.0", "5.0");
    (10, "MSIE 10.0", "6.0");
    (11, "MSIE 11.0", "7.0") ].

(** A format string of [str.format], cut into its literal text and its
    replacement fields [{system[key]}] and [{app[key]}]. *)
Inductive piece : Type :=
| Lit (text : string)
| System (key : string)
| App (key : string).

Definition USER_AGENT_TEMPLATE : dict (list piece) :=
  [ ("firefox",
     [ Lit "Mozilla/5.0 ("; System "ua_platform"; Lit "; rv:";
       App "build_version"; Lit ") Gecko/"; App "geckotrail";
       Lit " Firefox/"; App "build_version" ]);
    ("chrome",
     [ Lit "Mozilla/5.0 ("; System "ua_platform";
       Lit ") AppleWebKit/537.36 (KHTML, like Gecko) Chrome/";
       App "build_version"; Lit " Safari/537.36" ]);
    ("chrome_smartphone",
     [ Lit "Mozilla/5.0 ("; System "ua_platform";
       Lit ") AppleWebKit/537.36 (KHTML, like Gecko) Chrome/";
       App "build_version"; Lit " Mobile Safari/537.36" ]);
    ("chrome_tablet",
     [ Lit "Mozilla/5.0 ("; System "ua_platform";
       Lit ") AppleWebKit/537.36 (KHTML, like Gecko) Chrome/";
       App "build_version"; Lit " Safari/537.36" ]);
    ("ie_less_11",
     [ Lit "Mozilla/5.0 (compatible; "; App "build_version"; Lit "; ";
       System "ua_platform"; Lit "; Trident/"; App "trident_version";
       Lit ")" ]);
    ("ie_11",
     [ Lit "Mozilla/5.0 ("; System "ua_platform"; Lit "; Trident/";
       App "trident_version"; Lit "; rv:11.0) like Gecko" ]) ].

Definition MACOSX_CHROME_BUILD_RANGE : dict (Z * Z) :=
  [ ("10.8", (0, 8)); ("10.9", (0, 5)); ("10.10", (0, 5)); ("10.11", (0, 6));
    ("10.12", (0, 6)); ("10.13", (0, 6)); ("10.14", (0, 6)); ("10.15", (0, 7));
    ("11.0", (0, 2)) ].

(* ===================================================================== *)
(** ** The program *)
(* ===================================================================== *)

Definition entry_eqb (a b : string * datetime) : bool :=
  String.eqb (fst a) (fst b) && datetime_eqb (snd a) (snd b).

(** [sec_range] is a whole number of seconds (a float in the source). *)
Definition get_firefox_build : M (string * string) :=
  '(build_ver, date_from) <- choice FIREFOX_VERSION ;;
  date_to <- try_except_IndexError
               (idx <- lift (index entry_eqb (build_ver, date_from)
                                   FIREFOX_VERSION) ;;
                '(_, date_to) <- lift (subscript FIREFOX_VERSION (S idx)) ;;
                ret date_to)
               (lift (dt_add date_from (timedelta_ 1 0))) ;;
  let sec_range := total_seconds (dt_sub date_to date_from) - 1 in
  k <- randint 0 (Z.max sec_range 100000) ;;
  build_rnd_time <- lift (dt_add date_from (timedelta_ 0 k)) ;;
  ret (build_ver, strftime_YmdHMS build_rnd_time).

Definition get_chrome_build : M string :=
  '(major, lo, hi) <- choice CHROME_BUILD ;;
  b <- randint lo hi ;;
  p <- randint 0 120 ;;
  ret (str_int major ++ ".0." ++ str_int b ++ "." ++ str_int p).

Definition get_ie_build : M (Z * string * string) := choice IE_VERSION.

Definition fix_chrome_mac_platform (platform : string) : M string :=
  ver <- lift (subscript (split platform "OS X ") 1) ;;
  '(lo, hi) <- lift (getitem MACOSX_CHROME_BUILD_RANGE ver) ;;
  let build_range := range lo hi in
  build <- choice build_range ;;
  let mac_ver := replace_char "." "_" ver ++ "_" ++ str_int build in
  ret ("Macintosh; Intel Mac OS X " ++ mac_ver).

Section WithDevice.

Variable device : device_module.

Definition build_system_components (device_type os_id navigator_id : string)
  : M (dict pyval) :=
  if String.eqb os_id "win" then
    versions <- lift (getitem OS_PLATFORM "win") ;;
    platform_version <- choice versions ;;
    cpus <- lift (getitem OS_CPU "win") ;;
    cpu <- choice cpus ;;
    let platform := if truthy cpu then platform_version ++ "; " ++ cpu
                    else platform_version in
    ret [ ("platform_version", VStr platform_version);
          ("platform", VStr platform);
          ("ua_platform", VStr platform);
          ("oscpu", VStr platform) ]
  else if String.eqb os_id "linux" then
    cpus <- lift (getitem OS_CPU "linux") ;;
    cpu <- choice cpus ;;
    versions <- lift (getitem OS_PLATFORM "linux") ;;
    platform_version <- choice versions ;;
    let platform := platform_version ++ " " ++ cpu in
    ret [ ("platform_version", VStr platform_version);
          ("platform", VStr platform);
          ("ua_platform", VStr platform);
          ("oscpu", VStr ("Linux " ++ cpu)) ]
  else if String.eqb os_id "mac" then
    cpus <- lift (getitem OS_CPU "mac") ;;
    cpu <- choice cpus ;;
    versions <- lift (getitem OS_PLATFORM "mac") ;;
    platform_version <- choice versions ;;
    platform <- (if String.eqb navigator_id "chrome"
                 then fix_chrome_mac_platform platform_version
                 else ret platform_version) ;;
    tail <- lift (last_item (split platform " ")) ;;
    ret [ ("platform_version", VStr platform_version);
          ("platform", VStr "MacIntel");
          ("ua_platform", VStr platform);
          ("oscpu", VStr ("Intel Mac OS X " ++ tail)) ]
  else if String.eqb os_id "android" then
    _ <- assert (mem navigator_id ["firefox"; "chrome"]) ;;
    _ <- assert (mem device_type ["smartphone"; "tablet"]) ;;
    versions <- lift (getitem OS_PLATFORM "android") ;;
    platform_version <- choice versions ;;
    (* [None]: the local [ua_platform] was never assigned *)
    ua_platform <-
      (if String.eqb navigator_id "firefox" then
         if String.eqb device_type "smartphone"
         then ret (Some (platform_version ++ "; Mobile"))
         else if String.eqb device_type "tablet"
         then ret (Some (platform_version ++ "; Tablet"))
         else ret None
       else if String.eqb navigator_id "chrome" then
         device_id <- choice (SMARTPHONE_DEV_IDS device) ;;
         ret (Some ("Linux; " ++ platform_version ++ "; " ++ device_id))
       else ret None) ;;
    cpus <- lift (getitem OS_CPU "android") ;;
    cpu <- choice cpus ;;
    let oscpu := "Linux " ++ cpu in
    match ua_platform with
    | None => raise (UnboundLocalError "ua_platform")
    | Some ua_platform =>
        ret [ ("platform_version", VStr platform_version);
              ("ua_platform", VStr ua_platform);
              ("platform", VStr oscpu);
              ("oscpu", VStr oscpu) ]
    end
  else raise (UnboundLocalError "res").

Definition build_app_components (os_id navigator_id : string)
  : M (dict pyval) :=
  if String.eqb navigator_id "firefox" then
    '(build_version, build_id) <- get_firefox_build ;;
    let geckotrail := if mem os_id ["win"; "linux"; "mac"]
                      then "20100101" else build_version in
    ret [ ("name", VStr "Netscape");
          ("product_sub", VStr "20100101");
          ("vendor", VStr "");
          ("build_version", VStr build_version);
          ("build_id", VStr build_id);
          ("geckotrail", VStr geckotrail) ]
  else if String.eqb navigator_id "chrome" then
    build_version <- get_chrome_build ;;
    ret [ ("name", VStr "Netscape");
          ("product_sub", VStr "20030107");
          ("vendor", VStr "Google Inc.");
          ("build_version", VStr build_version);
          ("build_id", VNone) ]
  else if String.eqb navigator_id "ie" then
    '(num_ver, build_version, trident_version) <- get_ie_build ;;
    let app_name := if 11 <=? num_ver then "Netscape"
                    else "Microsoft Internet Explorer" in
    ret [ ("name", VStr app_name);
          ("product_sub", VNone);
          ("vendor", VStr "");
          ("build_version", VStr build_version);
          ("build_id", VNone);
          ("trident_version", VStr trident_version) ]
  else raise (UnboundLocalError "res").

(** A filter argument as the caller passes it: [None], a string, a list or
    tuple of strings, or any other object (kept as its rendering by [%s]). *)
Inductive optarg : Type :=
| ArgNone
| ArgStr (s : string)
| ArgSeq (items : list string)
| ArgOther (repr : string).

Definition is_None (a : optarg) : bool :=
  match a with ArgNone => true | _ => false end.

(** The loop [for item in choices: if item not in all_choices: raise ...]. *)
Fixpoint check_choices (opt_name : string) (all_choices choices : list string)
  : outcome unit :=
  match choices with
  | [] => Return tt
  | item :: rest =>
      if mem item all_choices
      then check_choices opt_name all_choices rest
      else Raise (InvalidOption ("Choices of option " ++ opt_name ++
                                 " contains invalid item: " ++ item))
  end.

Definition get_option_choices (opt_name : string) (opt_value : optarg)
  (default_value all_choices : list string) : outcome (list string) :=
  choices <~ match opt_value with
             | ArgStr s => Return [s]
             | ArgSeq items => Return items
             | ArgNone => Return default_value
             | ArgOther repr =>
                 Raise (InvalidOption ("Option " ++ opt_name ++
                                       " has invalid value: " ++ repr))
             end ;;
  let choices := if mem "all" choices then all_choices else choices in
  _ <~ check_choices opt_name all_choices choices ;;
  Return choices.

(** The test of the loop body of [pick_config_ids]; [and] short-circuits. *)
Definition compatible (dev os nav : string) : outcome bool :=
  oses <~ getitem DEVICE_TYPE_OS dev ;;
  if mem os oses then
    navs <~ getitem DEVICE_TYPE_NAVIGATOR dev ;;
    if mem nav navs then
      navs' <~ getitem OS_NAVIGATOR os ;;
      Return (mem nav navs')
    else Return false
  else Return false.

(** The loop over [product(...)], appending to [variants]. *)
Fixpoint collect_variants (triples variants : list (string * string * string))
  : outcome (list (string * string * string)) :=
  match triples with
  | [] => Return variants
  | (dev, os, nav) :: rest =>
      keep <~ compatible dev os nav ;;
      collect_variants rest
        (if keep then (variants ++ [(dev, os, nav)])%list else variants)
  end.

Definition conflict_message : string :=
  "Options device_type, os and navigator conflicts with each other".

Definition pick_config_ids (device_type os navigator : optarg)
  : M (string * string * string) :=
  let default_dev_types :=
    if is_None os then ["desktop"] else keys DEVICE_TYPE_OS in
  dev_type_choices <- lift (get_option_choices "device_type" device_type
                              default_dev_types (keys DEVICE_TYPE_OS)) ;;
  os_choices <- lift (get_option_choices "os" os
                        (keys OS_NAVIGATOR) (keys OS_NAVIGATOR)) ;;
  nav_choices <- lift (get_option_choices "navigator" navigator
                         (keys NAVIGATOR_OS) (keys NAVIGATOR_OS)) ;;
  variants <- lift (collect_variants
                      (product3 dev_type_choices os_choices nav_choices) []) ;;
  match variants with
  | [] => raise (InvalidOption conflict_message)
  | _ =>
      '(device_type, os_id, navigator_id) <- choice variants ;;
      _ <- assert (has_key OS_PLATFORM os_id) ;;
      _ <- assert (has_key NAVIGATOR_OS navigator_id) ;;
      _ <- assert (has_key DEVICE_TYPE_OS device_type) ;;
      ret (device_type, os_id, navigator_id)
  end.

Definition choose_ua_template (device_type navigator_id : string)
  (app : dict pyval) : outcome (list piece) :=
  tpl_name <~ (if String.eqb navigator_id "ie" then
                 v <~ getitem app "build_version" ;;
                 Return (if pyval_eqb v (VStr "MSIE 11.0")
                         then "ie_11" else "ie_less_11")
               else Return navigator_id) ;;
  let tpl_name :=
    if String.eqb navigator_id "chrome" then
      let tpl_name := if String.eqb device_type "smartphone"
                      then "chrome_smartphone" else tpl_name in
      if String.eqb device_type "tablet" then "chrome_tablet" else tpl_name
    else tpl_name in
  getitem USER_AGENT_TEMPLATE tpl_name.

(** [template.format(system=system, app=app)] *)
Fixpoint format (template : list piece) (system app : dict pyval)
  : outcome string :=
  match template with
  | [] => Return ""
  | Lit text :: rest =>
      tail <~ format rest system app ;; Return (text ++ tail)
  | System key :: rest =>
      v <~ getitem system key ;;
      tail <~ format rest system app ;; Return (str_of v ++ tail)
  | App key :: rest =>
      v <~ getitem app key ;;
      tail <~ format rest system app ;; Return (str_of v ++ tail)
  end.

Definition build_navigator_app_version (os_id navigator_id : string)
  (platform_version : pyval) (user_agent : string) : M string :=
  if mem navigator_id ["chrome"; "ie"] then
    _ <- assert (startswith user_agent "Mozilla/") ;;
    lift (subscript (split_once user_agent "Mozilla/") 1)
  else if String.eqb navigator_id "firefox" then
    if String.eqb os_id "android"
    then ret ("5.0 (" ++ str_of platform_version ++ ")")
    else
      os_token <- lift (getitem [ ("win", "Windows");
                                  ("mac", "Macintosh");
                                  ("linux", "X11") ] os_id) ;;
      ret ("5.0 (" ++ os_token ++ ")")
  else raise (UnboundLocalError "app_version").

Definition deprecation_message : string :=
  "The `platform` option is deprecated. Use `os` option instead.".

Definition generate_navigator (os navigator platform device_type : optarg)
  : M (dict pyval) :=
  os <- (if is_None platform then ret os
         else (_ <- warn deprecation_message 3 ;; ret platform)) ;;
  '(device_type, os_id, navigator_id) <-
    pick_config_ids device_type os navigator ;;
  system <- build_system_components device_type os_id navigator_id ;;
  app <- build_app_components os_id navigator_id ;;
  ua_template <- lift (choose_ua_template device_type navigator_id app) ;;
  user_agent <- lift (format ua_template system app) ;;
  platform_version <- lift (getitem system "platform_version") ;;
  app_version <- build_navigator_app_version os_id navigator_id
                   platform_version user_agent ;;
  platform <- lift (getitem system "platform") ;;
  oscpu <- lift (getitem system "oscpu") ;;
  build_version <- lift (getitem app "build_version") ;;
  build_id <- lift (getitem app "build_id") ;;
  name <- lift (getitem app "name") ;;
  product_sub <- lift (getitem app "product_sub") ;;
  vendor <- lift (getitem app "vendor") ;;
  ret [ ("os_id", VStr os_id);
        ("navigator_id", VStr navigator_id);
        ("platform", platform);
        ("oscpu", oscpu);
        ("build_version", build_version);
        ("build_id", build_id);
        ("app_version", VStr app_version);
        ("app_name", name);
        ("app_code_name", VStr "Mozilla");
        ("product", VStr "Gecko");
        ("product_sub", product_sub);
        ("vendor", vendor);
        ("vendor_sub", VStr "");
        ("user_agent", VStr user_agent) ].

Definition generate_user_agent (os navigator platform device_type : optarg)
  : M pyval :=
  config <- generate_navigator os navigator platform device_type ;;
  lift (getitem config "user_agent").

Definition generate_navigator_js (os navigator platform device_type : optarg)
  : M (dict pyval) :=
  config <- generate_navigator os navigator platform device_type ;;
  appCodeName <- lift (getitem config "app_code_name") ;;
  appName <- lift (getitem config "app_name") ;;
  appVersion <- lift (getitem config "app_version") ;;
  platform <- lift (getitem config "platform") ;;
  userAgent <- lift (getitem config "user_agent") ;;
  oscpu <- lift (getitem config "oscpu") ;;
  product <- lift (getitem config "product") ;;
  productSub <- lift (getitem config "product_sub") ;;
  vendor <- lift (getitem config "vendor") ;;
  vendorSub <- lift (getitem config "vendor_sub") ;;
  buildID <- lift (getitem config "build_id") ;;
  ret [ ("appCodeName", appCodeName);
        ("appName", appName);
        ("appVersion", appVersion);
        ("platform", platform);
        ("userAgent", userAgent);
        ("oscpu", oscpu);
        ("product", product);
        ("productSub", productSub);
        ("vendor", vendor);
        ("vendorSub", vendorSub);
        ("buildID", buildID) ].

End WithDevice.

(* ===================================================================== *)
(** ** Vocabulary of the properties *)
(* ===================================================================== *)

(** The eleven triples accepted by the three compatibility mappings. *)
Definition COMPATIBLE_TRIPLES : list (string * string * string) :=
  [ ("desktop", "win", "chrome"); ("desktop", "win", "firefox");
    ("desktop", "win", "ie");
    ("desktop", "mac", "firefox"); ("desktop", "mac", "chrome");
    ("desktop", "linux", "chrome"); ("desktop", "linux", "firefox");
    ("smartphone", "android", "firefox"); ("smartphone", "android", "chrome");
    ("tablet", "android", "firefox"); ("tablet", "android", "chrome") ].


(** A value a filter may hold: a member of the axis's enumeration, or the
    sentinel ["all"]. *)
Definition valid_value (all_choices : list string) (v : string) : bool :=
  mem v all_choices || String.eqb v "all".

(** The values a filter argument holds. *)
Definition values_of (a : optarg) : list string :=
  match a with
  | ArgNone => []
  | ArgStr s => [s]
  | ArgSeq items => items
  | ArgOther repr => [repr]
  end.

(** A filter argument all of whose values are valid. *)
Definition valid_arg (all_choices : list string) (a : optarg) : bool :=
  match a with
  | ArgOther _ => false
  | _ => forallb (valid_value all_choices) (values_of a)
  end.

(** The choice set a valid filter stands for: the default when unset, the
    whole axis when ["all"] is among the values. *)
Definition choice_set (default_value all_choices : list string) (a : optarg)
  : list string :=
  let given := match a with ArgNone => default_value | _ => values_of a end in
  if mem "all" given then all_choices else given.

(** The first value of a filter argument that is not a member of the axis,
    when the argument does not hold ["all"] as well. *)
Definition offending (all_choices : list string) (a : optarg) : option string :=
  match a with
  | ArgNone => None
  | ArgOther repr => Some repr
  | _ => if mem "all" (values_of a) then None
         else find (fun v => negb (mem v all_choices)) (values_of a)
  end.

(** The [os] filter in force: the deprecated [platform] takes its place when
    given. *)
Definition effective_os (os platform : optarg) : optarg :=
  if is_None platform then os else platform.

Definition default_dev_types (os : optarg) : list string :=
  if is_None os then ["desktop"] else keys DEVICE_TYPE_OS.

(** The first offending option, in the order the options are examined, with
    its offending value. *)
Definition first_offending (device_type os navigator : optarg)
  : option (string * string) :=
  match offending (keys DEVICE_TYPE_OS) device_type with
  | Some v => Some ("device_type", v)
  | None =>
      match offending (keys OS_NAVIGATOR) os with
      | Some v => Some ("os", v)
      | None =>
          match offending (keys NAVIGATOR_OS) navigator with
          | Some v => Some ("navigator", v)
          | None => None
          end
      end
  end.

(** The world once the deprecation notice of [platform] has been emitted. *)
Definition after_notice (platform : optarg) (w : world) : world :=
  if is_None platform then w
  else mkWorld (tape w) (pos w)
         (warnings w ++ [(deprecation_message, 3)])%list.

(** What [get_option_choices] raises on an offending argument. *)
Definition offending_message (name : string) (a : optarg) (v : string)
  : string :=
  match a with
  | ArgOther _ => "Option " ++ name ++ " has invalid value: " ++ v
  | _ => "Choices of option " ++ name ++ " contains invalid item: " ++ v
  end.

(** *** Reading a build id back *)

Definition is_digit (c : ascii) : bool :=
  (48 <=? Z.of_nat (nat_of_ascii c)) && (Z.of_nat (nat_of_ascii c) <=? 57).

Fixpoint all_digits (s : string) : bool :=
  match s with
  | EmptyString => true
  | String c s' => is_digit c && all_digits s'
  end.

(** The number a string of decimal digits denotes. *)
Fixpoint read_digits (acc : Z) (s : string) : Z :=
  match s with
  | EmptyString => acc
  | String c s' => read_digits (acc * 10 + (Z.of_nat (nat_of_ascii c) - 48)) s'
  end.

(** The datetime a [YYYYMMDDHHMMSS] string of 14 digits encodes. *)
Definition parse_build_id (s : string) : option datetime :=
  if (String.length s =? 14)%nat && all_digits s
  then Some (mk_datetime (read_digits 0 (substring 0 4 s))
                         (read_digits 0 (substring 4 2 s))
                         (read_digits 0 (substring 6 2 s))
                         (read_digits 0 (substring 8 2 s))
                         (read_digits 0 (substring 10 2 s))
                         (read_digits 0 (substring 12 2 s)))
  else None.

(** Seconds elapsed since the start of day 0 of the proleptic calendar. *)
Definition seconds_of (t : datetime) : Z :=
  toordinal t * 86400 + second_of_day t.

(** A calendar date and time of day with a four-digit year. *)
Definition well_formed (t : datetime) : Prop :=
  1000 <= year t <= 9999 /\ 1 <= month t <= 12 /\ 1 <= day t <= 31 /\
  0 <= hour t < 24 /\ 0 <= minute t < 60 /\ 0 <= second t < 60.

(** The end of the sampling window of the table entry at position [i]: the
    date of the next entry, or one day after the release for the last one. *)
Definition window_end (i : nat) (release : datetime) : Z :=
  match nth_error FIREFOX_VERSION (S i) with
  | Some (_, next) => seconds_of next
  | None => seconds_of release + 86400
  end.

(** The try block of [get_firefox_build], which draws nothing. *)
Definition date_to_of (e : string * datetime) : outcome datetime :=
  match (idx <~ index entry_eqb e FIREFOX_VERSION ;;
         '(_, date_to) <~ subscript FIREFOX_VERSION (S idx) ;;
         Return date_to) with
  | Raise IndexError => dt_add (snd e) (timedelta_ 1 0)
  | r => r
  end.

(** Ordinals of the first day and of a day past the last one that a build
    time can fall on. *)
Definition FIRST_DAY : Z := ymd2ord 2004 1 1.
Definition LAST_DAY : Z := ymd2ord 2022 1 1.

Definition day_ok (n : Z) : bool :=
  let '(y, m, d) := ord2ymd n in
  (1000 <=? y) && (y <=? 9999) && (1 <=? m) && (m <=? 12) &&
  (1 <=? d) && (d <=? 31) && (ymd2ord y m d =? n).

Definition four_digits_ok (y : Z) : bool :=
  (String.length (str_int y) =? 4)%nat && all_digits (str_int y) &&
  (read_digits 0 (str_int y) =? y).

Definition two_digits_ok (n : Z) : bool :=
  (String.length (fmt02 n) =? 2)%nat && all_digits (fmt02 n) &&
  (read_digits 0 (fmt02 n) =? n).

(** What is checked of the table entry at position [i], by evaluation. *)
Definition entry_ok (i : nat) : bool :=
  match nth_error FIREFOX_VERSION i with
  | None => false
  | Some (ver, release) =>
      match date_to_of (ver, release) with
      | Raise _ => false
      | Return date_to =>
          (seconds_of date_to =? window_end i release) &&
          (second_of_day release =? 0) &&
          (FIRST_DAY <=? toordinal release) &&
          (toordinal release +
             Z.max (total_seconds (dt_sub date_to release) - 1) 100000 / 86400
           <? LAST_DAY) &&
          (total_seconds (dt_sub date_to release) =?
           seconds_of date_to - seconds_of release)
      end
  end.

(** A seed whose first raw values are [draws] (and 0 afterwards), with
    nothing consumed and no warning emitted yet. *)
Definition seed (draws : list Z) : world :=
  mkWorld (fun i => nth i draws 0) O [].

(** The window the sampled time is claimed to fall in, for the table entry
    at position [i]: from the release date up to, and excluding, the next
    entry's date (one day later for the last entry). *)
Definition in_release_window (i : nat) (release t : datetime) : Prop :=
  seconds_of release <= seconds_of t < window_end i release.

(** The window the sampled time does fall in: the span is never taken
    shorter than 100000 seconds, both ends included. *)
Definition in_sampling_window (i : nat) (release t : datetime) : Prop :=
  seconds_of release <= seconds_of t <=
  seconds_of release +
  Z.max (window_end i release - seconds_of release - 1) 100000.

(** The rest of [generate_navigator] once the three ids are picked. *)
Definition navigator_of_ids (device : device_module)
  (device_type os_id navigator_id : string) : M (dict pyval) :=
  system <- build_system_components device device_type os_id navigator_id ;;
  app <- build_app_components os_id navigator_id ;;
  ua_template <- lift (choose_ua_template device_type navigator_id app) ;;
  user_agent <- lift (format ua_template system app) ;;
  platform_version <- lift (getitem system "platform_version") ;;
  app_version <- build_navigator_app_version os_id navigator_id
                   platform_version user_agent ;;
  platform <- lift (getitem system "platform") ;;
  oscpu <- lift (getitem system "oscpu") ;;
  build_version <- lift (getitem app "build_version") ;;
  build_id <- lift (getitem app "build_id") ;;
  name <- lift (getitem app "name") ;;
  product_sub <- lift (getitem app "product_sub") ;;
  vendor <- lift (getitem app "vendor") ;;
  ret [ ("os_id", VStr os_id);
        ("navigator_id", VStr navigator_id);
        ("platform", platform);
        ("oscpu", oscpu);
        ("build_version", build_version);
        ("build_id", build_id);
        ("app_version", VStr app_version);
        ("app_name", name);
        ("app_code_name", VStr "Mozilla");
        ("product", VStr "Gecko");
        ("product_sub", product_sub);
        ("vendor", vendor);
        ("vendor_sub", VStr "");
        ("user_agent", VStr user_agent) ].

(** [v in m[k]] for one of the compatibility mappings. *)
Definition allowed (m : dict (list string)) (k v : string) : bool :=
  match getitem m k with
  | Return l => mem v l
  | Raise _ => false
  end.

(** A triple that satisfies the three pairwise compatibility mappings. *)
Definition accepted (t : string * string * string) : bool :=
  let '(dev, os, nav) := t in
  allowed DEVICE_TYPE_OS dev os &&
  allowed DEVICE_TYPE_NAVIGATOR dev nav &&
  allowed OS_NAVIGATOR os nav.

(** The Cartesian product of the three choice sets of valid filters. *)
Definition candidates (device_type os navigator : optarg)
  : list (string * string * string) :=
  product3
    (choice_set (default_dev_types os) (keys DEVICE_TYPE_OS) device_type)
    (choice_set (keys OS_NAVIGATOR) (keys OS_NAVIGATOR) os)
    (choice_set (keys NAVIGATOR_OS) (keys NAVIGATOR_OS) navigator).

(** Filters whose values are all valid. *)
Definition valid_filters (device_type os navigator : optarg) : bool :=
  valid_arg (keys DEVICE_TYPE_OS) device_type &&
  valid_arg (keys OS_NAVIGATOR) os &&
  valid_arg (keys NAVIGATOR_OS) navigator.

(** A device catalog to run the generator on. *)
Definition sample_device : device_module :=
  {| SMARTPHONE_DEV_IDS := ["SM-G900F"; "Nexus 5"];
     TABLET_DEV_IDS := ["SM-T550"] |}.

(** A string of exactly 14 decimal digits that reads as a calendar date and
    time of day, [YYYYMMDDHHMMSS]. *)
Definition is_timestamp14 (s : string) : Prop :=
  String.length s = 14%nat /\ all_digits s = true /\
  exists t, parse_build_id s = Some t /\ well_formed t.

(** The keys of the config that [generate_navigator] returns, in order. *)
Definition CONFIG_KEYS : list string :=
  [ "os_id"; "navigator_id"; "platform"; "oscpu"; "build_version";
    "build_id"; "app_version"; "app_name"; "app_code_name"; "product";
    "product_sub"; "vendor"; "vendor_sub"; "user_agent" ].

(** The keys of the record that [generate_navigator_js] returns, in order,
    each with the config key it is read from. *)
Definition JS_KEYS : list (string * string) :=
  [ ("appCodeName", "app_code_name"); ("appName", "app_name");
    ("appVersion", "app_version"); ("platform", "platform");
    ("userAgent", "user_agent"); ("oscpu", "oscpu");
    ("product", "product"); ("productSub", "product_sub");
    ("vendor", "vendor"); ("vendorSub", "vendor_sub");
    ("buildID", "build_id") ].

(** The first replacement field of a template, from the left, whose key is
    not in the dict it reads. *)
Fixpoint first_missing (template : list piece) (system app : dict pyval)
  : option string :=
  match template with
  | [] => None
  | Lit _ :: rest => first_missing rest system app
  | System key :: rest =>
      if has_key system key then first_missing rest system app else Some key
  | App key :: rest =>
      if has_key app key then first_missing rest system app else Some key
  end.

(** A world whose next raw value is [v]. *)
Definition world_drawing (v : Z) : world := mkWorld (fun _ => v) O [].

(* ===================================================================== *)
(** ** Reasoning about statements *)
(* ===================================================================== *)

#[local] Arguments String.eqb : simpl never.

Lemma bind_Return_inv {A B} (c : M A) (k : A -> M B) w b w' :
  bind c k w = (Return b, w') ->
  exists a w1, c w = (Return a, w1) /\ k a w1 = (Return b, w').
Proof.
  unfold bind. destruct (c w) as [[a|e] w1]; intros H.
  - now exists a, w1.
  - discriminate.
Qed.

Lemma bind_Return {A B} (c : M A) (k : A -> M B) w a w1 :
  c w = (Return a, w1) -> bind c k w = k a w1.
Proof. unfold bind. now intros ->. Qed.

Lemma bind_Raise {A B} (c : M A) (k : A -> M B) w e w1 :
  c w = (Raise e, w1) -> bind c k w = (Raise e, w1).
Proof. unfold bind. now intros ->. Qed.

Lemma lift_Return_inv {A} (c : outcome A) w a w' :
  lift c w = (Return a, w') -> c = Return a /\ w' = w.
Proof. unfold lift. intros H. inversion H. auto. Qed.

Lemma ret_inv {A} (x a : A) w w' :
  ret x w = (Return a, w') -> a = x /\ w' = w.
Proof. unfold ret. intros H. inversion H. auto. Qed.

Lemma obind_Return_inv {A B} (c : outcome A) (k : A -> outcome B) b :
  obind c k = Return b -> exists a, c = Return a /\ k a = Return b.
Proof. destruct c as [a|e]; simpl; intros H; [now exists a | discriminate]. Qed.

Lemma assert_Return_inv (cond : bool) w u w' :
  assert cond w = (Return u, w') -> cond = true /\ w' = w.
Proof.
  destruct cond; unfold assert, ret, raise; intros H; inversion H; auto.
Qed.

(** Every draw of [choice] on a non-empty sequence returns one of its
    elements and consumes one raw value. *)
Lemma choice_nth {A} (l : list A) w :
  l <> [] ->
  exists i x, (i < length l)%nat /\ nth_error l i = Some x /\
              choice l w = (Return x, advance w).
Proof.
  destruct l as [|d l]; [congruence|]. intros _.
  unfold choice, bind, randbelow, ret.
  set (n := Z.of_nat (length (d :: l))).
  set (i := Z.to_nat (tape w (pos w) mod n)).
  assert (Hi : (i < length (d :: l))%nat).
  { assert (0 < n) by (subst n; simpl length; lia).
    pose proof (Z.mod_pos_bound (tape w (pos w)) n H). lia. }
  exists i, (nth i (d :: l) d). split; [assumption|]. split; [|reflexivity].
  now apply nth_error_nth'.
Qed.

Lemma choice_spec {A} (l : list A) w :
  l <> [] ->
  exists x, In x l /\ choice l w = (Return x, advance w).
Proof.
  intros H. destruct (choice_nth l w H) as (i & x & _ & Hx & E).
  exists x. split; [now apply nth_error_In in Hx | assumption].
Qed.

Lemma choice_Return_inv {A} (l : list A) w x w' :
  choice l w = (Return x, w') -> In x l /\ w' = advance w.
Proof.
  destruct l as [|d l].
  - unfold choice, raise. discriminate.
  - intros H. destruct (choice_spec (d :: l) w) as (y & Hy & E); [congruence|].
    rewrite E in H. inversion H; subst. auto.
Qed.

Lemma randint_spec a b w :
  a <= b ->
  exists k, a <= k <= b /\ randint a b w = (Return k, advance w).
Proof.
  intros Hab. unfold randint.
  destruct (Z.ltb_spec b a); [lia|].
  unfold bind, randbelow, ret.
  exists (a + tape w (pos w) mod (b - a + 1)). split; [|reflexivity].
  pose proof (Z.mod_pos_bound (tape w (pos w)) (b - a + 1)). lia.
Qed.

Lemma mem_In x l : mem x l = true <-> In x l.
Proof.
  unfold mem. rewrite existsb_exists. split.
  - intros (y & Hy & E). apply String.eqb_eq in E. now subst.
  - intros H. exists x. split; [assumption | apply String.eqb_refl].
Qed.

(** Inversion of a successful run, one statement at a time. *)
Ltac step_in H :=
  let a := fresh "v" in
  let w1 := fresh "w" in
  let H1 := fresh "Hrun" in
  apply bind_Return_inv in H; destruct H as (a & w1 & H1 & H).

Ltac lift_in H :=
  let E := fresh "E" in
  apply lift_Return_inv in H; destruct H as [E ->].

(* ===================================================================== *)
(** ** The constraint solver *)
(* ===================================================================== *)

Ltac case_eqb s t :=
  let b := eval vm_compute in (String.eqb s t) in
  lazymatch b with
  | true => change (String.eqb s t) with true
  | false => change (String.eqb s t) with false
  | _ =>
      first [is_var s | is_var t];
      let E := fresh "E" in
      destruct (String.eqb_spec s t) as [E|E]; [subst|]
  end.

(** Unfold the lookups in the catalogs, leaving string comparisons alone. *)
Ltac lookup_tables :=
  unfold DEVICE_TYPE_OS, DEVICE_TYPE_NAVIGATOR, OS_NAVIGATOR, NAVIGATOR_OS,
    OS_PLATFORM, OS_CPU, USER_AGENT_TEMPLATE, MACOSX_CHROME_BUILD_RANGE;
  cbn [getitem obind mem existsb orb andb keys has_key map fst snd].

Ltac split_eqb :=
  repeat match goal with
  | |- context [String.eqb ?a ?b] => case_eqb a b; lookup_tables
  end.

Lemma getitem_Return_keys {V} (d : dict V) k v :
  getitem d k = Return v -> In k (keys d).
Proof.
  induction d as [|[k' v'] d IH]; simpl; [discriminate|].
  case_eqb k' k; auto.
Qed.

Lemma getitem_keys {V} (d : dict V) k :
  In k (keys d) -> exists v, getitem d k = Return v.
Proof.
  induction d as [|[k' v'] d IH]; simpl; [tauto|].
  intros [->|H].
  - rewrite String.eqb_refl. eauto.
  - case_eqb k' k; eauto.
Qed.

Lemma compatible_total dev os nav :
  In dev (keys DEVICE_TYPE_OS) -> exists b, compatible dev os nav = Return b.
Proof.
  simpl. intros [<-|[<-|[<-|[]]]]; unfold compatible; lookup_tables;
    split_eqb; eauto.
Qed.

Lemma compatible_true_inv dev os nav :
  compatible dev os nav = Return true -> In (dev, os, nav) COMPATIBLE_TRIPLES.
Proof.
  unfold compatible. lookup_tables. split_eqb;
    intros H; try discriminate; simpl; auto 15.
Qed.

Lemma compatible_true_mappings dev os nav :
  compatible dev os nav = Return true ->
  exists oses navs navs',
    getitem DEVICE_TYPE_OS dev = Return oses /\ In os oses /\
    getitem DEVICE_TYPE_NAVIGATOR dev = Return navs /\ In nav navs /\
    getitem OS_NAVIGATOR os = Return navs' /\ In nav navs'.
Proof.
  unfold compatible. intros H.
  apply obind_Return_inv in H. destruct H as (oses & Hd & H).
  destruct (mem os oses) eqn:Hos; [|discriminate].
  apply obind_Return_inv in H. destruct H as (navs & Hn & H).
  destruct (mem nav navs) eqn:Hnav; [|discriminate].
  apply obind_Return_inv in H. destruct H as (navs' & Ho & H).
  injection H as Hnav'.
  apply mem_In in Hos, Hnav, Hnav'.
  exists oses, navs, navs'. auto 10.
Qed.

Lemma check_choices_Return name all l u :
  check_choices name all l = Return u -> forall x, In x l -> In x all.
Proof.
  induction l as [|y l IH]; simpl; [tauto|].
  destruct (mem y all) eqn:E; [|discriminate].
  intros H x [<-|Hx]; [now apply mem_In | auto].
Qed.

Lemma check_choices_valid name all l :
  (forall x, In x l -> In x all) -> check_choices name all l = Return tt.
Proof.
  induction l as [|y l IH]; simpl; [reflexivity|]. intros H.
  assert (E : mem y all = true) by (apply mem_In; auto).
  rewrite E. auto.
Qed.

Lemma get_option_choices_Return name a default all l :
  get_option_choices name a default all = Return l ->
  forall x, In x l -> In x all.
Proof.
  unfold get_option_choices. intros H.
  apply obind_Return_inv in H. destruct H as (c & _ & H).
  apply obind_Return_inv in H. destruct H as (u & Hc & H).
  injection H as <-. exact (check_choices_Return _ _ _ _ Hc).
Qed.

Lemma collect_variants_total triples acc :
  (forall dev os nav, In (dev, os, nav) triples -> In dev (keys DEVICE_TYPE_OS)) ->
  exists vs, collect_variants triples acc = Return vs.
Proof.
  revert acc. induction triples as [|[[dev os] nav] rest IH]; intros acc H.
  - simpl. eauto.
  - simpl. destruct (compatible_total dev os nav) as [b ->].
    + apply (H dev os nav). now left.
    + simpl. apply IH. intros d o n Hin. apply (H d o n). now right.
Qed.

Lemma collect_variants_In triples : forall acc vs,
  collect_variants triples acc = Return vs ->
  forall t, In t vs <->
            In t acc \/
            (In t triples /\
             compatible (fst (fst t)) (snd (fst t)) (snd t) = Return true).
Proof.
  induction triples as [|[[dev os] nav] rest IH]; intros acc vs H t.
  - simpl in H. injection H as <-. simpl. tauto.
  - simpl in H. apply obind_Return_inv in H. destruct H as (b & Hb & H).
    rewrite (IH _ _ H t). destruct b.
    + rewrite in_app_iff. simpl. split.
      * intros [[?|[<-|[]]]|[? ?]]; auto.
      * intros [?|[[<-|?] ?]]; auto.
    + simpl. split.
      * intros [?|[? ?]]; auto.
      * intros [?|[[<-|?] Hc]]; auto. simpl in Hc. congruence.
Qed.

Lemma in_product3 {A B C} (a : list A) (b : list B) (c : list C) x y z :
  In (x, y, z) (product3 a b c) <-> In x a /\ In y b /\ In z c.
Proof.
  unfold product3. rewrite in_flat_map. split.
  - intros (x' & Hx & H). apply in_flat_map in H. destruct H as (y' & Hy & H).
    apply in_map_iff in H. destruct H as (z' & E & Hz). inversion E; subst. auto.
  - intros (Hx & Hy & Hz). exists x. split; [assumption|].
    apply in_flat_map. exists y. split; [assumption|].
    apply in_map_iff. now exists z.
Qed.

Lemma get_option_choices_valid name a default all :
  valid_arg all a = true ->
  (forall x, In x default -> In x all) ->
  get_option_choices name a default all = Return (choice_set default all a).
Proof.
  intros Hv Hd. unfold get_option_choices, choice_set.
  assert (G : forall given,
             (forall x, In x given -> valid_value all x = true) ->
             (_ <~ check_choices name all
                     (if mem "all" given then all else given) ;;
              Return (if mem "all" given then all else given)) =
             Return (if mem "all" given then all else given)).
  { intros given Hg. destruct (mem "all" given) eqn:Hall.
    - now rewrite check_choices_valid.
    - rewrite check_choices_valid; [reflexivity|].
      intros x Hx. specialize (Hg x Hx). unfold valid_value in Hg.
      apply orb_true_iff in Hg. destruct Hg as [Hg|Hg].
      + now apply mem_In.
      + apply String.eqb_eq in Hg. subst x.
        apply mem_In in Hx. congruence. }
  destruct a as [|s|items|repr]; simpl in *; try discriminate.
  - apply G. intros x Hx. unfold valid_value.
    apply orb_true_iff. left. apply mem_In. auto.
  - apply (G [s]). intros x [<-|[]]. now rewrite andb_true_r in Hv.
  - apply G. intros x Hx. rewrite forallb_forall in Hv. auto.
Qed.

Lemma find_none_intro {A} (f : A -> bool) l :
  (forall x, In x l -> f x = false) -> find f l = None.
Proof.
  induction l as [|y l IH]; simpl; [reflexivity|]. intros H.
  rewrite (H y) by auto. auto.
Qed.

Lemma check_choices_offending name all l v :
  find (fun v => negb (mem v all)) l = Some v ->
  check_choices name all l =
  Raise (InvalidOption ("Choices of option " ++ name ++
                        " contains invalid item: " ++ v)).
Proof.
  induction l as [|y l IH]; simpl; [discriminate|].
  destruct (mem y all); simpl; [assumption|]. now intros [= ->].
Qed.

Lemma get_option_choices_offending name a default all v :
  offending all a = Some v ->
  get_option_choices name a default all =
  Raise (InvalidOption (offending_message name a v)).
Proof.
  unfold get_option_choices, offending.
  destruct a as [|s|items|repr]; simpl; try discriminate.
  - rewrite orb_false_r. destruct (String.eqb "all" s); simpl; [discriminate|].
    fold (mem s all). destruct (mem s all); simpl; [discriminate|].
    now intros [= ->].
  - destruct (mem "all" items); [discriminate|]. intros H.
    now rewrite (check_choices_offending _ _ _ _ H).
  - now intros [= ->].
Qed.

Lemma offending_None_Return name a default all :
  offending all a = None ->
  (forall x, In x default -> In x all) ->
  exists l, get_option_choices name a default all = Return l.
Proof.
  intros Ho Hd. unfold get_option_choices.
  assert (G : forall given,
             (mem "all" given = false ->
              find (fun v => negb (mem v all)) given = None) ->
             exists l,
               (_ <~ check_choices name all
                       (if mem "all" given then all else given) ;;
                Return (if mem "all" given then all else given)) = Return l).
  { intros given Hg. destruct (mem "all" given) eqn:Hall.
    - rewrite check_choices_valid; simpl; eauto.
    - rewrite check_choices_valid; simpl; eauto.
      intros x Hx. pose proof (find_none _ _ (Hg eq_refl) x Hx) as Hn.
      apply negb_false_iff in Hn. now apply mem_In. }
  destruct a as [|s|items|repr]; simpl in *; try discriminate.
  - apply G. intros _. apply find_none_intro. intros x Hx.
    apply negb_false_iff, mem_In. auto.
  - apply (G [s]). intros Hall. simpl in Hall. rewrite Hall in Ho. exact Ho.
  - apply G. intros Hall. rewrite Hall in Ho. exact Ho.
Qed.

Lemma prefix_app n t : prefix n (n ++ t) = true.
Proof.
  induction n as [|c n IH]; simpl.
  - now destruct t.
  - destruct (ascii_dec c c); congruence.
Qed.

Lemma contains_unfold s n :
  contains s n =
  prefix n s || match s with
                | EmptyString => false
                | String _ s' => contains s' n
                end.
Proof. destruct s; reflexivity. Qed.

Lemma contains_here n t : contains (n ++ t) n = true.
Proof. rewrite contains_unfold, prefix_app. reflexivity. Qed.

Lemma contains_skip p s n : contains s n = true -> contains (p ++ s) n = true.
Proof.
  intros H. induction p as [|c p IH]; simpl; [assumption|].
  rewrite IH. apply orb_true_r.
Qed.

Lemma contains_self n : contains n n = true.
Proof.
  assert (E : n ++ "" = n) by (induction n; simpl; congruence).
  pose proof (contains_here n "") as H.
  now rewrite E in H.
Qed.

Lemma offending_message_names name a v :
  contains (offending_message name a v) name = true /\
  contains (offending_message name a v) v = true.
Proof.
  assert (Hv : forall mid, contains (name ++ mid ++ v) v = true).
  { intros mid. apply contains_skip, contains_skip, contains_self. }
  unfold offending_message. destruct a; split;
    first [ apply (contains_skip "Choices of option "), contains_here
          | apply (contains_skip "Option "), contains_here
          | apply (contains_skip "Choices of option "), Hv
          | apply (contains_skip "Option "), Hv ].
Qed.

Lemma default_dev_types_valid os x :
  In x (default_dev_types os) -> In x (keys DEVICE_TYPE_OS).
Proof.
  unfold default_dev_types. destruct (is_None os); simpl; tauto.
Qed.

(** A successful draw of the solver: the triple is taken from the three
    choice sets, is accepted by the three mappings, and cost one raw value. *)
Lemma pick_config_ids_Return_inv dt os nav w dev o n w' :
  pick_config_ids dt os nav w = (Return (dev, o, n), w') ->
  compatible dev o n = Return true /\ w' = advance w /\
  exists ds ol nl,
    get_option_choices "device_type" dt (default_dev_types os)
      (keys DEVICE_TYPE_OS) = Return ds /\
    get_option_choices "os" os (keys OS_NAVIGATOR) (keys OS_NAVIGATOR)
      = Return ol /\
    get_option_choices "navigator" nav (keys NAVIGATOR_OS) (keys NAVIGATOR_OS)
      = Return nl /\
    In dev ds /\ In o ol /\ In n nl.
Proof.
  unfold pick_config_ids. intros H.
  step_in H. lift_in Hrun. rename v into ds, E into Eds.
  step_in H. lift_in Hrun. rename v into ol, E into Eol.
  step_in H. lift_in Hrun. rename v into nl, E into Enl.
  step_in H. lift_in Hrun. rename v into vs, E into Evs.
  destruct vs as [|t0 vs]; [discriminate|].
  step_in H. destruct v as [[dev' o'] n'].
  apply choice_Return_inv in Hrun. destruct Hrun as [Hin ->].
  step_in H. apply assert_Return_inv in Hrun. destruct Hrun as [_ ->].
  step_in H. apply assert_Return_inv in Hrun. destruct Hrun as [_ ->].
  step_in H. apply assert_Return_inv in Hrun. destruct Hrun as [_ ->].
  apply ret_inv in H. destruct H as [[= -> -> ->] ->].
  apply (collect_variants_In _ _ _ Evs) in Hin.
  destruct Hin as [[]|[Hin Hc]]. simpl in Hc.
  apply in_product3 in Hin.
  split; [assumption|]. split; [reflexivity|].
  exists ds, ol, nl. tauto.
Qed.

Lemma COMPATIBLE_TRIPLES_keys dev o n :
  In (dev, o, n) COMPATIBLE_TRIPLES ->
  has_key OS_PLATFORM o = true /\ has_key NAVIGATOR_OS n = true /\
  has_key DEVICE_TYPE_OS dev = true.
Proof.
  unfold COMPATIBLE_TRIPLES. simpl.
  intros H; repeat destruct H as [H|H]; try contradiction;
    injection H as <- <- <-; vm_compute; auto.
Qed.

Lemma pick_config_ids_ok dt os nav ds ol nl w :
  get_option_choices "device_type" dt (default_dev_types os)
    (keys DEVICE_TYPE_OS) = Return ds ->
  get_option_choices "os" os (keys OS_NAVIGATOR) (keys OS_NAVIGATOR)
    = Return ol ->
  get_option_choices "navigator" nav (keys NAVIGATOR_OS) (keys NAVIGATOR_OS)
    = Return nl ->
  (exists dev o n, In dev ds /\ In o ol /\ In n nl /\
                   compatible dev o n = Return true) ->
  exists dev o n,
    pick_config_ids dt os nav w = (Return (dev, o, n), advance w).
Proof.
  intros Eds Eol Enl (dev0 & o0 & n0 & Hd & Ho & Hn & Hc).
  unfold pick_config_ids. fold (default_dev_types os).
  rewrite (bind_Return _ _ w ds w) by (unfold lift; now rewrite Eds).
  rewrite (bind_Return _ _ w ol w) by (unfold lift; now rewrite Eol).
  rewrite (bind_Return _ _ w nl w) by (unfold lift; now rewrite Enl).
  destruct (collect_variants_total (product3 ds ol nl) []) as [vs Evs].
  { intros d o n Hin. apply in_product3 in Hin.
    apply (get_option_choices_Return _ _ _ _ _ Eds). tauto. }
  rewrite (bind_Return _ _ w vs w) by (unfold lift; now rewrite Evs).
  assert (Hin0 : In (dev0, o0, n0) vs).
  { apply (collect_variants_In _ _ _ Evs). right. split; [|exact Hc].
    apply in_product3. auto. }
  destruct vs as [|t0 vs]; [contradiction|].
  destruct (choice_spec (t0 :: vs) w) as ([[dev o] n] & Hin & Ech); [congruence|].
  exists dev, o, n. rewrite (bind_Return _ _ _ _ _ Ech).
  apply (collect_variants_In _ _ _ Evs) in Hin.
  destruct Hin as [[]|[_ Hc']]. simpl in Hc'.
  apply compatible_true_inv, COMPATIBLE_TRIPLES_keys in Hc'.
  destruct Hc' as (-> & -> & ->). reflexivity.
Qed.

Lemma pick_config_ids_conflict dt os nav ds ol nl w :
  get_option_choices "device_type" dt (default_dev_types os)
    (keys DEVICE_TYPE_OS) = Return ds ->
  get_option_choices "os" os (keys OS_NAVIGATOR) (keys OS_NAVIGATOR)
    = Return ol ->
  get_option_choices "navigator" nav (keys NAVIGATOR_OS) (keys NAVIGATOR_OS)
    = Return nl ->
  (forall dev o n, In dev ds -> In o ol -> In n nl ->
                   compatible dev o n <> Return true) ->
  pick_config_ids dt os nav w = (Raise (InvalidOption conflict_message), w).
Proof.
  intros Eds Eol Enl Hno.
  unfold pick_config_ids. fold (default_dev_types os).
  rewrite (bind_Return _ _ w ds w) by (unfold lift; now rewrite Eds).
  rewrite (bind_Return _ _ w ol w) by (unfold lift; now rewrite Eol).
  rewrite (bind_Return _ _ w nl w) by (unfold lift; now rewrite Enl).
  destruct (collect_variants_total (product3 ds ol nl) []) as [vs Evs].
  { intros d o n Hin. apply in_product3 in Hin.
    apply (get_option_choices_Return _ _ _ _ _ Eds). tauto. }
  rewrite (bind_Return _ _ w vs w) by (unfold lift; now rewrite Evs).
  destruct vs as [|[[dev o] n] vs]; [reflexivity|].
  exfalso.
  assert (Hin : In (dev, o, n) ((dev, o, n) :: vs)) by now left.
  apply (collect_variants_In _ _ _ Evs) in Hin.
  destruct Hin as [[]|[Hin Hc]]. simpl in Hc.
  apply in_product3 in Hin. apply (Hno dev o n); tauto.
Qed.

Lemma pick_config_ids_offending dt os nav name v w :
  first_offending dt os nav = Some (name, v) ->
  exists msg,
    pick_config_ids dt os nav w = (Raise (InvalidOption msg), w) /\
    contains msg name = true /\ contains msg v = true.
Proof.
  unfold first_offending, pick_config_ids. fold (default_dev_types os).
  destruct (offending (keys DEVICE_TYPE_OS) dt) as [v1|] eqn:E1.
  { intros [= <- <-]. exists (offending_message "device_type" dt v1).
    split; [|apply offending_message_names].
    apply bind_Raise. unfold lift.
    now rewrite (get_option_choices_offending _ _ _ _ _ E1). }
  destruct (offending_None_Return "device_type" dt (default_dev_types os)
              _ E1 (default_dev_types_valid os)) as [ds Eds].
  rewrite (bind_Return _ _ w ds w) by (unfold lift; now rewrite Eds).
  destruct (offending (keys OS_NAVIGATOR) os) as [v2|] eqn:E2.
  { intros [= <- <-]. exists (offending_message "os" os v2).
    split; [|apply offending_message_names].
    apply bind_Raise. unfold lift.
    now rewrite (get_option_choices_offending _ _ _ _ _ E2). }
  destruct (offending_None_Return "os" os (keys OS_NAVIGATOR)
              _ E2 (fun x H => H)) as [ol Eol].
  rewrite (bind_Return _ _ w ol w) by (unfold lift; now rewrite Eol).
  destruct (offending (keys NAVIGATOR_OS) nav) as [v3|] eqn:E3; [|discriminate].
  intros [= <- <-]. exists (offending_message "navigator" nav v3).
  split; [|apply offending_message_names].
  apply bind_Raise. unfold lift.
  now rewrite (get_option_choices_offending _ _ _ _ _ E3).
Qed.

(* ===================================================================== *)
(** ** The Firefox build selector *)
(* ===================================================================== *)

Lemma forallb_range (P : Z -> bool) lo hi :
  forallb P (range lo hi) = true -> forall z, lo <= z < hi -> P z = true.
Proof.
  intros H z Hz. rewrite forallb_forall in H. apply H.
  unfold range. apply in_map_iff. exists (Z.to_nat (z - lo)). split; [lia|].
  apply in_seq. lia.
Qed.

Lemma day_ok_range n : FIRST_DAY <= n < LAST_DAY -> day_ok n = true.
Proof. apply forallb_range. vm_compute. reflexivity. Qed.

Lemma four_digits_ok_range y : 1000 <= y < 10000 -> four_digits_ok y = true.
Proof. apply forallb_range. vm_compute. reflexivity. Qed.

Lemma two_digits_ok_range n : 0 <= n < 100 -> two_digits_ok n = true.
Proof. apply forallb_range. vm_compute. reflexivity. Qed.

Lemma entry_ok_all i :
  (i < length FIREFOX_VERSION)%nat -> entry_ok i = true.
Proof.
  intros Hi.
  assert (H : forallb entry_ok (seq 0 (length FIREFOX_VERSION)) = true)
    by (vm_compute; reflexivity).
  rewrite forallb_forall in H. apply H. apply in_seq. lia.
Qed.

Lemma try_block_draws_nothing (e : string * datetime) w :
  try_except_IndexError
    (idx <- lift (index entry_eqb e FIREFOX_VERSION) ;;
     '(_, date_to) <- lift (subscript FIREFOX_VERSION (S idx)) ;;
     ret date_to)
    (lift (dt_add (snd e) (timedelta_ 1 0))) w
  = (date_to_of e, w).
Proof.
  unfold try_except_IndexError, date_to_of, bind, lift, ret.
  destruct (index entry_eqb e FIREFOX_VERSION) as [idx|x]; simpl.
  - destruct (subscript FIREFOX_VERSION (S idx)) as [[v d]|x]; simpl;
      [reflexivity|]. destruct x; reflexivity.
  - destruct x; reflexivity.
Qed.

(** Adding [k >= 0] seconds to a date at midnight. *)
Lemma dt_add_midnight release k :
  second_of_day release = 0 -> 0 <= k ->
  0 < toordinal release + k / 86400 <= MAXORDINAL ->
  dt_add release (timedelta_ 0 k) =
  Return (let '(y, m, d) := ord2ymd (toordinal release + k / 86400) in
          mk_datetime y m d (k mod 86400 / 3600) (k mod 86400 mod 3600 / 60)
                      (k mod 86400 mod 3600 mod 60)).
Proof.
  intros Hs Hk Hn. unfold dt_add, timedelta_. simpl td_days. simpl td_seconds.
  rewrite Hs.
  assert (Hm : 0 <= k mod 86400 < 86400) by (apply Z.mod_pos_bound; lia).
  rewrite !Z.add_0_l.
  rewrite (Z.div_small (k mod 86400) 86400) by lia.
  rewrite (Z.mod_small (k mod 86400) 86400) by lia.
  rewrite Z.add_0_r.
  destruct (Z.ltb_spec 0 (toordinal release + k / 86400)); [|lia].
  destruct (Z.leb_spec (toordinal release + k / 86400) MAXORDINAL); [|lia].
  simpl. destruct (ord2ymd _) as [[y m] d]. reflexivity.
Qed.

Lemma length_2_inv s :
  String.length s = 2%nat -> exists a b, s = String a (String b "").
Proof.
  destruct s as [|a [|b [|c s]]]; simpl; try discriminate. eauto.
Qed.

Lemma length_4_inv s :
  String.length s = 4%nat ->
  exists a b c d, s = String a (String b (String c (String d ""))).
Proof.
  destruct s as [|a [|b [|c [|d [|e s]]]]]; simpl; try discriminate. eauto 6.
Qed.

Lemma two_digits_shape n :
  0 <= n < 100 ->
  exists a b, fmt02 n = String a (String b "") /\
              is_digit a = true /\ is_digit b = true /\
              read_digits 0 (String a (String b "")) = n.
Proof.
  intros Hn. pose proof (two_digits_ok_range n Hn) as H.
  unfold two_digits_ok in H.
  apply andb_true_iff in H. destruct H as [H Hr].
  apply andb_true_iff in H. destruct H as [Hl Hd].
  apply Nat.eqb_eq in Hl. apply Z.eqb_eq in Hr.
  destruct (length_2_inv _ Hl) as (a & b & E). rewrite E in *.
  cbn [all_digits] in Hd. rewrite andb_true_r in Hd.
  apply andb_true_iff in Hd. destruct Hd.
  exists a, b. repeat (split; [first [assumption | reflexivity]|]). Set Printing All. exact Hr.
Qed.

Lemma four_digits_shape y :
  1000 <= y < 10000 ->
  exists a b c d,
    str_int y = String a (String b (String c (String d ""))) /\
    is_digit a = true /\ is_digit b = true /\
    is_digit c = true /\ is_digit d = true /\
    read_digits 0 (String a (String b (String c (String d "")))) = y.
Proof.
  intros Hy. pose proof (four_digits_ok_range y Hy) as H.
  unfold four_digits_ok in H.
  apply andb_true_iff in H. destruct H as [H Hr].
  apply andb_true_iff in H. destruct H as [Hl Hd].
  apply Nat.eqb_eq in Hl. apply Z.eqb_eq in Hr.
  destruct (length_4_inv _ Hl) as (a & b & c & d & E). rewrite E in *.
  cbn [all_digits] in Hd. rewrite andb_true_r in Hd.
  do 3 (apply andb_true_iff in Hd; destruct Hd as [? Hd]).
  exists a, b, c, d. repeat (split; [first [assumption | reflexivity]|]); assumption.
Qed.

(** [strftime] and [parse_build_id] are inverse on well-formed datetimes. *)
Lemma strftime_parse t :
  well_formed t ->
  String.length (strftime_YmdHMS t) = 14%nat /\
  all_digits (strftime_YmdHMS t) = true /\
  parse_build_id (strftime_YmdHMS t) = Some t.
Proof.
  destruct t as [y m d h mi s]. unfold well_formed. simpl.
  intros (Hy & Hm & Hd & Hh & Hmi & Hs).
  unfold strftime_YmdHMS. simpl.
  destruct (four_digits_shape y) as (y1 & y2 & y3 & y4 & -> & ? & ? & ? & ? & Ey);
    [lia|].
  destruct (two_digits_shape m) as (m1 & m2 & -> & ? & ? & Em); [lia|].
  destruct (two_digits_shape d) as (d1 & d2 & -> & ? & ? & Ed); [lia|].
  destruct (two_digits_shape h) as (h1 & h2 & -> & ? & ? & Eh); [lia|].
  destruct (two_digits_shape mi) as (i1 & i2 & -> & ? & ? & Emi); [lia|].
  destruct (two_digits_shape s) as (s1 & s2 & -> & ? & ? & Es); [lia|].
  assert (Hall : all_digits
            (String y1 (String y2 (String y3 (String y4
              (String m1 (String m2 (String d1 (String d2
                (String h1 (String h2 (String i1 (String i2
                  (String s1 (String s2 "")))))))))))))) = true).
  { cbn [all_digits].
    repeat match goal with H : is_digit _ = true |- _ => rewrite H; clear H end.
    reflexivity. }
  cbn [append]. split; [reflexivity|]. split; [exact Hall|].
  unfold parse_build_id. rewrite Hall.
  cbn [String.length Nat.eqb andb substring].
  rewrite Ey, Em, Ed, Eh, Emi, Es. reflexivity.
Qed.

(** Every run of the Firefox build selector: it draws twice, never raises,
    and returns the version of some table entry with the rendering of a
    well-formed time [k] seconds after that entry's release date, [k] being
    at most the larger of 100000 and the length of the window minus one. *)
Lemma get_firefox_build_spec w :
  exists i ver release k t,
    nth_error FIREFOX_VERSION i = Some (ver, release) /\
    0 <= k <= Z.max (window_end i release - seconds_of release - 1) 100000 /\
    seconds_of t = seconds_of release + k /\
    well_formed t /\
    get_firefox_build w =
    (Return (ver, strftime_YmdHMS t), advance (advance w)).
Proof.
  destruct (choice_nth FIREFOX_VERSION w) as (i & [ver release] & Hi & Hnth & Ech);
    [discriminate|].
  pose proof (entry_ok_all i Hi) as Hok. unfold entry_ok in Hok.
  rewrite Hnth in Hok.
  destruct (date_to_of (ver, release)) as [date_to|] eqn:Edt; [|discriminate].
  repeat (apply andb_true_iff in Hok; destruct Hok as [Hok ?]).
  apply Z.eqb_eq in Hok.
  repeat match goal with
  | H : (_ =? _) = true |- _ => apply Z.eqb_eq in H
  | H : (_ <=? _) = true |- _ => apply Z.leb_le in H
  | H : (_ <? _) = true |- _ => apply Z.ltb_lt in H
  end.
  set (hi := Z.max (total_seconds (dt_sub date_to release) - 1) 100000) in *.
  destruct (randint_spec 0 hi (advance w)) as (k & Hk & Erand); [subst hi; lia|].
  assert (Hdiv : 0 <= k / 86400 <= hi / 86400).
  { split; [apply Z.div_pos; lia | apply Z.div_le_mono; lia]. }
  set (n := toordinal release + k / 86400).
  assert (Hn : FIRST_DAY <= n < LAST_DAY) by (subst n; lia).
  pose proof (day_ok_range n Hn) as Hday. unfold day_ok in Hday.
  pose proof (dt_add_midnight release k) as Hadd. fold n in Hadd.
  destruct (ord2ymd n) as [[y m] d] eqn:Eymd.
  repeat (apply andb_true_iff in Hday; destruct Hday as [Hday ?]).
  repeat match goal with
  | H : (_ =? _) = true |- _ => apply Z.eqb_eq in H
  | H : (_ <=? _) = true |- _ => apply Z.leb_le in H
  end.
  assert (Hm : 0 <= k mod 86400 < 86400) by (apply Z.mod_pos_bound; lia).
  assert (Hm' : 0 <= k mod 86400 mod 3600 < 3600) by (apply Z.mod_pos_bound; lia).
  set (t := mk_datetime y m d (k mod 86400 / 3600) (k mod 86400 mod 3600 / 60)
                        (k mod 86400 mod 3600 mod 60)).
  exists i, ver, release, k, t.
  split; [exact Hnth|]. split.
  { subst hi. lia. }
  split.
  { unfold seconds_of, toordinal, second_of_day. subst t. simpl.
    fold (toordinal release). fold (second_of_day release).
    pose proof (Z.div_mod k 86400).
    pose proof (Z.div_mod (k mod 86400) 3600).
    pose proof (Z.div_mod (k mod 86400 mod 3600) 60).
    subst n. lia. }
  split.
  { unfold well_formed. subst t. simpl.
    pose proof (Z.mod_pos_bound (k mod 86400 mod 3600) 60).
    assert (0 <= k mod 86400 / 3600 < 24)
      by (split; [apply Z.div_pos; lia | apply Z.div_lt_upper_bound; lia]).
    assert (0 <= k mod 86400 mod 3600 / 60 < 60)
      by (split; [apply Z.div_pos; lia | apply Z.div_lt_upper_bound; lia]).
    lia. }
  unfold get_firefox_build.
  rewrite (bind_Return _ _ _ _ _ Ech).
  pose proof (try_block_draws_nothing (ver, release) (advance w)) as Etry.
  simpl snd in Etry. rewrite Edt in Etry.
  rewrite (bind_Return _ _ _ _ _ Etry).
  fold hi. rewrite (bind_Return _ _ _ _ _ Erand).
  rewrite Hadd; [| assumption | lia | ].
  - reflexivity.
  - unfold MAXORDINAL. revert Hn. unfold FIRST_DAY, LAST_DAY.
    vm_compute ymd2ord. lia.
Qed.

Lemma version_84_0_2_position i e :
  nth_error FIREFOX_VERSION i = Some e -> fst e = "84.0.2" ->
  i = 430%nat /\ snd e = datetime_ 2021 1 6.
Proof.
  intros Hnth Hv.
  assert (Hi : (i < length FIREFOX_VERSION)%nat)
    by (apply nth_error_Some; congruence).
  assert (H : forallb
                (fun i => match nth_error FIREFOX_VERSION i with
                          | Some (v, d) =>
                              if String.eqb v "84.0.2"
                              then Nat.eqb i 430 &&
                                   datetime_eqb d (datetime_ 2021 1 6)
                              else true
                          | None => true
                          end)
                (seq 0 (length FIREFOX_VERSION)) = true)
    by (vm_compute; reflexivity).
  rewrite forallb_forall in H. specialize (H i).
  rewrite Hnth in H. destruct e as [v d]. simpl in Hv. subst v.
  rewrite String.eqb_refl in H.
  assert (Hin : In i (seq 0 (length FIREFOX_VERSION))) by (apply in_seq; lia).
  apply H in Hin. apply andb_true_iff in Hin. destruct Hin as [Hi' Hd].
  apply Nat.eqb_eq in Hi'. split; [assumption|]. simpl.
  destruct d as [y m dd h mi s]. unfold datetime_eqb in Hd. simpl in Hd.
  repeat (apply andb_true_iff in Hd; destruct Hd as [Hd ?]).
  repeat match goal with
  | H : (_ =? _) = true |- _ => apply Z.eqb_eq in H
  end. subst. reflexivity.
Qed.

(** C2, as stated, fails: with the last table entry drawn and the largest
    offset, the build time is 100000 seconds after the release date, more
    than one day. *)
Lemma C2_counterexample :
  ~ (forall w ver build_id w',
       get_firefox_build w = (Return (ver, build_id), w') ->
       exists i release t,
         nth_error FIREFOX_VERSION i = Some (ver, release) /\
         parse_build_id build_id = Some t /\
         in_release_window i release t).
Proof.
  intros H.
  destruct (H (seed [430; 100000]) "84.0.2" "20210107034640"
              (advance (advance (seed [430; 100000]))))
    as (i & release & t & Hnth & Hparse & Hwin).
  { vm_compute. reflexivity. }
  destruct (version_84_0_2_position i _ Hnth eq_refl) as [-> Hrel].
  simpl in Hrel. subst release.
  vm_compute in Hparse. injection Hparse as <-.
  unfold in_release_window in Hwin. vm_compute in Hwin.
  destruct Hwin as [_ Hlt]. discriminate Hlt.
Qed.

(* ===================================================================== *)
(** ** The component assembler *)
(* ===================================================================== *)

Lemma bind_lift_Return {A B} (a : A) (k : A -> M B) w :
  bind (lift (Return a)) k w = k a w.
Proof. reflexivity. Qed.

Lemma bind_ret {A B} (a : A) (k : A -> M B) w :
  bind (ret a) k w = k a w.
Proof. reflexivity. Qed.

Lemma bind_assoc {A B C} (c : M A) (f : A -> M B) (k : B -> M C) w :
  bind (bind c f) k w = bind c (fun x => bind (f x) k) w.
Proof. unfold bind. destruct (c w) as [[a|e] w1]; reflexivity. Qed.

(** Run the next statement of the goal: a lookup that succeeded, an
    assignment, or a draw from a non-empty sequence. *)
Ltac run_step :=
  lookup_tables; split_eqb;
  lazymatch goal with
  | |- context [bind (lift (Return ?a)) ?k ?w] =>
      rewrite (bind_lift_Return a k w)
  | |- context [bind (ret ?a) ?k ?w] =>
      rewrite (bind_ret a k w)
  | |- context [bind (bind ?c ?f) ?k ?w] =>
      rewrite (bind_assoc c f k w)
  | |- context [bind (assert true) ?k ?w] =>
      change (bind (assert true) k w) with (k tt w)
  | |- context [bind (choice ?l) ?k ?w] =>
      let x := fresh "x" in
      let Hin := fresh "Hin" in
      let E := fresh "E" in
      destruct (choice_spec l w) as (x & Hin & E);
      [first [discriminate | assumption]|];
      rewrite (bind_Return _ _ _ _ _ E)
  end;
  cbv beta iota.

(** Evaluate the closed string computations of the goal. *)
Ltac eval_strings :=
  repeat match goal with
  | |- context [subscript (split ?a ?b) ?i] =>
      let v := eval vm_compute in (subscript (split a b) i) in
      change (subscript (split a b) i) with v
  | |- context [last_item (split ?a ?b)] =>
      let v := eval vm_compute in (last_item (split a b)) in
      change (last_item (split a b)) with v
  | |- context [range ?a ?b] =>
      let v := eval vm_compute in (range a b) in
      change (range a b) with v
  end.

(** One case per element of a membership hypothesis on a literal list. *)
Ltac each_member :=
  lazymatch goal with
  | H : In _ _ |- _ =>
      simpl In in H;
      repeat (destruct H as [H|H]; [subst|]); [..|contradiction]
  end.

Section AssemblerFacts.

Variable device : device_module.

Lemma build_system_components_win dev n w :
  exists pv cpu,
    In pv ["Windows NT 5.1"; "Windows NT 6.1"; "Windows NT 6.2";
           "Windows NT 6.3"; "Windows NT 10.0"] /\
    In cpu [""; "Win64; x64"; "WOW64"] /\
    build_system_components device dev "win" n w =
    (let platform := if truthy cpu then pv ++ "; " ++ cpu else pv in
     Return [ ("platform_version", VStr pv); ("platform", VStr platform);
              ("ua_platform", VStr platform); ("oscpu", VStr platform) ],
     advance (advance w)).
Proof.
  unfold build_system_components.
  do 4 run_step.
  exists x, x0. auto.
Qed.

Lemma build_system_components_linux dev n w :
  exists cpu pv,
    In cpu ["i686"; "x86_64"; "i686 on x86_64"] /\
    In pv ["X11; Linux"; "X11; Ubuntu; Linux"] /\
    build_system_components device dev "linux" n w =
    (Return [ ("platform_version", VStr pv);
              ("platform", VStr (pv ++ " " ++ cpu));
              ("ua_platform", VStr (pv ++ " " ++ cpu));
              ("oscpu", VStr ("Linux " ++ cpu)) ],
     advance (advance w)).
Proof.
  unfold build_system_components.
  do 4 run_step.
  exists x, x0. auto.
Qed.

Lemma fix_chrome_mac_platform_ok pv w :
  In pv [ "Macintosh; Intel Mac OS X 10.8"; "Macintosh; Intel Mac OS X 10.9";
          "Macintosh; Intel Mac OS X 10.10"; "Macintosh; Intel Mac OS X 10.11";
          "Macintosh; Intel Mac OS X 10.12"; "Macintosh; Intel Mac OS X 10.13";
          "Macintosh; Intel Mac OS X 10.14"; "Macintosh; Intel Mac OS X 10.15" ] ->
  exists platform tail,
    fix_chrome_mac_platform pv w = (Return platform, advance w) /\
    last_item (split platform " ") = Return tail.
Proof.
  intros Hpv. unfold fix_chrome_mac_platform.
  each_member; eval_strings; run_step; run_step;
    eval_strings; run_step; each_member;
    (eexists; eexists; split; [reflexivity|]); vm_compute; reflexivity.
Qed.

Lemma build_system_components_mac dev n w :
  exists pv ua tail w',
    build_system_components device dev "mac" n w =
    (Return [ ("platform_version", VStr pv); ("platform", VStr "MacIntel");
              ("ua_platform", VStr ua);
              ("oscpu", VStr ("Intel Mac OS X " ++ tail)) ], w').
Proof.
  unfold build_system_components.
  do 4 run_step.
  - destruct (fix_chrome_mac_platform_ok x0 (advance (advance w)))
      as (platform & tail & Efix & Etail); [assumption|].
    rewrite (bind_Return _ _ _ _ _ Efix). rewrite Etail.
    run_step. exists x0, platform, tail. eexists. reflexivity.
  - run_step. clear Hin. each_member; eval_strings; run_step;
      do 3 eexists; eexists; reflexivity.
Qed.

Lemma build_system_components_android_firefox dev w :
  In dev ["smartphone"; "tablet"] ->
  exists versions pv cpu,
    getitem OS_PLATFORM "android" = Return versions /\ In pv versions /\
    In cpu ["armv7l"; "armv8l"] /\
    build_system_components device dev "android" "firefox" w =
    (Return [ ("platform_version", VStr pv);
              ("ua_platform",
               VStr (pv ++ (if String.eqb dev "smartphone"
                            then "; Mobile" else "; Tablet")));
              ("platform", VStr ("Linux " ++ cpu));
              ("oscpu", VStr ("Linux " ++ cpu)) ],
     advance (advance w)).
Proof.
  intros Hdev. unfold build_system_components.
  each_member; do 7 run_step;
    (eexists; exists x, x0; split; [vm_compute; reflexivity|]);
    (split; [exact Hin|]); (split; [exact Hin0|]); reflexivity.
Qed.

Lemma build_system_components_android_chrome dev w :
  In dev ["smartphone"; "tablet"] ->
  SMARTPHONE_DEV_IDS device <> [] ->
  exists versions pv device_id cpu,
    getitem OS_PLATFORM "android" = Return versions /\ In pv versions /\
    In device_id (SMARTPHONE_DEV_IDS device) /\
    In cpu ["armv7l"; "armv8l"] /\
    build_system_components device dev "android" "chrome" w =
    (Return [ ("platform_version", VStr pv);
              ("ua_platform", VStr ("Linux; " ++ pv ++ "; " ++ device_id));
              ("platform", VStr ("Linux " ++ cpu));
              ("oscpu", VStr ("Linux " ++ cpu)) ],
     advance (advance (advance w))).
Proof.
  intros Hdev Hne. unfold build_system_components.
  each_member; do 9 run_step;
    (eexists; exists x, x0, x1; split; [vm_compute; reflexivity|]);
    (split; [exact Hin|]); (split; [exact Hin0|]); (split; [exact Hin1|]);
    reflexivity.
Qed.

End AssemblerFacts.

Lemma CHROME_BUILD_ranges major lo hi :
  In (major, lo, hi) CHROME_BUILD -> lo <= hi.
Proof.
  intros H.
  assert (Hall : forallb (fun b => snd (fst b) <=? snd b) CHROME_BUILD = true)
    by (vm_compute; reflexivity).
  rewrite forallb_forall in Hall. apply Hall in H. simpl in H. lia.
Qed.

Lemma get_chrome_build_spec w :
  exists major lo hi b p,
    In (major, lo, hi) CHROME_BUILD /\ lo <= b <= hi /\ 0 <= p <= 120 /\
    get_chrome_build w =
    (Return (str_int major ++ ".0." ++ str_int b ++ "." ++ str_int p),
     advance (advance (advance w))).
Proof.
  unfold get_chrome_build.
  destruct (choice_spec CHROME_BUILD w) as ([[major lo] hi] & Hin & E);
    [discriminate|].
  rewrite (bind_Return _ _ _ _ _ E).
  destruct (randint_spec lo hi (advance w)) as (b & Hb & Eb);
    [exact (CHROME_BUILD_ranges _ _ _ Hin)|].
  rewrite (bind_Return _ _ _ _ _ Eb).
  destruct (randint_spec 0 120 (advance (advance w))) as (p & Hp & Ep); [lia|].
  rewrite (bind_Return _ _ _ _ _ Ep).
  exists major, lo, hi, b, p. auto.
Qed.

Lemma build_app_components_firefox o w :
  exists i ver release k t,
    nth_error FIREFOX_VERSION i = Some (ver, release) /\
    0 <= k <= Z.max (window_end i release - seconds_of release - 1) 100000 /\
    seconds_of t = seconds_of release + k /\
    well_formed t /\
    build_app_components o "firefox" w =
    (Return [ ("name", VStr "Netscape");
              ("product_sub", VStr "20100101");
              ("vendor", VStr "");
              ("build_version", VStr ver);
              ("build_id", VStr (strftime_YmdHMS t));
              ("geckotrail",
               VStr (if mem o ["win"; "linux"; "mac"]
                     then "20100101" else ver)) ],
     advance (advance w)).
Proof.
  destruct (get_firefox_build_spec w)
    as (i & ver & release & k & t & Hnth & Hk & Hsec & Hwf & E).
  exists i, ver, release, k, t. repeat (split; [assumption|]).
  unfold build_app_components. rewrite String.eqb_refl.
  rewrite (bind_Return _ _ _ _ _ E). reflexivity.
Qed.

Lemma build_app_components_chrome o w :
  exists build_version,
    build_app_components o "chrome" w =
    (Return [ ("name", VStr "Netscape");
              ("product_sub", VStr "20030107");
              ("vendor", VStr "Google Inc.");
              ("build_version", VStr build_version);
              ("build_id", VNone) ],
     advance (advance (advance w))).
Proof.
  destruct (get_chrome_build_spec w) as (major & lo & hi & b & p & _ & _ & _ & E).
  eexists. unfold build_app_components. split_eqb.
  rewrite (bind_Return _ _ _ _ _ E). reflexivity.
Qed.

Lemma build_app_components_ie o w :
  exists num_ver build_version trident_version,
    In (num_ver, build_version, trident_version) IE_VERSION /\
    build_app_components o "ie" w =
    (Return [ ("name", VStr (if 11 <=? num_ver then "Netscape"
                             else "Microsoft Internet Explorer"));
              ("product_sub", VNone);
              ("vendor", VStr "");
              ("build_version", VStr build_version);
              ("build_id", VNone);
              ("trident_version", VStr trident_version) ],
     advance w).
Proof.
  destruct (choice_spec IE_VERSION w) as ([[num bv] tv] & Hin & E);
    [discriminate|].
  exists num, bv, tv. split; [assumption|].
  unfold build_app_components, get_ie_build. split_eqb.
  rewrite (bind_Return _ _ _ _ _ E). reflexivity.
Qed.

(* ===================================================================== *)
(** ** The template renderer and the top-level functions *)
(* ===================================================================== *)

Lemma preamble_run (os platform : optarg) w :
  (if is_None platform then ret os
   else (_ <- warn deprecation_message 3 ;; ret platform)) w
  = (Return (effective_os os platform), after_notice platform w).
Proof. unfold effective_os, after_notice. destruct platform; reflexivity. Qed.

Lemma generate_navigator_unfold device os nav platform dt w :
  generate_navigator device os nav platform dt w =
  ('(dev, o, n) <- pick_config_ids dt (effective_os os platform) nav ;;
   navigator_of_ids device dev o n) (after_notice platform w).
Proof.
  unfold generate_navigator.
  rewrite (bind_Return _ _ _ _ _ (preamble_run os platform w)).
  unfold bind.
  destruct (pick_config_ids dt (effective_os os platform) nav
              (after_notice platform w)) as [[[[dev o] n]|e] w1]; reflexivity.
Qed.

Lemma substring_all s n :
  (String.length s <= n)%nat -> substring 0 n s = s.
Proof.
  revert n. induction s as [|c s IH]; intros n Hn.
  - destruct n; reflexivity.
  - destruct n; simpl in *; [lia|]. rewrite IH by lia. reflexivity.
Qed.

Lemma startswith_Mozilla r : startswith ("Mozilla/" ++ r) "Mozilla/" = true.
Proof. unfold startswith. apply prefix_app. Qed.

Lemma split_once_go_unfold sep cur s :
  split_once_go sep cur s =
  if prefix sep s
  then [rev_string "" cur; substring (String.length sep) (String.length s) s]
  else match s with
       | EmptyString => [rev_string "" cur]
       | String c s' => split_once_go sep (String c cur) s'
       end.
Proof. destruct s; reflexivity. Qed.

Lemma split_once_Mozilla r :
  split_once ("Mozilla/" ++ r) "Mozilla/" = [""; r].
Proof.
  unfold split_once. rewrite split_once_go_unfold, prefix_app.
  cbn [rev_string String.length append substring].
  rewrite substring_all by lia. reflexivity.
Qed.

(** For Chrome and IE the app version is the header without its leading
    ["Mozilla/"]. *)
Lemma build_navigator_app_version_strip o n pv r w :
  mem n ["chrome"; "ie"] = true ->
  build_navigator_app_version o n pv ("Mozilla/" ++ r) w = (Return r, w).
Proof.
  intros Hn. unfold build_navigator_app_version. rewrite Hn.
  rewrite startswith_Mozilla.
  change (bind (assert true) ?k w) with (k tt w). cbv beta.
  rewrite split_once_Mozilla. reflexivity.
Qed.

(** Evaluate the lookups of the renderer on dicts with known keys. *)
Ltac render :=
  repeat (progress (cbn [format pyval_eqb str_of]; lookup_tables; split_eqb)).

Ltac strip_Mozilla :=
  lazymatch goal with
  | |- context [build_navigator_app_version ?o ?n ?pv
                  ("Mozilla/5.0 (" ++ ?x) ?w] =>
      change (build_navigator_app_version o n pv ("Mozilla/5.0 (" ++ x) w)
        with (build_navigator_app_version o n pv
                ("Mozilla/" ++ ("5.0 (" ++ x)) w);
      rewrite build_navigator_app_version_strip by reflexivity
  | |- context [build_navigator_app_version ?o ?n ?pv
                  ("Mozilla/5.0 (compatible; " ++ ?x) ?w] =>
      change (build_navigator_app_version o n pv
                ("Mozilla/5.0 (compatible; " ++ x) w)
        with (build_navigator_app_version o n pv
                ("Mozilla/" ++ ("5.0 (compatible; " ++ x)) w);
      rewrite build_navigator_app_version_strip by reflexivity
  end.

(** Run [build_system_components] on a compatible pair. *)
Ltac run_system :=
  lazymatch goal with
  | |- context [bind (build_system_components ?d ?dev "win" ?n) _ ?w] =>
      let Esys := fresh "Esys" in
      destruct (build_system_components_win d dev n w)
        as (? & ? & _ & _ & Esys);
      cbv zeta in Esys; rewrite (bind_Return _ _ _ _ _ Esys); clear Esys
  | |- context [bind (build_system_components ?d ?dev "linux" ?n) _ ?w] =>
      let Esys := fresh "Esys" in
      destruct (build_system_components_linux d dev n w)
        as (? & ? & _ & _ & Esys);
      rewrite (bind_Return _ _ _ _ _ Esys); clear Esys
  | |- context [bind (build_system_components ?d ?dev "mac" ?n) _ ?w] =>
      let Esys := fresh "Esys" in
      destruct (build_system_components_mac d dev n w)
        as (? & ? & ? & ? & Esys);
      rewrite (bind_Return _ _ _ _ _ Esys); clear Esys
  | |- context [bind (build_system_components ?d ?dev "android" "firefox") _ ?w] =>
      let Esys := fresh "Esys" in
      destruct (build_system_components_android_firefox d dev w)
        as (? & ? & ? & _ & _ & _ & Esys); [simpl; auto|];
      rewrite (bind_Return _ _ _ _ _ Esys); clear Esys
  | |- context [bind (build_system_components ?d ?dev "android" "chrome") _ ?w] =>
      let Esys := fresh "Esys" in
      destruct (build_system_components_android_chrome d dev w)
        as (? & ? & ? & ? & _ & _ & _ & _ & Esys);
      [simpl; auto | assumption |];
      rewrite (bind_Return _ _ _ _ _ Esys); clear Esys
  end.

(** Run [build_app_components]. *)
Ltac run_app :=
  lazymatch goal with
  | |- context [bind (build_app_components ?o "firefox") _ ?w] =>
      let Eapp := fresh "Eapp" in
      destruct (build_app_components_firefox o w)
        as (? & ? & ? & ? & ? & _ & _ & _ & _ & Eapp);
      rewrite (bind_Return _ _ _ _ _ Eapp); clear Eapp
  | |- context [bind (build_app_components ?o "chrome") _ ?w] =>
      let Eapp := fresh "Eapp" in
      destruct (build_app_components_chrome o w) as (? & Eapp);
      rewrite (bind_Return _ _ _ _ _ Eapp); clear Eapp
  | |- context [bind (build_app_components ?o "ie") _ ?w] =>
      let Eapp := fresh "Eapp" in
      destruct (build_app_components_ie o w) as (? & ? & ? & _ & Eapp);
      rewrite (bind_Return _ _ _ _ _ Eapp); clear Eapp
  end.

(** Run the renderer and the construction of the config. *)
Ltac run_render :=
  unfold choose_ua_template; render; run_step; render; run_step; run_step;
  first [ strip_Mozilla
        | unfold build_navigator_app_version; render;
          try (run_step; render) ];
  repeat run_step.

Section RendererFacts.

Variable device : device_module.

(** Once a compatible triple is picked, the rest of the generation returns a
    config that carries the picked ids. *)
Lemma navigator_of_ids_ok dev o n w :
  In (dev, o, n) COMPATIBLE_TRIPLES ->
  SMARTPHONE_DEV_IDS device <> [] ->
  exists cfg w',
    navigator_of_ids device dev o n w = (Return cfg, w') /\
    getitem cfg "os_id" = Return (VStr o) /\
    getitem cfg "navigator_id" = Return (VStr n).
Proof.
  intros Hin Hne. unfold COMPATIBLE_TRIPLES in Hin. simpl In in Hin.
  repeat (destruct Hin as [Hin|Hin]; [injection Hin as <- <- <-|]);
    [..|contradiction];
    unfold navigator_of_ids; run_system; run_app; run_render;
    (do 2 eexists; split; [reflexivity|]); split; reflexivity.
Qed.

End RendererFacts.

Lemma accepted_compatible dev o n :
  accepted (dev, o, n) = true <-> compatible dev o n = Return true.
Proof.
  unfold accepted, allowed, compatible.
  destruct (getitem DEVICE_TYPE_OS dev) as [oses|]; cbn [andb obind];
    [|split; intros H0; discriminate H0].
  destruct (mem o oses); cbn [andb obind];
    [|split; intros H0; discriminate H0].
  destruct (getitem DEVICE_TYPE_NAVIGATOR dev) as [navs|]; cbn [andb obind];
    [|split; intros H0; discriminate H0].
  destruct (mem n navs); cbn [andb obind];
    [|split; intros H0; discriminate H0].
  destruct (getitem OS_NAVIGATOR o) as [navs'|]; cbn [andb obind];
    [|split; intros H0; discriminate H0].
  split; congruence.
Qed.

Lemma valid_filters_choices dt os nav :
  valid_filters dt os nav = true ->
  get_option_choices "device_type" dt (default_dev_types os)
    (keys DEVICE_TYPE_OS)
  = Return (choice_set (default_dev_types os) (keys DEVICE_TYPE_OS) dt) /\
  get_option_choices "os" os (keys OS_NAVIGATOR) (keys OS_NAVIGATOR)
  = Return (choice_set (keys OS_NAVIGATOR) (keys OS_NAVIGATOR) os) /\
  get_option_choices "navigator" nav (keys NAVIGATOR_OS) (keys NAVIGATOR_OS)
  = Return (choice_set (keys NAVIGATOR_OS) (keys NAVIGATOR_OS) nav).
Proof.
  unfold valid_filters. intros H.
  apply andb_true_iff in H. destruct H as [H Hn].
  apply andb_true_iff in H. destruct H as [Hd Ho].
  repeat split; apply get_option_choices_valid; auto.
  apply default_dev_types_valid.
Qed.

(** The app version is computed without drawing. *)
Lemma build_navigator_app_version_world o n pv ua w r w' :
  build_navigator_app_version o n pv ua w = (r, w') -> w' = w.
Proof.
  unfold build_navigator_app_version, bind, assert, lift, ret, raise.
  destruct (mem n ["chrome"; "ie"]).
  - destruct (startswith ua "Mozilla/"); intros [= _ <-]; reflexivity.
  - destruct (String.eqb n "firefox"); [|intros [= _ <-]; reflexivity].
    destruct (String.eqb o "android"); [intros [= _ <-]; reflexivity|].
    destruct (getitem _ o); intros [= _ <-]; reflexivity.
Qed.

Section TopLevelFacts.

Variable device : device_module.

(** What a returned config is made of. *)
Lemma navigator_of_ids_Return_inv dev o n w cfg w' :
  navigator_of_ids device dev o n w = (Return cfg, w') ->
  exists sys w1 app tpl ua pv av,
    build_system_components device dev o n w = (Return sys, w1) /\
    build_app_components o n w1 = (Return app, w') /\
    choose_ua_template dev n app = Return tpl /\
    format tpl sys app = Return ua /\
    getitem sys "platform_version" = Return pv /\
    build_navigator_app_version o n pv ua w' = (Return av, w') /\
    exists platform oscpu build_version build_id name product_sub vendor,
      getitem sys "platform" = Return platform /\
      getitem sys "oscpu" = Return oscpu /\
      getitem app "build_version" = Return build_version /\
      getitem app "build_id" = Return build_id /\
      getitem app "name" = Return name /\
      getitem app "product_sub" = Return product_sub /\
      getitem app "vendor" = Return vendor /\
      cfg = [ ("os_id", VStr o); ("navigator_id", VStr n);
              ("platform", platform); ("oscpu", oscpu);
              ("build_version", build_version); ("build_id", build_id);
              ("app_version", VStr av); ("app_name", name);
              ("app_code_name", VStr "Mozilla"); ("product", VStr "Gecko");
              ("product_sub", product_sub); ("vendor", vendor);
              ("vendor_sub", VStr ""); ("user_agent", VStr ua) ].
Proof.
  unfold navigator_of_ids. intros H.
  step_in H. rename v into sys, w0 into w1, Hrun into Hsys.
  step_in H. rename v into app, w0 into w2, Hrun into Happ.
  step_in H. lift_in Hrun. rename v into tpl, E into Etpl.
  step_in H. lift_in Hrun. rename v into ua, E into Eua.
  step_in H. lift_in Hrun. rename v into pv, E into Epv.
  step_in H. rename v into av, w0 into w3, Hrun into Hav.
  pose proof (build_navigator_app_version_world _ _ _ _ _ _ _ Hav) as ->.
  step_in H. lift_in Hrun. rename v into platform, E into E1.
  step_in H. lift_in Hrun. rename v into oscpu, E into E2.
  step_in H. lift_in Hrun. rename v into bv, E into E3.
  step_in H. lift_in Hrun. rename v into bid, E into E4.
  step_in H. lift_in Hrun. rename v into name, E into E5.
  step_in H. lift_in Hrun. rename v into ps, E into E6.
  step_in H. lift_in Hrun. rename v into vendor, E into E7.
  apply ret_inv in H. destruct H as [-> ->].
  exists sys, w1, app, tpl, ua, pv, av.
  repeat (split; [assumption|]).
  exists platform, oscpu, bv, bid, name, ps, vendor.
  repeat (split; [assumption|]). reflexivity.
Qed.

Lemma generate_navigator_Return_inv os nav platform dt w cfg w' :
  generate_navigator device os nav platform dt w = (Return cfg, w') ->
  exists dev o n w1,
    pick_config_ids dt (effective_os os platform) nav (after_notice platform w)
    = (Return (dev, o, n), w1) /\
    navigator_of_ids device dev o n w1 = (Return cfg, w').
Proof.
  rewrite generate_navigator_unfold. intros H.
  step_in H. destruct v as [[dev o] n]. eauto 6.
Qed.

Lemma generate_navigator_Raise os nav platform dt w e w1 :
  pick_config_ids dt (effective_os os platform) nav (after_notice platform w)
  = (Raise e, w1) ->
  generate_navigator device os nav platform dt w = (Raise e, w1) /\
  generate_user_agent device os nav platform dt w = (Raise e, w1) /\
  generate_navigator_js device os nav platform dt w = (Raise e, w1).
Proof.
  intros H.
  assert (G : generate_navigator device os nav platform dt w = (Raise e, w1)).
  { rewrite generate_navigator_unfold. now apply bind_Raise. }
  split; [exact G|].
  split; [unfold generate_user_agent | unfold generate_navigator_js];
    now apply bind_Raise.
Qed.

End TopLevelFacts.

(* ===================================================================== *)
(** ** Shapes of the rendered header *)
(* ===================================================================== *)

Lemma append_assoc_ (a b c : string) : (a ++ b) ++ c = a ++ (b ++ c).
Proof. induction a as [|x a IH]; simpl; congruence. Qed.

Lemma format_Lit_inv p rest sys app ua :
  format (Lit p :: rest) sys app = Return ua ->
  exists tail, format rest sys app = Return tail /\ ua = p ++ tail.
Proof.
  cbn [format]. intros H. apply obind_Return_inv in H.
  destruct H as (tail & Ht & [= <-]). eauto.
Qed.

Lemma format_System_inv k rest sys app ua :
  format (System k :: rest) sys app = Return ua ->
  exists v tail, getitem sys k = Return v /\
                 format rest sys app = Return tail /\ ua = str_of v ++ tail.
Proof.
  cbn [format]. intros H. apply obind_Return_inv in H.
  destruct H as (v & Hv & H). apply obind_Return_inv in H.
  destruct H as (tail & Ht & [= <-]). eauto.
Qed.

Lemma mem_chrome_ie n :
  mem n ["chrome"; "ie"] = true -> n = "chrome" \/ n = "ie".
Proof. intros H. apply mem_In in H. simpl in H. intuition. Qed.

(** The Chrome and IE templates all open with ["Mozilla/5.0 ("]. *)
Lemma choose_ua_template_chrome_ie dev n app tpl :
  mem n ["chrome"; "ie"] = true ->
  choose_ua_template dev n app = Return tpl ->
  exists p rest, tpl = Lit ("Mozilla/5.0 (" ++ p) :: rest.
Proof.
  intros Hn. apply mem_chrome_ie in Hn. destruct Hn as [-> | ->];
    unfold choose_ua_template.
  - split_eqb; intros [= <-]; exists ""; eexists; reflexivity.
  - split_eqb. destruct (getitem app "build_version") as [v|]; cbn [obind];
      [|discriminate].
    destruct (pyval_eqb v (VStr "MSIE 11.0")); lookup_tables; split_eqb;
      intros [= <-].
    + exists ""; eexists; reflexivity.
    + exists "compatible; "; eexists; reflexivity.
Qed.

(** The three Chrome templates put the platform token first. *)
Lemma choose_ua_template_chrome dev app tpl :
  choose_ua_template dev "chrome" app = Return tpl ->
  exists suffix,
    tpl = [ Lit "Mozilla/5.0 ("; System "ua_platform";
            Lit ") AppleWebKit/537.36 (KHTML, like Gecko) Chrome/";
            App "build_version"; Lit suffix ].
Proof.
  unfold choose_ua_template.
  split_eqb; intros [= <-]; eexists; reflexivity.
Qed.

Section ShapeFacts.

Variable device : device_module.

Lemma build_system_components_android_chrome_inv dev w sys w' :
  build_system_components device dev "android" "chrome" w = (Return sys, w') ->
  exists pv device_id cpu,
    In device_id (SMARTPHONE_DEV_IDS device) /\
    sys = [ ("platform_version", VStr pv);
            ("ua_platform", VStr ("Linux; " ++ pv ++ "; " ++ device_id));
            ("platform", VStr ("Linux " ++ cpu));
            ("oscpu", VStr ("Linux " ++ cpu)) ].
Proof.
  unfold build_system_components. split_eqb; intros H;
    [ | | cbv [bind assert ret raise] in H; discriminate H ].
  all: step_in H; clear Hrun; step_in H; clear Hrun;
    step_in H; clear Hrun; step_in H; clear Hrun;
    step_in H; step_in Hrun;
    match goal with
    | Hc : choice (SMARTPHONE_DEV_IDS device) _ = _ |- _ =>
        apply choice_Return_inv in Hc; destruct Hc as [Hdev _]
    end;
    apply ret_inv in Hrun; destruct Hrun as [-> _];
    step_in H; clear Hrun; step_in H; clear Hrun;
    apply ret_inv in H; destruct H as [-> _];
    do 3 eexists; split; [exact Hdev | reflexivity].
Qed.

Lemma build_system_components_android_chrome_empty dev w :
  In dev ["smartphone"; "tablet"] ->
  SMARTPHONE_DEV_IDS device = [] ->
  fst (build_system_components device dev "android" "chrome" w)
  = Raise IndexError.
Proof.
  intros Hdev Hempty. unfold build_system_components.
  each_member; do 5 run_step; rewrite Hempty; reflexivity.
Qed.

End ShapeFacts.

(* ===================================================================== *)
(** ** Properties of the generator *)
(* ===================================================================== *)

(** C1: for filters whose values are all valid and whose choice sets hold at
    least one triple accepted by the three compatibility mappings (and a
    non-empty smartphone catalog), [generate_navigator] returns a config; its
    [os_id] and [navigator_id] are those of the triple picked internally, and
    that triple satisfies [DEVICE_TYPE_OS], [DEVICE_TYPE_NAVIGATOR] and
    [OS_NAVIGATOR] at once. *)
Theorem C1_generate_navigator_compatible
  (device : device_module) (os navigator platform device_type : optarg)
  (w : world) :
  SMARTPHONE_DEV_IDS device <> [] ->
  valid_filters device_type (effective_os os platform) navigator = true ->
  existsb accepted
    (candidates device_type (effective_os os platform) navigator) = true ->
  exists dev o n w1 cfg w',
    pick_config_ids device_type (effective_os os platform) navigator
      (after_notice platform w) = (Return (dev, o, n), w1) /\
    generate_navigator device os navigator platform device_type w
    = (Return cfg, w') /\
    getitem cfg "os_id" = Return (VStr o) /\
    getitem cfg "navigator_id" = Return (VStr n) /\
    allowed DEVICE_TYPE_OS dev o = true /\
    allowed DEVICE_TYPE_NAVIGATOR dev n = true /\
    allowed OS_NAVIGATOR o n = true.
Proof.
  intros Hne Hvalid Hsome.
  destruct (valid_filters_choices _ _ _ Hvalid) as (Ed & Eo & En).
  apply existsb_exists in Hsome. destruct Hsome as ([[d0 o0] n0] & Hin & Hacc).
  apply in_product3 in Hin. apply accepted_compatible in Hacc.
  destruct (pick_config_ids_ok _ _ _ _ _ _ (after_notice platform w) Ed Eo En)
    as (dev & o & n & Hpick).
  { exists d0, o0, n0. tauto. }
  destruct (pick_config_ids_Return_inv _ _ _ _ _ _ _ _ Hpick) as (Hc & _ & _).
  destruct (navigator_of_ids_ok device dev o n
              (advance (after_notice platform w))
              (compatible_true_inv _ _ _ Hc) Hne)
    as (cfg & w' & Hcfg & Hos & Hnav).
  exists dev, o, n, (advance (after_notice platform w)), cfg, w'.
  split; [exact Hpick|]. split.
  { rewrite generate_navigator_unfold.
    rewrite (bind_Return _ _ _ _ _ Hpick). exact Hcfg. }
  split; [exact Hos|]. split; [exact Hnav|].
  apply accepted_compatible in Hc. unfold accepted in Hc.
  apply andb_true_iff in Hc. destruct Hc as [Hc ?].
  apply andb_true_iff in Hc. tauto.
Qed.

Lemma C1_witness :
  exists dev o n w1 cfg w',
    pick_config_ids (ArgStr "all") (ArgSeq ["android"; "linux"]) ArgNone
      (seed [5; 1; 2]) = (Return (dev, o, n), w1) /\
    generate_navigator sample_device (ArgSeq ["android"; "linux"]) ArgNone
      ArgNone (ArgStr "all") (seed [5; 1; 2]) = (Return cfg, w') /\
    getitem cfg "os_id" = Return (VStr o) /\
    getitem cfg "navigator_id" = Return (VStr n) /\
    allowed DEVICE_TYPE_OS dev o = true /\
    allowed DEVICE_TYPE_NAVIGATOR dev n = true /\
    allowed OS_NAVIGATOR o n = true.
Proof.
  apply (C1_generate_navigator_compatible sample_device
           (ArgSeq ["android"; "linux"]) ArgNone ArgNone (ArgStr "all")
           (seed [5; 1; 2])).
  - discriminate.
  - vm_compute. reflexivity.
  - vm_compute. reflexivity.
Defined.

(** C7: individually valid filters whose choice sets hold no triple accepted
    by the three compatibility mappings make [pick_config_ids], and with it
    the three top-level functions, raise [InvalidOption] with the
    filter-conflict message, before any draw. *)
Theorem C7_conflicting_filters
  (device : device_module) (os navigator platform device_type : optarg)
  (w : world) :
  valid_filters device_type (effective_os os platform) navigator = true ->
  existsb accepted
    (candidates device_type (effective_os os platform) navigator) = false ->
  pick_config_ids device_type (effective_os os platform) navigator
    (after_notice platform w)
  = (Raise (InvalidOption conflict_message), after_notice platform w) /\
  generate_navigator device os navigator platform device_type w
  = (Raise (InvalidOption conflict_message), after_notice platform w) /\
  generate_user_agent device os navigator platform device_type w
  = (Raise (InvalidOption conflict_message), after_notice platform w) /\
  generate_navigator_js device os navigator platform device_type w
  = (Raise (InvalidOption conflict_message), after_notice platform w).
Proof.
  intros Hvalid Hnone.
  destruct (valid_filters_choices _ _ _ Hvalid) as (Ed & Eo & En).
  assert (Hpick : pick_config_ids device_type (effective_os os platform)
                    navigator (after_notice platform w)
                  = (Raise (InvalidOption conflict_message),
                     after_notice platform w)).
  { apply (pick_config_ids_conflict _ _ _ _ _ _ _ Ed Eo En).
    intros dev o n Hd Ho Hn Hc.
    apply accepted_compatible in Hc.
    assert (Hex : existsb accepted
                    (candidates device_type (effective_os os platform)
                       navigator) = true).
    { apply existsb_exists. exists (dev, o, n). split; [|exact Hc].
      apply in_product3. auto. }
    congruence. }
  split; [exact Hpick|].
  apply (generate_navigator_Raise device _ _ _ _ _ _ _ Hpick).
Qed.

Lemma C7_witness :
  generate_navigator sample_device (ArgStr "win") (ArgStr "firefox") ArgNone
    (ArgStr "smartphone") (seed [])
  = (Raise (InvalidOption conflict_message), seed []).
Proof.
  apply (C7_conflicting_filters sample_device (ArgStr "win")
           (ArgStr "firefox") ArgNone (ArgStr "smartphone") (seed [])).
  - vm_compute. reflexivity.
  - vm_compute. reflexivity.
Defined.

(** C6 fails as stated: a list that holds ["all"] next to a value outside
    the enumeration is accepted, the whole axis being taken. *)
Lemma C6_counterexample :
  ~ (forall (device : device_module) (os navigator platform device_type : optarg)
            (w : world) (v : string),
       In v (values_of os) ->
       valid_value (keys OS_NAVIGATOR) v = false ->
       exists msg w',
         generate_navigator device os navigator platform device_type w
         = (Raise (InvalidOption msg), w')).
Proof.
  intros H.
  destruct (H sample_device (ArgSeq ["all"; "bogus"]) ArgNone ArgNone ArgNone
              (seed []) "bogus") as (msg & w' & E).
  - simpl. auto.
  - vm_compute. reflexivity.
  - vm_compute in E. discriminate E.
Qed.

(** C6, amended: when some filter in force ([device_type], [os] or its
    replacement [platform], [navigator], examined in that order) holds a
    value outside its enumeration and does not hold ["all"], the three
    top-level functions raise [InvalidOption] before any draw, and the
    message names the first such option and its first offending value. *)
Theorem C6_invalid_option
  (device : device_module) (os navigator platform device_type : optarg)
  (w : world) (name v : string) :
  first_offending device_type (effective_os os platform) navigator
  = Some (name, v) ->
  exists msg,
    contains msg name = true /\ contains msg v = true /\
    generate_navigator device os navigator platform device_type w
    = (Raise (InvalidOption msg), after_notice platform w) /\
    generate_user_agent device os navigator platform device_type w
    = (Raise (InvalidOption msg), after_notice platform w) /\
    generate_navigator_js device os navigator platform device_type w
    = (Raise (InvalidOption msg), after_notice platform w).
Proof.
  intros H.
  destruct (pick_config_ids_offending _ _ _ _ _ (after_notice platform w) H)
    as (msg & Hpick & Hname & Hv).
  exists msg. split; [exact Hname|]. split; [exact Hv|].
  apply (generate_navigator_Raise device _ _ _ _ _ _ _ Hpick).
Qed.

Lemma C6_witness :
  exists msg,
    contains msg "os" = true /\ contains msg "bogus" = true /\
    generate_navigator sample_device (ArgSeq ["win"; "bogus"]) ArgNone ArgNone
      ArgNone (seed [])
    = (Raise (InvalidOption msg), seed []) /\
    generate_user_agent sample_device (ArgSeq ["win"; "bogus"]) ArgNone ArgNone
      ArgNone (seed [])
    = (Raise (InvalidOption msg), seed []) /\
    generate_navigator_js sample_device (ArgSeq ["win"; "bogus"]) ArgNone
      ArgNone ArgNone (seed [])
    = (Raise (InvalidOption msg), seed []).
Proof.
  apply (C6_invalid_option sample_device (ArgSeq ["win"; "bogus"]) ArgNone
           ArgNone ArgNone (seed []) "os" "bogus").
  vm_compute. reflexivity.
Defined.

(** C5: for every combination of arguments and every seed,
    [generate_user_agent] is [generate_navigator] followed by the lookup of
    ["user_agent"] in its result; that lookup always succeeds, so the two
    return or raise together, with the same exception and the same final
    state. *)
Theorem C5_user_agent_of_navigator
  (device : device_module) (os navigator platform device_type : optarg)
  (w : world) :
  generate_user_agent device os navigator platform device_type w
  = (match fst (generate_navigator device os navigator platform device_type w)
     with
     | Return cfg => getitem cfg "user_agent"
     | Raise e => Raise e
     end,
     snd (generate_navigator device os navigator platform device_type w)) /\
  (forall cfg w',
     generate_navigator device os navigator platform device_type w
     = (Return cfg, w') ->
     exists ua,
       getitem cfg "user_agent" = Return (VStr ua) /\
       generate_user_agent device os navigator platform device_type w
       = (Return (VStr ua), w')) /\
  (forall e w',
     generate_navigator device os navigator platform device_type w
     = (Raise e, w') <->
     generate_user_agent device os navigator platform device_type w
     = (Raise e, w')).
Proof.
  assert (Hfield : forall cfg w',
             generate_navigator device os navigator platform device_type w
             = (Return cfg, w') ->
             exists ua, getitem cfg "user_agent" = Return (VStr ua)).
  { intros cfg w' H.
    apply generate_navigator_Return_inv in H.
    destruct H as (dev & o & n & w1 & _ & H).
    apply navigator_of_ids_Return_inv in H.
    destruct H as (sys & w2 & app & tpl & ua & pv & av & _ & _ & _ & _ & _ & _
                   & p & oc & bv & bid & nm & ps & vd
                   & _ & _ & _ & _ & _ & _ & _ & ->).
    exists ua. vm_compute. reflexivity. }
  unfold generate_user_agent, bind, lift.
  destruct (generate_navigator device os navigator platform device_type w)
    as [[cfg|e] w1] eqn:E; simpl.
  - destruct (Hfield cfg w1 eq_refl) as [ua Hua]. rewrite Hua.
    split; [reflexivity|]. split.
    + intros cfg' w' [= <- <-]. exists ua. auto.
    + intros e w'. split; discriminate.
  - split; [reflexivity|]. split.
    + intros cfg' w'. discriminate.
    + intros e' w'. split; intros [= <- <-]; reflexivity.
Qed.

(** C4: whenever [generate_navigator] returns a config whose navigator is
    chrome or ie, its [user_agent] starts with ["Mozilla/5.0"] and is
    ["Mozilla/"] followed by its [app_version]. *)
Theorem C4_app_version_strips_Mozilla
  (device : device_module) (os navigator platform device_type : optarg)
  (w : world) (cfg : dict pyval) (w' : world) (n : string) :
  generate_navigator device os navigator platform device_type w
  = (Return cfg, w') ->
  getitem cfg "navigator_id" = Return (VStr n) ->
  mem n ["chrome"; "ie"] = true ->
  exists ua av,
    getitem cfg "user_agent" = Return (VStr ua) /\
    getitem cfg "app_version" = Return (VStr av) /\
    startswith ua "Mozilla/5.0" = true /\
    ua = "Mozilla/" ++ av.
Proof.
  intros H Hid Hn.
  apply generate_navigator_Return_inv in H.
  destruct H as (dev & o & n' & w1 & _ & H).
  apply navigator_of_ids_Return_inv in H.
  destruct H as (sys & w2 & app & tpl & ua & pv & av & _ & _ & Htpl & Hua & _
                 & Hav & p & oc & bv & bid & nm & ps & vd
                 & _ & _ & _ & _ & _ & _ & _ & ->).
  vm_compute in Hid. injection Hid as ->.
  destruct (choose_ua_template_chrome_ie _ _ _ _ Hn Htpl) as (pre & rest & ->).
  apply format_Lit_inv in Hua. destruct Hua as (tail & _ & ->).
  rewrite append_assoc_ in *.
  change ("Mozilla/5.0 (" ++ pre ++ tail)
    with ("Mozilla/" ++ ("5.0 (" ++ pre ++ tail)) in Hav.
  rewrite (build_navigator_app_version_strip _ _ _ _ _ Hn) in Hav.
  injection Hav as <-.
  exists ("Mozilla/5.0 (" ++ pre ++ tail), ("5.0 (" ++ pre ++ tail).
  split; [vm_compute; reflexivity|]. split; [vm_compute; reflexivity|].
  split; [|reflexivity].
  exact (prefix_app "Mozilla/5.0" (" (" ++ pre ++ tail)).
Qed.

Lemma C4_witness :
  exists cfg w' ua av,
    generate_navigator sample_device (ArgStr "win") (ArgStr "ie") ArgNone
      ArgNone (seed [0; 1; 0; 1]) = (Return cfg, w') /\
    getitem cfg "user_agent" = Return (VStr ua) /\
    getitem cfg "app_version" = Return (VStr av) /\
    startswith ua "Mozilla/5.0" = true /\
    ua = "Mozilla/" ++ av.
Proof.
  pose (run := generate_navigator sample_device (ArgStr "win") (ArgStr "ie")
                 ArgNone ArgNone (seed [0; 1; 0; 1])).
  exists (match fst run with Return c => c | Raise _ => [] end), (snd run).
  destruct (C4_app_version_strips_Mozilla sample_device (ArgStr "win")
              (ArgStr "ie") ArgNone ArgNone (seed [0; 1; 0; 1])
              (match fst run with Return c => c | Raise _ => [] end)
              (snd run) "ie")
    as (ua & av & H);
    [vm_compute; reflexivity | vm_compute; reflexivity
     | vm_compute; reflexivity |].
  exists ua, av. split; [vm_compute; reflexivity | exact H].
Defined.

(** C8: a triple handed over by [pick_config_ids] never fails the two
    assertions of the Android branch of [build_system_components]: when its
    os is android, its navigator is firefox or chrome and its device type is
    smartphone or tablet, and whatever the os, the call does not raise
    [AssertionError]. *)
Theorem C8_android_assertions_hold
  (device : device_module) (os navigator platform device_type : optarg)
  (w : world) (dev o n : string) (w1 : world) :
  pick_config_ids device_type (effective_os os platform) navigator
    (after_notice platform w) = (Return (dev, o, n), w1) ->
  (o = "android" ->
   mem n ["firefox"; "chrome"] = true /\
   mem dev ["smartphone"; "tablet"] = true) /\
  fst (build_system_components device dev o n w1) <> Raise AssertionError.
Proof.
  intros Hpick.
  destruct (pick_config_ids_Return_inv _ _ _ _ _ _ _ _ Hpick) as (Hc & _ & _).
  apply compatible_true_inv in Hc. unfold COMPATIBLE_TRIPLES in Hc.
  simpl In in Hc.
  repeat (destruct Hc as [Hc|Hc]; [injection Hc as <- <- <-|]);
    [..|contradiction];
    (split; [intros Ho; first [discriminate Ho | split; reflexivity]|]).
  all: lazymatch goal with
    | |- fst (build_system_components ?d ?dv "win" ?nv ?wv) <> _ =>
        destruct (build_system_components_win d dv nv wv)
          as (? & ? & _ & _ & ->); discriminate
    | |- fst (build_system_components ?d ?dv "linux" ?nv ?wv) <> _ =>
        destruct (build_system_components_linux d dv nv wv)
          as (? & ? & _ & _ & ->); discriminate
    | |- fst (build_system_components ?d ?dv "mac" ?nv ?wv) <> _ =>
        destruct (build_system_components_mac d dv nv wv)
          as (? & ? & ? & ? & ->); discriminate
    | |- fst (build_system_components ?d ?dv "android" "firefox" ?wv) <> _ =>
        destruct (build_system_components_android_firefox d dv wv)
          as (? & ? & ? & _ & _ & _ & ->); [simpl; auto | discriminate]
    | |- fst (build_system_components ?d ?dv "android" "chrome" ?wv) <> _ =>
        destruct (SMARTPHONE_DEV_IDS d) as [|id ids] eqn:Hids;
        [ rewrite build_system_components_android_chrome_empty;
          [discriminate | simpl; auto | exact Hids]
        | destruct (build_system_components_android_chrome d dv wv)
            as (? & ? & ? & ? & _ & _ & _ & _ & ->);
          [simpl; auto | congruence | discriminate] ]
    end.
Qed.

Lemma C8_witness :
  ("android" = "android" ->
   mem "chrome" ["firefox"; "chrome"] = true /\
   mem "tablet" ["smartphone"; "tablet"] = true) /\
  fst (build_system_components sample_device "tablet" "android" "chrome"
         (advance (seed []))) <> Raise AssertionError.
Proof.
  apply (C8_android_assertions_hold sample_device (ArgStr "android") ArgNone
           ArgNone (ArgStr "tablet") (seed []) "tablet" "android" "chrome"
           (advance (seed []))).
  vm_compute. reflexivity.
Defined.

Lemma pick_tablet_android_firefox w :
  pick_config_ids (ArgStr "tablet") (ArgStr "android") (ArgStr "firefox") w
  = (Return ("tablet", "android", "firefox"), advance w).
Proof.
  destruct (pick_config_ids_ok (ArgStr "tablet") (ArgStr "android")
              (ArgStr "firefox") ["tablet"] ["android"] ["firefox"] w)
    as (dev & o & n & Hpick);
    [vm_compute; reflexivity | vm_compute; reflexivity
     | vm_compute; reflexivity | |].
  { exists "tablet", "android", "firefox". simpl.
    repeat (split; [auto|]). vm_compute. reflexivity. }
  destruct (pick_config_ids_Return_inv _ _ _ _ _ _ _ _ Hpick)
    as (_ & _ & ds & ol & nl & Ed & Eo & En & Hd & Ho & Hn).
  vm_compute in Ed, Eo, En.
  injection Ed as <-. injection Eo as <-. injection En as <-.
  simpl in Hd, Ho, Hn.
  destruct Hd as [<-|[]]. destruct Ho as [<-|[]]. destruct Hn as [<-|[]].
  exact Hpick.
Qed.

Lemma android_versions_prefix versions pv :
  getitem OS_PLATFORM "android" = Return versions -> In pv versions ->
  exists rest, pv = "Android" ++ rest.
Proof.
  intros E Hin. vm_compute in E. injection E as <-.
  each_member; eexists; reflexivity.
Qed.

(** C3 fails as stated: the ["platform"] field of an Android config is the
    cpu string, which holds no ["; Tablet"]. *)
Lemma C3_counterexample :
  ~ (forall (device : device_module) (w : world) js w',
       generate_navigator_js device (ArgStr "android") (ArgStr "firefox")
         ArgNone (ArgStr "tablet") w = (Return js, w') ->
       exists platform ua,
         getitem js "platform" = Return (VStr platform) /\
         contains platform "; Tablet" = true /\
         getitem js "userAgent" = Return (VStr ua) /\
         startswith ua "Mozilla/5.0 (Android" = true).
Proof.
  intros H.
  pose (run := generate_navigator_js sample_device (ArgStr "android")
                 (ArgStr "firefox") ArgNone (ArgStr "tablet") (seed [])).
  destruct (H sample_device (seed [])
              (match fst run with Return c => c | Raise _ => [] end)
              (snd run))
    as (platform & ua & Hp & Hc & _); [vm_compute; reflexivity|].
  vm_compute in Hp. injection Hp as <-.
  vm_compute in Hc. discriminate Hc.
Qed.


(** C3, amended: for every seed, [generate_navigator_js(os="android",
    navigator="firefox", device_type="tablet")] returns a record whose
    ["platform"] is ["Linux armv7l"] or ["Linux armv8l"] (so it holds no
    ["; Tablet"]), and whose ["userAgent"] starts with
    ["Mozilla/5.0 (Android"] and holds ["; Tablet"]. *)
Theorem C3_android_firefox_tablet (device : device_module) (w : world) :
  exists js w' cpu ua,
    generate_navigator_js device (ArgStr "android") (ArgStr "firefox")
      ArgNone (ArgStr "tablet") w = (Return js, w') /\
    In cpu ["armv7l"; "armv8l"] /\
    getitem js "platform" = Return (VStr ("Linux " ++ cpu)) /\
    contains ("Linux " ++ cpu) "; Tablet" = false /\
    getitem js "userAgent" = Return (VStr ua) /\
    startswith ua "Mozilla/5.0 (Android" = true /\
    contains ua "; Tablet" = true.
Proof.
  unfold generate_navigator_js.
  assert (Hnav : exists pv cpu ver w' cfg,
             In cpu ["armv7l"; "armv8l"] /\
             generate_navigator device (ArgStr "android") (ArgStr "firefox")
               ArgNone (ArgStr "tablet") w = (Return cfg, w') /\
             getitem cfg "app_code_name" = Return (VStr "Mozilla") /\
             (exists v, getitem cfg "app_name" = Return v) /\
             (exists v, getitem cfg "app_version" = Return v) /\
             getitem cfg "platform" = Return (VStr ("Linux " ++ cpu)) /\
             getitem cfg "user_agent" =
             Return (VStr ("Mozilla/5.0 (Android" ++ pv ++ "; Tablet" ++
                           "; rv:" ++ ver ++ ") Gecko/" ++ ver ++
                           " Firefox/" ++ ver ++ "")) /\
             (exists v, getitem cfg "oscpu" = Return v) /\
             (exists v, getitem cfg "product" = Return v) /\
             (exists v, getitem cfg "product_sub" = Return v) /\
             (exists v, getitem cfg "vendor" = Return v) /\
             (exists v, getitem cfg "vendor_sub" = Return v) /\
             (exists v, getitem cfg "build_id" = Return v)).
  { rewrite generate_navigator_unfold.
    rewrite (bind_Return _ _ _ _ _ (pick_tablet_android_firefox _)).
    unfold navigator_of_ids.
    destruct (build_system_components_android_firefox device "tablet"
                (advance (after_notice ArgNone w)))
      as (versions & pv & cpu & Ev & Hpv & Hcpu & Esys); [simpl; auto|].
    destruct (android_versions_prefix _ _ Ev Hpv) as (rest & ->).
    rewrite (bind_Return _ _ _ _ _ Esys). clear Esys.
    run_app. run_render.
    exists rest, cpu. do 3 eexists. split; [exact Hcpu|].
    split; [reflexivity|].
    repeat split; try (eexists; vm_compute; reflexivity);
      try (vm_compute; reflexivity).
    cbn [getitem]. split_eqb.
    rewrite (append_assoc_ ("Android" ++ rest) "; Tablet"). reflexivity. }
  destruct Hnav as (pv & cpu & ver & w' & cfg & Hcpu & Hrun & E1 & [v2 E2]
                    & [v3 E3] & E4 & E5 & [v6 E6] & [v7 E7] & [v8 E8]
                    & [v9 E9] & [v10 E10] & [v11 E11]).
  rewrite (bind_Return _ _ _ _ _ Hrun).
  rewrite E1, E2, E3, E4, E5, E6, E7, E8, E9, E10, E11.
  repeat run_step.
  do 2 eexists. exists cpu. eexists. split; [reflexivity|].
  split; [exact Hcpu|]. split; [vm_compute; reflexivity|].
  split.
  { clear -Hcpu. each_member; vm_compute; reflexivity. }
  split; [vm_compute; reflexivity|].
  split.
  { exact (prefix_app "Mozilla/5.0 (Android" _). }
  apply (contains_skip "Mozilla/5.0 (Android" (pv ++ "; Tablet" ++ _)).
  apply (contains_skip pv ("; Tablet" ++ _)).
  apply (contains_here "; Tablet").
Qed.

(** The Firefox fields of a returned config: the version of some table entry
    and the rendering of a well-formed time in its sampling window. *)
Lemma firefox_config (device : device_module)
  (os navigator platform device_type : optarg) (w : world) cfg w' :
  generate_navigator device os navigator platform device_type w
  = (Return cfg, w') ->
  getitem cfg "navigator_id" = Return (VStr "firefox") ->
  exists i ver release k t,
    nth_error FIREFOX_VERSION i = Some (ver, release) /\
    0 <= k <= Z.max (window_end i release - seconds_of release - 1) 100000 /\
    seconds_of t = seconds_of release + k /\
    well_formed t /\
    getitem cfg "build_version" = Return (VStr ver) /\
    getitem cfg "build_id" = Return (VStr (strftime_YmdHMS t)).
Proof.
  intros H Hid.
  apply generate_navigator_Return_inv in H.
  destruct H as (dev & o & n & w1 & _ & H).
  apply navigator_of_ids_Return_inv in H.
  destruct H as (sys & w2 & app & tpl & ua & pv & av & _ & Happ & _ & _ & _
                 & _ & p & oc & bv & bid & nm & ps & vd
                 & _ & _ & Ebv & Ebid & _ & _ & _ & ->).
  vm_compute in Hid. injection Hid as ->.
  destruct (build_app_components_firefox o w2)
    as (i & ver & release & k & t & Hnth & Hk & Hsec & Hwf & E).
  rewrite E in Happ. injection Happ as <- _.
  vm_compute in Ebv. injection Ebv as <-.
  vm_compute in Ebid. injection Ebid as <-.
  exists i, ver, release, k, t.
  repeat (split; [assumption|]). split; vm_compute; reflexivity.
Qed.

(** C9: for every seed the Firefox build selector returns a build id of
    exactly 14 decimal digits in [YYYYMMDDHHMMSS] form, and so is the
    [build_id] of every config that [generate_navigator] returns for
    Firefox. *)
Theorem C9_build_id_timestamp
  (device : device_module) (os navigator platform device_type : optarg)
  (w : world) :
  (exists ver build_id w',
     get_firefox_build w = (Return (ver, build_id), w') /\
     is_timestamp14 build_id) /\
  (forall cfg w',
     generate_navigator device os navigator platform device_type w
     = (Return cfg, w') ->
     getitem cfg "navigator_id" = Return (VStr "firefox") ->
     exists build_id,
       getitem cfg "build_id" = Return (VStr build_id) /\
       is_timestamp14 build_id).
Proof.
  assert (Hts : forall t, well_formed t -> is_timestamp14 (strftime_YmdHMS t)).
  { intros t Hwf. destruct (strftime_parse t Hwf) as (Hl & Hd & Hp).
    unfold is_timestamp14. eauto 6. }
  split.
  - destruct (get_firefox_build_spec w)
      as (i & ver & release & k & t & _ & _ & _ & Hwf & E).
    exists ver, (strftime_YmdHMS t). eexists. split; [exact E | auto].
  - intros cfg w' H Hid.
    destruct (firefox_config _ _ _ _ _ _ _ _ H Hid)
      as (i & ver & release & k & t & _ & _ & _ & Hwf & _ & Ebid).
    exists (strftime_YmdHMS t). auto.
Qed.

Lemma sampling_window_of_offset i release t k :
  0 <= k <= Z.max (window_end i release - seconds_of release - 1) 100000 ->
  seconds_of t = seconds_of release + k ->
  in_sampling_window i release t /\
  (100000 < window_end i release - seconds_of release ->
   in_release_window i release t).
Proof.
  unfold in_sampling_window, in_release_window. intros Hk Hsec. lia.
Qed.

(** C2, amended: for every seed the time encoded in the build id lies
    between the release date of the chosen version and that date plus the
    larger of 100000 seconds and the length of the window to the next table
    entry (one day for the last entry) minus one second; it falls inside
    that window whenever the window is longer than 100000 seconds.  The same
    holds for the [build_id] of every Firefox config. *)
Theorem C2_build_time_window
  (device : device_module) (os navigator platform device_type : optarg)
  (w : world) :
  (exists i ver release build_id t w',
     get_firefox_build w = (Return (ver, build_id), w') /\
     nth_error FIREFOX_VERSION i = Some (ver, release) /\
     parse_build_id build_id = Some t /\
     in_sampling_window i release t /\
     (100000 < window_end i release - seconds_of release ->
      in_release_window i release t)) /\
  (forall cfg w',
     generate_navigator device os navigator platform device_type w
     = (Return cfg, w') ->
     getitem cfg "navigator_id" = Return (VStr "firefox") ->
     exists i ver release build_id t,
       getitem cfg "build_version" = Return (VStr ver) /\
       getitem cfg "build_id" = Return (VStr build_id) /\
       nth_error FIREFOX_VERSION i = Some (ver, release) /\
       parse_build_id build_id = Some t /\
       in_sampling_window i release t /\
       (100000 < window_end i release - seconds_of release ->
        in_release_window i release t)).
Proof.
  split.
  - destruct (get_firefox_build_spec w)
      as (i & ver & release & k & t & Hnth & Hk & Hsec & Hwf & E).
    destruct (strftime_parse t Hwf) as (_ & _ & Hp).
    destruct (sampling_window_of_offset i release t k Hk Hsec) as [Hs Hr].
    exists i, ver, release, (strftime_YmdHMS t), t. eexists.
    split; [exact E|]. auto.
  - intros cfg w' H Hid.
    destruct (firefox_config _ _ _ _ _ _ _ _ H Hid)
      as (i & ver & release & k & t & Hnth & Hk & Hsec & Hwf & Ebv & Ebid).
    destruct (strftime_parse t Hwf) as (_ & _ & Hp).
    destruct (sampling_window_of_offset i release t k Hk Hsec) as [Hs Hr].
    exists i, ver, release, (strftime_YmdHMS t), t. auto 10.
Qed.

(** C10: for Android and Chrome the device model of the header is drawn
    from [SMARTPHONE_DEV_IDS] whatever the device type.  Two catalogs with
    the same smartphone list give the same generation, so [TABLET_DEV_IDS]
    is never consulted; a tablet and a smartphone get the same system
    components from the same seed; and every config returned for Android
    and Chrome has a header of the shape
    [Mozilla/5.0 (Linux; <release>; <model>) AppleWebKit/...] with [<model>]
    in [SMARTPHONE_DEV_IDS]. *)
Theorem C10_chrome_android_model
  (device device' : device_module)
  (os navigator platform device_type : optarg) (w : world) :
  (SMARTPHONE_DEV_IDS device' = SMARTPHONE_DEV_IDS device ->
   generate_navigator device' os navigator platform device_type w
   = generate_navigator device os navigator platform device_type w) /\
  build_system_components device "tablet" "android" "chrome" w
  = build_system_components device "smartphone" "android" "chrome" w /\
  (forall cfg w',
     generate_navigator device os navigator platform device_type w
     = (Return cfg, w') ->
     getitem cfg "os_id" = Return (VStr "android") ->
     getitem cfg "navigator_id" = Return (VStr "chrome") ->
     exists release model rest,
       In model (SMARTPHONE_DEV_IDS device) /\
       getitem cfg "user_agent" =
       Return (VStr ("Mozilla/5.0 (Linux; " ++ release ++ "; " ++ model ++
                     ") AppleWebKit/537.36 (KHTML, like Gecko) Chrome/" ++
                     rest))).
Proof.
  split; [|split].
  - intros E. destruct device as [s t], device' as [s' t'].
    simpl in E. subst s'. reflexivity.
  - reflexivity.
  - intros cfg w' H Hos Hnav.
    apply generate_navigator_Return_inv in H.
    destruct H as (dev & o & n & w1 & _ & H).
    apply navigator_of_ids_Return_inv in H.
    destruct H as (sys & w2 & app & tpl & ua & pv & av & Hsys & _ & Htpl & Hua
                   & _ & _ & p & oc & bv & bid & nm & ps & vd
                   & _ & _ & _ & _ & _ & _ & _ & ->).
    vm_compute in Hos. injection Hos as ->.
    vm_compute in Hnav. injection Hnav as ->.
    apply build_system_components_android_chrome_inv in Hsys.
    destruct Hsys as (release & model & cpu & Hmodel & ->).
    apply choose_ua_template_chrome in Htpl. destruct Htpl as (suffix & ->).
    apply format_Lit_inv in Hua. destruct Hua as (t1 & Hua & ->).
    apply format_System_inv in Hua. destruct Hua as (v & t2 & Hv & Hua & ->).
    apply format_Lit_inv in Hua. destruct Hua as (t3 & _ & ->).
    revert Hv. lookup_tables. split_eqb. intros [= <-].
    exists release, model, t3. split; [exact Hmodel|].
    cbn [getitem]. split_eqb. cbn [str_of append].
    rewrite append_assoc_. reflexivity.
Qed.

Lemma C10_witness :
  generate_navigator
    {| SMARTPHONE_DEV_IDS := ["SM-G900F"; "Nexus 5"];
       TABLET_DEV_IDS := ["GT-P5210"; "Nexus 9"] |}
    (ArgStr "android") (ArgStr "chrome") ArgNone (ArgStr "tablet")
    (seed [0; 3; 1])
  = generate_navigator sample_device
      (ArgStr "android") (ArgStr "chrome") ArgNone (ArgStr "tablet")
      (seed [0; 3; 1]).
Proof.
  apply (C10_chrome_android_model sample_device
           {| SMARTPHONE_DEV_IDS := ["SM-G900F"; "Nexus 5"];
              TABLET_DEV_IDS := ["GT-P5210"; "Nexus 9"] |}
           (ArgStr "android") (ArgStr "chrome") ArgNone (ArgStr "tablet")
           (seed [0; 3; 1])).
  reflexivity.
Defined.

(* ===================================================================== *)
(** ** Further properties: options and the solver *)
(* ===================================================================== *)

Lemma check_choices_Raise name all l e :
  check_choices name all l = Raise e -> exists msg, e = InvalidOption msg.
Proof.
  induction l as [|y l IH]; simpl; [discriminate|].
  destruct (mem y all); [assumption|]. intros [= <-]. eauto.
Qed.

Lemma get_option_choices_Raise name a default all e :
  get_option_choices name a default all = Raise e ->
  exists msg, e = InvalidOption msg.
Proof.
  unfold get_option_choices.
  destruct a as [|s|items|repr]; cbn [obind];
    try (intros [= <-]; eauto; fail);
    match goal with
    | |- obind (check_choices ?n ?a ?l) _ = _ -> _ =>
        destruct (check_choices n a l) as [u|e'] eqn:E; cbn [obind];
        [discriminate | intros [= <-]; exact (check_choices_Raise _ _ _ _ E)]
    end.
Qed.

(** The two outcomes of the solver. *)
Lemma pick_config_ids_cases dt os nav w :
  (exists dev o n,
     pick_config_ids dt os nav w = (Return (dev, o, n), advance w) /\
     In (dev, o, n) COMPATIBLE_TRIPLES) \/
  (exists msg, pick_config_ids dt os nav w = (Raise (InvalidOption msg), w)).
Proof.
  destruct (get_option_choices "device_type" dt (default_dev_types os)
              (keys DEVICE_TYPE_OS)) as [ds|e] eqn:Ed.
  2: { right. destruct (get_option_choices_Raise _ _ _ _ _ Ed) as [msg ->].
       exists msg. unfold pick_config_ids. fold (default_dev_types os).
       apply bind_Raise. unfold lift. now rewrite Ed. }
  destruct (get_option_choices "os" os (keys OS_NAVIGATOR)
              (keys OS_NAVIGATOR)) as [ol|e] eqn:Eo.
  2: { right. destruct (get_option_choices_Raise _ _ _ _ _ Eo) as [msg ->].
       exists msg. unfold pick_config_ids. fold (default_dev_types os).
       rewrite (bind_Return _ _ w ds w) by (unfold lift; now rewrite Ed).
       apply bind_Raise. unfold lift. now rewrite Eo. }
  destruct (get_option_choices "navigator" nav (keys NAVIGATOR_OS)
              (keys NAVIGATOR_OS)) as [nl|e] eqn:En.
  2: { right. destruct (get_option_choices_Raise _ _ _ _ _ En) as [msg ->].
       exists msg. unfold pick_config_ids. fold (default_dev_types os).
       rewrite (bind_Return _ _ w ds w) by (unfold lift; now rewrite Ed).
       rewrite (bind_Return _ _ w ol w) by (unfold lift; now rewrite Eo).
       apply bind_Raise. unfold lift. now rewrite En. }
  destruct (existsb accepted (product3 ds ol nl)) eqn:Hex.
  - left. apply existsb_exists in Hex.
    destruct Hex as ([[d0 o0] n0] & Hin & Hacc).
    apply in_product3 in Hin. apply accepted_compatible in Hacc.
    destruct (pick_config_ids_ok dt os nav ds ol nl w Ed Eo En)
      as (dev & o & n & Hpick).
    { exists d0, o0, n0. tauto. }
    exists dev, o, n. split; [exact Hpick|].
    destruct (pick_config_ids_Return_inv _ _ _ _ _ _ _ _ Hpick) as (Hc & _).
    now apply compatible_true_inv.
  - right. exists conflict_message.
    apply (pick_config_ids_conflict dt os nav ds ol nl w Ed Eo En).
    intros dev o n Hd Ho Hn Hc. apply accepted_compatible in Hc.
    assert (existsb accepted (product3 ds ol nl) = true); [|congruence].
    apply existsb_exists. exists (dev, o, n). split; [|exact Hc].
    apply in_product3. auto.
Qed.

Lemma choice_at {A} (l : list A) (i : nat) (x : A) w :
  nth_error l i = Some x -> tape w (pos w) = Z.of_nat i ->
  choice l w = (Return x, advance w).
Proof.
  intros Hnth Htape.
  assert (Hi : (i < length l)%nat) by (apply nth_error_Some; congruence).
  destruct l as [|d l]; [simpl in Hi; lia|].
  unfold choice, bind, randbelow, ret. rewrite Htape.
  rewrite Z.mod_small by (simpl length in *; lia).
  rewrite Nat2Z.id. f_equal. f_equal.
  apply nth_error_nth with (d := d) in Hnth. exact Hnth.
Qed.

Lemma COMPATIBLE_TRIPLES_split dev o n :
  In (dev, o, n) COMPATIBLE_TRIPLES ->
  (dev = "desktop" /\ In o ["win"; "mac"; "linux"] /\
   In n ["chrome"; "firefox"; "ie"]) \/
  (o = "android" /\ In dev ["smartphone"; "tablet"] /\
   In n ["firefox"; "chrome"]).
Proof.
  unfold COMPATIBLE_TRIPLES. simpl In. intros H.
  repeat (destruct H as [H|H];
          [injection H as <- <- <-; simpl; auto 15|]).
  contradiction.
Qed.

(** X1: with a non-empty smartphone catalog, the only exception the three
    top-level functions can raise is [InvalidOption], and they raise it
    together, before any draw; otherwise [generate_navigator] returns a
    config.  No assertion fails and no lookup raises. *)
Theorem X1_only_InvalidOption
  (device : device_module) (os navigator platform device_type : optarg)
  (w : world) :
  SMARTPHONE_DEV_IDS device <> [] ->
  (exists cfg w',
     generate_navigator device os navigator platform device_type w
     = (Return cfg, w')) \/
  (exists msg,
     generate_navigator device os navigator platform device_type w
     = (Raise (InvalidOption msg), after_notice platform w) /\
     generate_user_agent device os navigator platform device_type w
     = (Raise (InvalidOption msg), after_notice platform w) /\
     generate_navigator_js device os navigator platform device_type w
     = (Raise (InvalidOption msg), after_notice platform w)).
Proof.
  intros Hne.
  destruct (pick_config_ids_cases device_type (effective_os os platform)
              navigator (after_notice platform w))
    as [(dev & o & n & Hpick & Hin) | (msg & Hpick)].
  - left.
    destruct (navigator_of_ids_ok device dev o n
                (advance (after_notice platform w)) Hin Hne)
      as (cfg & w' & Hcfg & _).
    exists cfg, w'. rewrite generate_navigator_unfold.
    rewrite (bind_Return _ _ _ _ _ Hpick). exact Hcfg.
  - right. exists msg.
    apply (generate_navigator_Raise device _ _ _ _ _ _ _ Hpick).
Qed.

Lemma X1_witness :
  (exists cfg w',
     generate_navigator sample_device (ArgStr "mac") (ArgSeq []) ArgNone
       ArgNone (seed []) = (Return cfg, w')) \/
  (exists msg,
     generate_navigator sample_device (ArgStr "mac") (ArgSeq []) ArgNone
       ArgNone (seed []) = (Raise (InvalidOption msg), seed []) /\
     generate_user_agent sample_device (ArgStr "mac") (ArgSeq []) ArgNone
       ArgNone (seed []) = (Raise (InvalidOption msg), seed []) /\
     generate_navigator_js sample_device (ArgStr "mac") (ArgSeq []) ArgNone
       ArgNone (seed []) = (Raise (InvalidOption msg), seed [])).
Proof.
  apply (X1_only_InvalidOption sample_device (ArgStr "mac") (ArgSeq [])
           ArgNone ArgNone (seed [])).
  discriminate.
Defined.

(** X2: with neither [os] (nor [platform]) nor [device_type] given, the
    device type defaults to desktop, so the config is never an Android one:
    its [os_id] is win, mac or linux.  With [os="android"] alone the device
    type defaults to every type, and a smartphone or tablet is picked. *)
Theorem X2_default_device_type
  (device : device_module) (navigator : optarg) (w : world) :
  (forall cfg w',
     generate_navigator device ArgNone navigator ArgNone ArgNone w
     = (Return cfg, w') ->
     exists o, getitem cfg "os_id" = Return (VStr o) /\
               In o ["win"; "mac"; "linux"]) /\
  (forall dev o n w1,
     pick_config_ids ArgNone (ArgStr "android") navigator w
     = (Return (dev, o, n), w1) ->
     o = "android" /\ In dev ["smartphone"; "tablet"]) /\
  (exists dev n,
     pick_config_ids ArgNone (ArgStr "android") ArgNone w
     = (Return (dev, "android", n), advance w)).
Proof.
  split; [|split].
  - intros cfg w' H.
    apply generate_navigator_Return_inv in H.
    destruct H as (dev & o & n & w1 & Hpick & H).
    apply navigator_of_ids_Return_inv in H.
    destruct H as (sys & w2 & app & tpl & ua & pv & av & _ & _ & _ & _ & _
                   & _ & p & oc & bv & bid & nm & ps & vd
                   & _ & _ & _ & _ & _ & _ & _ & ->).
    exists o. split; [vm_compute; reflexivity|].
    apply pick_config_ids_Return_inv in Hpick.
    destruct Hpick as (Hc & _ & ds & ol & nl & Ed & _ & _ & Hd & _ & _).
    vm_compute in Ed. injection Ed as <-. destruct Hd as [<-|[]].
    apply compatible_true_inv, COMPATIBLE_TRIPLES_split in Hc.
    destruct Hc as [(_ & Ho & _) | (_ & Hd & _)]; [exact Ho|].
    simpl in Hd. destruct Hd as [Hd|[Hd|[]]]; discriminate Hd.
  - intros dev o n w1 Hpick.
    apply pick_config_ids_Return_inv in Hpick.
    destruct Hpick as (Hc & _ & ds & ol & nl & _ & Eo & _ & _ & Ho & _).
    vm_compute in Eo. injection Eo as <-. destruct Ho as [<-|[]].
    split; [reflexivity|].
    apply compatible_true_inv, COMPATIBLE_TRIPLES_split in Hc.
    destruct Hc as [(_ & Ho & _) | (_ & Hd & _)]; [|exact Hd].
    simpl in Ho. destruct Ho as [Ho|[Ho|[Ho|[]]]]; discriminate Ho.
  - destruct (pick_config_ids_ok ArgNone (ArgStr "android") ArgNone
                (keys DEVICE_TYPE_OS) ["android"] (keys NAVIGATOR_OS) w)
      as (dev & o & n & Hpick);
      [vm_compute; reflexivity | vm_compute; reflexivity
       | vm_compute; reflexivity | |].
    { exists "tablet", "android", "firefox". vm_compute. auto 10. }
    exists dev, n.
    destruct (pick_config_ids_Return_inv _ _ _ _ _ _ _ _ Hpick)
      as (_ & _ & ds & ol & nl & _ & Eo & _ & _ & Ho & _).
    vm_compute in Eo. injection Eo as <-. destruct Ho as [<-|[]].
    exact Hpick.
Qed.

(** X3: every triple of the product of the choice sets that the three
    mappings accept can be drawn: some seed makes [pick_config_ids] return
    it.  (With the claim that only accepted triples are returned, the
    retained set is exactly the set of possible results.) *)
Theorem X3_every_variant_reachable
  (device_type os navigator : optarg) (t : string * string * string) :
  valid_filters device_type os navigator = true ->
  In t (candidates device_type os navigator) ->
  accepted t = true ->
  exists v,
    pick_config_ids device_type os navigator (world_drawing v)
    = (Return t, advance (world_drawing v)).
Proof.
  intros Hvalid Hin Hacc. destruct t as [[dev o] n].
  destruct (valid_filters_choices _ _ _ Hvalid) as (Ed & Eo & En).
  unfold candidates in Hin.
  set (ds := choice_set (default_dev_types os) (keys DEVICE_TYPE_OS)
               device_type) in *.
  set (ol := choice_set (keys OS_NAVIGATOR) (keys OS_NAVIGATOR) os) in *.
  set (nl := choice_set (keys NAVIGATOR_OS) (keys NAVIGATOR_OS) navigator)
    in *.
  destruct (collect_variants_total (product3 ds ol nl) []) as [vs Evs].
  { intros d o' n' Hin'. apply in_product3 in Hin'.
    apply (get_option_choices_Return _ _ _ _ _ Ed). tauto. }
  assert (Hvs : In (dev, o, n) vs).
  { apply (collect_variants_In _ _ _ Evs). right. split; [exact Hin|].
    simpl. now apply accepted_compatible. }
  destruct (In_nth_error _ _ Hvs) as [i Hi].
  exists (Z.of_nat i).
  unfold pick_config_ids. fold (default_dev_types os).
  set (w := world_drawing (Z.of_nat i)).
  rewrite (bind_Return _ _ w ds w) by (unfold lift; now rewrite Ed).
  rewrite (bind_Return _ _ w ol w) by (unfold lift; now rewrite Eo).
  rewrite (bind_Return _ _ w nl w) by (unfold lift; now rewrite En).
  rewrite (bind_Return _ _ w vs w) by (unfold lift; now rewrite Evs).
  destruct vs as [|t0 vs]; [contradiction|].
  rewrite (bind_Return _ _ _ _ _ (choice_at (t0 :: vs) i (dev, o, n) w Hi
                                    eq_refl)).
  apply accepted_compatible, compatible_true_inv, COMPATIBLE_TRIPLES_keys
    in Hacc.
  destruct Hacc as (-> & -> & ->). reflexivity.
Qed.

Lemma X3_witness :
  exists v,
    pick_config_ids (ArgStr "all") ArgNone (ArgSeq ["firefox"; "ie"])
      (world_drawing v)
    = (Return ("tablet", "android", "firefox"), advance (world_drawing v)).
Proof.
  apply (X3_every_variant_reachable (ArgStr "all") ArgNone
           (ArgSeq ["firefox"; "ie"]) ("tablet", "android", "firefox")).
  - vm_compute. reflexivity.
  - vm_compute. auto 40.
  - vm_compute. reflexivity.
Defined.

(** X4: [get_option_choices] never returns a value outside [all_choices];
    a list that holds ["all"] gives the whole axis whatever else it holds;
    an empty list is accepted and gives no choice; an argument that is
    neither a string, a list, a tuple nor [None] is refused; and the only
    exception raised is [InvalidOption]. *)
Theorem X4_option_choices
  (opt_name : string) (opt_value : optarg)
  (default_value all_choices : list string) :
  (forall choices,
     get_option_choices opt_name opt_value default_value all_choices
     = Return choices ->
     forall item, In item choices -> In item all_choices) /\
  (forall items,
     mem "all" items = true ->
     get_option_choices opt_name (ArgSeq items) default_value all_choices
     = Return all_choices) /\
  get_option_choices opt_name (ArgSeq []) default_value all_choices
  = Return [] /\
  (forall repr,
     get_option_choices opt_name (ArgOther repr) default_value all_choices
     = Raise (InvalidOption ("Option " ++ opt_name ++
                             " has invalid value: " ++ repr))) /\
  (forall e,
     get_option_choices opt_name opt_value default_value all_choices
     = Raise e -> exists msg, e = InvalidOption msg).
Proof.
  split; [|split; [|split; [|split]]].
  - intros choices H. exact (get_option_choices_Return _ _ _ _ _ H).
  - intros items Hall. unfold get_option_choices. cbn [obind].
    rewrite Hall. rewrite check_choices_valid by auto. reflexivity.
  - reflexivity.
  - reflexivity.
  - intros e H. exact (get_option_choices_Raise _ _ _ _ _ H).
Qed.

(* ===================================================================== *)
(** ** Further properties: errors of the assembler and the renderer *)
(* ===================================================================== *)

(** X5: on ids the solver never hands over, the component builders fail
    without drawing: an unknown os or navigator leaves the result unbound
    ([UnboundLocalError]), and the Android branch fails its assertions for a
    navigator other than firefox and chrome, or for a device type other than
    smartphone and tablet. *)
Theorem X5_components_on_unknown_ids
  (device : device_module) (device_type os_id navigator_id : string)
  (w : world) :
  (mem os_id ["win"; "linux"; "mac"; "android"] = false ->
   build_system_components device device_type os_id navigator_id w
   = (Raise (UnboundLocalError "res"), w)) /\
  (mem navigator_id ["firefox"; "chrome"] = false ->
   build_system_components device device_type "android" navigator_id w
   = (Raise AssertionError, w)) /\
  (mem navigator_id ["firefox"; "chrome"] = true ->
   mem device_type ["smartphone"; "tablet"] = false ->
   build_system_components device device_type "android" navigator_id w
   = (Raise AssertionError, w)) /\
  (mem navigator_id ["firefox"; "chrome"; "ie"] = false ->
   build_app_components os_id navigator_id w
   = (Raise (UnboundLocalError "res"), w)).
Proof.
  split; [|split; [|split]].
  - unfold build_system_components. cbn [mem existsb].
    split_eqb; cbn [orb]; intros H; first [discriminate H | reflexivity].
  - unfold build_system_components.
    split_eqb; intros H; first [discriminate H | reflexivity].
  - unfold build_system_components.
    split_eqb; intros H1 H2;
      first [discriminate H1 | discriminate H2 | reflexivity].
  - unfold build_app_components. cbn [mem existsb].
    split_eqb; cbn [orb]; intros H; first [discriminate H | reflexivity].
Qed.

Lemma has_key_getitem {V} (d : dict V) k :
  has_key d k = true -> exists v, getitem d k = Return v.
Proof. intros H. apply getitem_keys. unfold has_key in H. now apply mem_In. Qed.

Lemma getitem_missing {V} (d : dict V) k :
  has_key d k = false -> getitem d k = Raise (KeyError k).
Proof.
  unfold has_key, keys, mem.
  induction d as [|[k' v] d IH]; cbn [map existsb getitem fst];
    [reflexivity|].
  rewrite String.eqb_sym. destruct (String.eqb k' k); cbn [orb];
    [discriminate | exact IH].
Qed.

(** X6: [build_navigator_app_version] never draws.  For Chrome and IE it
    fails its assertion on a header that does not start with ["Mozilla/"];
    for Firefox it returns ["5.0 (<release>)"] on Android, the token
    ["Windows"], ["Macintosh"] or ["X11"] on the desktop systems, and raises
    [KeyError] on any other os; for any other navigator the result is left
    unbound. *)
Theorem X6_app_version_cases
  (os_id navigator_id : string) (platform_version : pyval)
  (user_agent : string) (w : world) :
  snd (build_navigator_app_version os_id navigator_id platform_version
         user_agent w) = w /\
  (mem navigator_id ["chrome"; "ie"] = true ->
   startswith user_agent "Mozilla/" = false ->
   build_navigator_app_version os_id navigator_id platform_version
     user_agent w = (Raise AssertionError, w)) /\
  build_navigator_app_version "android" "firefox" platform_version
    user_agent w
  = (Return ("5.0 (" ++ str_of platform_version ++ ")"), w) /\
  build_navigator_app_version "win" "firefox" platform_version user_agent w
  = (Return "5.0 (Windows)", w) /\
  build_navigator_app_version "mac" "firefox" platform_version user_agent w
  = (Return "5.0 (Macintosh)", w) /\
  build_navigator_app_version "linux" "firefox" platform_version user_agent w
  = (Return "5.0 (X11)", w) /\
  (mem os_id ["android"; "win"; "mac"; "linux"] = false ->
   build_navigator_app_version os_id "firefox" platform_version user_agent w
   = (Raise (KeyError os_id), w)) /\
  (mem navigator_id ["chrome"; "ie"; "firefox"] = false ->
   build_navigator_app_version os_id navigator_id platform_version
     user_agent w = (Raise (UnboundLocalError "app_version"), w)).
Proof.
  split.
  { destruct (build_navigator_app_version os_id navigator_id
                platform_version user_agent w) as [r w'] eqn:E.
    exact (build_navigator_app_version_world _ _ _ _ _ _ _ E). }
  split.
  { intros Hn Hs. unfold build_navigator_app_version. rewrite Hn, Hs.
    reflexivity. }
  repeat (split; [reflexivity|]).
  split.
  - unfold build_navigator_app_version. cbn [mem existsb].
    split_eqb; cbn [orb]; intros H;
      first [discriminate H | reflexivity | congruence].
  - unfold build_navigator_app_version. cbn [mem existsb].
    split_eqb; cbn [orb]; intros H;
      first [discriminate H | reflexivity | congruence].
Qed.

(** X7: rendering a template returns exactly when every replacement field
    finds its key, [{system[..]}] in the system dict and [{app[..]}] in the
    app dict; otherwise it raises [KeyError] for the first field, from the
    left, whose key is missing. *)
Theorem X7_format_keys (template : list piece) (system app : dict pyval) :
  match first_missing template system app with
  | None => exists user_agent, format template system app = Return user_agent
  | Some key => format template system app = Raise (KeyError key)
  end.
Proof.
  induction template as [|p rest IH]; cbn [first_missing format].
  - eauto.
  - destruct p as [text|key|key].
    + destruct (first_missing rest system app) as [k|].
      * rewrite IH. reflexivity.
      * destruct IH as [ua ->]. cbn [obind]. eauto.
    + destruct (has_key system key) eqn:Hk.
      * destruct (has_key_getitem _ _ Hk) as [v ->]. cbn [obind].
        destruct (first_missing rest system app) as [k|].
        -- rewrite IH. reflexivity.
        -- destruct IH as [ua ->]. cbn [obind]. eauto.
      * rewrite (getitem_missing _ _ Hk). reflexivity.
    + destruct (has_key app key) eqn:Hk.
      * destruct (has_key_getitem _ _ Hk) as [v ->]. cbn [obind].
        destruct (first_missing rest system app) as [k|].
        -- rewrite IH. reflexivity.
        -- destruct IH as [ua ->]. cbn [obind]. eauto.
      * rewrite (getitem_missing _ _ Hk). reflexivity.
Qed.

(** X8: on every macOS release string of [OS_PLATFORM],
    [fix_chrome_mac_platform] draws once and returns the release with its
    version rewritten: the dots replaced by underscores and a third
    component appended, a build number within the range that
    [MACOSX_CHROME_BUILD_RANGE] gives for the version (upper end excluded).
    The rewritten version holds no dot. *)
Theorem X8_fix_chrome_mac_platform
  (versions : list string) (platform : string) (w : world) :
  getitem OS_PLATFORM "mac" = Return versions ->
  In platform versions ->
  exists ver lo hi build,
    platform = "Macintosh; Intel Mac OS X " ++ ver /\
    getitem MACOSX_CHROME_BUILD_RANGE ver = Return (lo, hi) /\
    lo <= build < hi /\
    fix_chrome_mac_platform platform w
    = (Return ("Macintosh; Intel Mac OS X " ++
               replace_char "." "_" ver ++ "_" ++ str_int build),
       advance w) /\
    contains (replace_char "." "_" ver ++ "_" ++ str_int build) "." = false.
Proof.
  intros E Hpv. vm_compute in E. injection E as <-.
  unfold fix_chrome_mac_platform.
  each_member; eval_strings; run_step; run_step;
    eval_strings; run_step; each_member;
    lazymatch goal with
    | |- context [replace_char _ _ ?v ++ "_" ++ str_int ?b] =>
        exists v; eexists; eexists; exists b
    end;
    (split; [reflexivity|]); (split; [vm_compute; reflexivity|]);
    (split; [lia|]); (split; [reflexivity|]); vm_compute; reflexivity.
Qed.

Lemma X8_witness :
  exists ver lo hi build,
    "Macintosh; Intel Mac OS X 10.11" = "Macintosh; Intel Mac OS X " ++ ver /\
    getitem MACOSX_CHROME_BUILD_RANGE ver = Return (lo, hi) /\
    lo <= build < hi /\
    fix_chrome_mac_platform "Macintosh; Intel Mac OS X 10.11" (seed [4])
    = (Return ("Macintosh; Intel Mac OS X " ++
               replace_char "." "_" ver ++ "_" ++ str_int build),
       advance (seed [4])) /\
    contains (replace_char "." "_" ver ++ "_" ++ str_int build) "." = false.
Proof.
  apply (X8_fix_chrome_mac_platform
           [ "Macintosh; Intel Mac OS X 10.8"; "Macintosh; Intel Mac OS X 10.9";
             "Macintosh; Intel Mac OS X 10.10";
             "Macintosh; Intel Mac OS X 10.11";
             "Macintosh; Intel Mac OS X 10.12";
             "Macintosh; Intel Mac OS X 10.13";
             "Macintosh; Intel Mac OS X 10.14";
             "Macintosh; Intel Mac OS X 10.15" ]).
  - vm_compute. reflexivity.
  - simpl. auto 10.
Defined.

Lemma split_go_no_separator sep : forall s cur,
  contains s sep = false -> exists field, split_go sep 0 cur s = [field].
Proof.
  induction s as [|c s IH]; intros cur H.
  - simpl. eauto.
  - rewrite contains_unfold in H. apply orb_false_iff in H.
    destruct H as [Hp Hc]. cbn [split_go]. rewrite Hp. apply IH. exact Hc.
Qed.

(** X9: on a string that holds no ["OS X "], [fix_chrome_mac_platform]
    raises [IndexError] without drawing: the split yields a single field and
    the field after the separator does not exist. *)
Theorem X9_fix_chrome_mac_platform_no_version (platform : string) (w : world) :
  contains platform "OS X " = false ->
  fix_chrome_mac_platform platform w = (Raise IndexError, w).
Proof.
  intros H. unfold fix_chrome_mac_platform, split.
  destruct (split_go_no_separator "OS X " platform "" H) as [field ->].
  reflexivity.
Qed.

Lemma X9_witness :
  fix_chrome_mac_platform "X11; Ubuntu; Linux" (seed [3])
  = (Raise IndexError, seed [3]).
Proof.
  apply (X9_fix_chrome_mac_platform_no_version "X11; Ubuntu; Linux" (seed [3])).
  vm_compute. reflexivity.
Defined.

(* ===================================================================== *)
(** ** Further properties: the fields of a config *)
(* ===================================================================== *)

Lemma append_empty_r (s : string) : s ++ "" = s.
Proof. induction s as [|c s IH]; simpl; congruence. Qed.

(** What the system components of a compatible triple are, os by os. *)
Lemma system_components_shape (device : device_module) dev o n w sys w' :
  In (dev, o, n) COMPATIBLE_TRIPLES ->
  build_system_components device dev o n w = (Return sys, w') ->
  exists pv p uap oc,
    sys = [ ("platform_version", VStr pv); ("platform", VStr p);
            ("ua_platform", VStr uap); ("oscpu", VStr oc) ] \/
    sys = [ ("platform_version", VStr pv); ("ua_platform", VStr uap);
            ("platform", VStr p); ("oscpu", VStr oc) ] /\ o = "android".
Proof.
  intros Hin Hsys.
  apply COMPATIBLE_TRIPLES_split in Hin.
  destruct Hin as [(-> & Ho & _) | (-> & Hd & Hn)].
  - simpl in Ho. destruct Ho as [<-|[<-|[<-|[]]]].
    + destruct (build_system_components_win device "desktop" n w)
        as (pv & cpu & _ & _ & E). cbv zeta in E.
      rewrite E in Hsys. injection Hsys as <- _. eauto 10.
    + destruct (build_system_components_mac device "desktop" n w)
        as (pv & ua & tail & w1 & E).
      rewrite E in Hsys. injection Hsys as <- _. eauto 10.
    + destruct (build_system_components_linux device "desktop" n w)
        as (cpu & pv & _ & _ & E).
      rewrite E in Hsys. injection Hsys as <- _. eauto 10.
  - simpl in Hn. destruct Hn as [<-|[<-|[]]].
    + destruct (build_system_components_android_firefox device dev w Hd)
        as (vs & pv & cpu & _ & _ & _ & E).
      rewrite E in Hsys. injection Hsys as <- _.
      do 4 eexists. right. split; reflexivity.
    + apply build_system_components_android_chrome_inv in Hsys.
      destruct Hsys as (pv & id & cpu & _ & ->).
      do 4 eexists. right. split; reflexivity.
Qed.

Lemma prefix_shorter a b : forall s,
  prefix (a ++ b) s = true -> prefix a s = true.
Proof.
  induction a as [|c a IH]; intros s H.
  - destruct s; reflexivity.
  - destruct s as [|d s]; [discriminate H|]. cbn [append prefix] in *.
    destruct (ascii_dec c d); [auto | discriminate H].
Qed.

Lemma fix_chrome_mac_platform_tail pv w :
  In pv [ "Macintosh; Intel Mac OS X 10.8"; "Macintosh; Intel Mac OS X 10.9";
          "Macintosh; Intel Mac OS X 10.10"; "Macintosh; Intel Mac OS X 10.11";
          "Macintosh; Intel Mac OS X 10.12"; "Macintosh; Intel Mac OS X 10.13";
          "Macintosh; Intel Mac OS X 10.14"; "Macintosh; Intel Mac OS X 10.15" ] ->
  exists platform tail,
    fix_chrome_mac_platform pv w = (Return platform, advance w) /\
    last_item (split platform " ") = Return tail /\
    startswith tail "10_" = true /\ contains tail "." = false /\
    platform = "Macintosh; Intel Mac OS X " ++ tail.
Proof.
  intros Hpv. unfold fix_chrome_mac_platform.
  each_member; eval_strings; run_step; run_step;
    eval_strings; run_step; each_member;
    (eexists; eexists; split; [reflexivity|]);
    (split; [vm_compute; reflexivity|]);
    (split; [vm_compute; reflexivity|]);
    (split; [vm_compute; reflexivity|]); vm_compute; reflexivity.
Qed.

(** The macOS system components: the Firefox token keeps the dotted
    version, the Chrome token carries the rewritten one. *)
Lemma build_system_components_mac_tokens (device : device_module) dev n w :
  exists pv tail w',
    build_system_components device dev "mac" n w =
    (Return [ ("platform_version", VStr pv); ("platform", VStr "MacIntel");
              ("ua_platform", VStr ("Macintosh; Intel Mac OS X " ++ tail));
              ("oscpu", VStr ("Intel Mac OS X " ++ tail)) ], w') /\
    startswith tail "10" = true /\
    (if String.eqb n "chrome"
     then startswith tail "10_" = true /\ contains tail "." = false
     else pv = "Macintosh; Intel Mac OS X " ++ tail /\
          startswith tail "10." = true /\ contains tail "_" = false).
Proof.
  unfold build_system_components.
  do 4 run_step.
  - destruct (fix_chrome_mac_platform_tail x0 (advance (advance w)))
      as (platform & tail & Efix & Etail & H10 & Hdot & ->); [assumption|].
    rewrite (bind_Return _ _ _ _ _ Efix). rewrite Etail.
    run_step. exists x0, tail. eexists. split; [reflexivity|].
    split; [|auto].
    exact (prefix_shorter "10" "_" tail H10).
  - run_step. clear Hin. each_member; eval_strings; run_step;
      (do 2 eexists; eexists; split; [reflexivity|]);
      (split; [vm_compute; reflexivity|]);
      (split; [reflexivity|]); split; vm_compute; reflexivity.
Qed.

(** Evaluate a lookup with a literal key in a dict with literal keys, in a
    hypothesis. *)
Ltac eval_lookup H :=
  repeat (cbn [getitem] in H;
          match type of H with
          | context [String.eqb ?a ?b] =>
              let v := eval vm_compute in (String.eqb a b) in
              lazymatch v with
              | true => change (String.eqb a b) with true in H
              | false => change (String.eqb a b) with false in H
              end
          end);
  cbn [getitem] in H.

(** X11: the [platform] and [oscpu] fields of every returned config, by
    [os_id].  Windows: both are the same string, a Windows NT release with
    an optional cpu token.  macOS: [platform] is ["MacIntel"] and [oscpu] is
    ["Intel Mac OS X "] followed by a version 10.x, written with dots for
    Firefox and with underscores (and no dot) for Chrome.  Linux: [platform]
    is the release followed by the cpu, [oscpu] is ["Linux "] followed by
    the same cpu.  Android: both are ["Linux armv7l"] or
    ["Linux armv8l"]. *)
Theorem X11_platform_fields_by_os
  (device : device_module) (os navigator platform device_type : optarg)
  (w : world) (cfg : dict pyval) (w' : world) :
  generate_navigator device os navigator platform device_type w
  = (Return cfg, w') ->
  exists o n p oc,
    getitem cfg "os_id" = Return (VStr o) /\
    getitem cfg "navigator_id" = Return (VStr n) /\
    getitem cfg "platform" = Return (VStr p) /\
    getitem cfg "oscpu" = Return (VStr oc) /\
    ((o = "win" /\ oc = p /\
      exists pv cpu,
        In pv ["Windows NT 5.1"; "Windows NT 6.1"; "Windows NT 6.2";
               "Windows NT 6.3"; "Windows NT 10.0"] /\
        In cpu [""; "Win64; x64"; "WOW64"] /\
        p = (if truthy cpu then pv ++ "; " ++ cpu else pv)) \/
     (o = "mac" /\ p = "MacIntel" /\
      exists tail,
        oc = "Intel Mac OS X " ++ tail /\ startswith tail "10" = true /\
        (if String.eqb n "chrome"
         then startswith tail "10_" = true /\ contains tail "." = false
         else startswith tail "10." = true /\ contains tail "_" = false)) \/
     (o = "linux" /\
      exists pv cpu,
        In pv ["X11; Linux"; "X11; Ubuntu; Linux"] /\
        In cpu ["i686"; "x86_64"; "i686 on x86_64"] /\
        p = pv ++ " " ++ cpu /\ oc = "Linux " ++ cpu) \/
     (o = "android" /\ oc = p /\
      (p = "Linux armv7l" \/ p = "Linux armv8l"))).
Proof.
  intros H.
  apply generate_navigator_Return_inv in H.
  destruct H as (dev & o & n & w1 & Hpick & H).
  apply navigator_of_ids_Return_inv in H.
  destruct H as (sys & w2 & app & tpl & ua & pv & av & Hsys & _ & _ & _ & _
                 & _ & p & oc & bv & bid & nm & ps & vd
                 & Ep & Eoc & _ & _ & _ & _ & _ & ->).
  apply pick_config_ids_Return_inv in Hpick. destruct Hpick as (Hc & _).
  apply compatible_true_inv, COMPATIBLE_TRIPLES_split in Hc.
  exists o, n.
  destruct Hc as [(-> & Ho & _) | (-> & Hd & Hn)].
  - simpl in Ho. destruct Ho as [<-|[<-|[<-|[]]]].
    + destruct (build_system_components_win device "desktop" n w1)
        as (v & cpu & Hv & Hcpu & E). cbv zeta in E.
      rewrite E in Hsys. injection Hsys as <- _.
      eval_lookup Ep. injection Ep as <-.
      eval_lookup Eoc. injection Eoc as <-.
      do 2 eexists. repeat (split; [vm_compute; reflexivity|]).
      left. split; [reflexivity|]. split; [reflexivity|].
      exists v, cpu. repeat split; auto.
    + destruct (build_system_components_mac_tokens device "desktop" n w1)
        as (v & tail & w3 & E & H10 & Hn).
      rewrite E in Hsys. injection Hsys as <- _.
      eval_lookup Ep. injection Ep as <-.
      eval_lookup Eoc. injection Eoc as <-.
      do 2 eexists. repeat (split; [vm_compute; reflexivity|]).
      right. left. split; [reflexivity|]. split; [reflexivity|].
      exists tail. split; [reflexivity|]. split; [exact H10|].
      destruct (String.eqb n "chrome"); tauto.
    + destruct (build_system_components_linux device "desktop" n w1)
        as (cpu & v & Hcpu & Hv & E).
      rewrite E in Hsys. injection Hsys as <- _.
      eval_lookup Ep. injection Ep as <-.
      eval_lookup Eoc. injection Eoc as <-.
      do 2 eexists. repeat (split; [vm_compute; reflexivity|]).
      right. right. left. split; [reflexivity|]. exists v, cpu.
      repeat split; auto.
  - assert (Hshape : exists v uap cpu,
               In cpu ["armv7l"; "armv8l"] /\
               sys = [ ("platform_version", VStr v);
                       ("ua_platform", VStr uap);
                       ("platform", VStr ("Linux " ++ cpu));
                       ("oscpu", VStr ("Linux " ++ cpu)) ]).
    { simpl in Hn. destruct Hn as [<-|[<-|[]]].
      - destruct (build_system_components_android_firefox device dev w1 Hd)
          as (vs & v & cpu & _ & _ & Hcpu & E).
        rewrite E in Hsys. injection Hsys as <- _. eauto 10.
      - destruct (SMARTPHONE_DEV_IDS device) as [|id ids] eqn:Hids.
        + pose proof (build_system_components_android_chrome_empty
                        device dev w1 Hd Hids) as Hempty.
          rewrite Hsys in Hempty. discriminate Hempty.
        + destruct (build_system_components_android_chrome device dev w1 Hd)
            as (vs & v & id' & cpu & _ & _ & _ & Hcpu & E); [congruence|].
          rewrite E in Hsys. injection Hsys as <- _. eauto 10. }
    destruct Hshape as (v & uap & cpu & Hcpu & ->).
    eval_lookup Ep. injection Ep as <-.
    eval_lookup Eoc. injection Eoc as <-.
    do 2 eexists. repeat (split; [vm_compute; reflexivity|]).
    right. right. right. split; [reflexivity|]. split; [reflexivity|].
    simpl in Hcpu. destruct Hcpu as [<-|[<-|[]]]; auto.
Qed.

Lemma X11_witness :
  exists cfg w' o n p oc,
    generate_navigator sample_device (ArgStr "mac") (ArgStr "chrome")
      ArgNone ArgNone (seed [0; 0; 3; 4]) = (Return cfg, w') /\
    getitem cfg "os_id" = Return (VStr o) /\
    getitem cfg "navigator_id" = Return (VStr n) /\
    getitem cfg "platform" = Return (VStr p) /\
    getitem cfg "oscpu" = Return (VStr oc) /\
    o = "mac" /\ p = "MacIntel" /\ oc = "Intel Mac OS X 10_11_4".
Proof.
  pose (run := generate_navigator sample_device (ArgStr "mac")
                 (ArgStr "chrome") ArgNone ArgNone (seed [0; 0; 3; 4])).
  exists (match fst run with Return c => c | Raise _ => [] end), (snd run).
  destruct (X11_platform_fields_by_os sample_device (ArgStr "mac")
              (ArgStr "chrome") ArgNone ArgNone (seed [0; 0; 3; 4])
              (match fst run with Return c => c | Raise _ => [] end)
              (snd run))
    as (o & n & p & oc & Ho & Hn & Hp & Hoc & _); [vm_compute; reflexivity|].
  exists o, n, p, oc.
  split; [vm_compute; reflexivity|].
  split; [exact Ho|]. split; [exact Hn|]. split; [exact Hp|].
  split; [exact Hoc|].
  vm_compute in Ho, Hp, Hoc.
  injection Ho as <-. injection Hp as <-. injection Hoc as <-.
  auto.
Defined.

Lemma format_App_inv k rest sys app ua :
  format (App k :: rest) sys app = Return ua ->
  exists v tail, getitem app k = Return v /\
                 format rest sys app = Return tail /\ ua = str_of v ++ tail.
Proof.
  cbn [format]. intros H. apply obind_Return_inv in H.
  destruct H as (v & Hv & H). apply obind_Return_inv in H.
  destruct H as (tail & Ht & [= <-]). eauto.
Qed.

Lemma format_nil_inv sys app ua : format [] sys app = Return ua -> ua = "".
Proof. cbn [format]. now intros [= <-]. Qed.

(** Evaluate, in a hypothesis, the choice of a template and the lookups
    with literal keys. *)
Ltac eval_hyp H :=
  unfold choose_ua_template, USER_AGENT_TEMPLATE in H;
  repeat (cbn [getitem obind pyval_eqb] in H;
          match type of H with
          | context [String.eqb ?a ?b] =>
              let v := eval vm_compute in (String.eqb a b) in
              lazymatch v with
              | true => change (String.eqb a b) with true in H
              | false => change (String.eqb a b) with false in H
              end
          end);
  cbn [getitem obind pyval_eqb] in H.

(** The Firefox header, whatever the system dict. *)
Lemma firefox_header dev sys app ver tpl ua :
  getitem app "build_version" = Return (VStr ver) ->
  choose_ua_template dev "firefox" app = Return tpl ->
  format tpl sys app = Return ua ->
  exists uap trail,
    getitem sys "ua_platform" = Return uap /\
    getitem app "geckotrail" = Return trail /\
    ua = "Mozilla/5.0 (" ++ str_of uap ++ "; rv:" ++ ver ++ ") Gecko/" ++
         str_of trail ++ " Firefox/" ++ ver.
Proof.
  intros Hver Htpl Hua. eval_hyp Htpl. injection Htpl as <-.
  apply format_Lit_inv in Hua. destruct Hua as (t1 & Hua & ->).
  apply format_System_inv in Hua. destruct Hua as (uap & t2 & Hp & Hua & ->).
  apply format_Lit_inv in Hua. destruct Hua as (t3 & Hua & ->).
  apply format_App_inv in Hua. destruct Hua as (v1 & t4 & Hv1 & Hua & ->).
  apply format_Lit_inv in Hua. destruct Hua as (t5 & Hua & ->).
  apply format_App_inv in Hua. destruct Hua as (trail & t6 & Htr & Hua & ->).
  apply format_Lit_inv in Hua. destruct Hua as (t7 & Hua & ->).
  apply format_App_inv in Hua. destruct Hua as (v2 & t8 & Hv2 & Hua & ->).
  apply format_nil_inv in Hua. subst t8.
  rewrite Hver in Hv1, Hv2. injection Hv1 as <-. injection Hv2 as <-.
  exists uap, trail. split; [exact Hp|]. split; [exact Htr|].
  cbn [str_of]. rewrite append_empty_r. reflexivity.
Qed.

(** The Chrome header: only the smartphone template says [Mobile]. *)
Lemma chrome_header dev sys app tpl ua :
  choose_ua_template dev "chrome" app = Return tpl ->
  format tpl sys app = Return ua ->
  exists uap bv,
    getitem sys "ua_platform" = Return uap /\
    getitem app "build_version" = Return bv /\
    ua = "Mozilla/5.0 (" ++ str_of uap ++
         ") AppleWebKit/537.36 (KHTML, like Gecko) Chrome/" ++ str_of bv ++
         (if String.eqb dev "tablet" then " Safari/537.36"
          else if String.eqb dev "smartphone" then " Mobile Safari/537.36"
          else " Safari/537.36").
Proof.
  intros Htpl Hua.
  assert (Ht : tpl = [ Lit "Mozilla/5.0 ("; System "ua_platform";
                       Lit ") AppleWebKit/537.36 (KHTML, like Gecko) Chrome/";
                       App "build_version";
                       Lit (if String.eqb dev "tablet" then " Safari/537.36"
                            else if String.eqb dev "smartphone"
                                 then " Mobile Safari/537.36"
                                 else " Safari/537.36") ]).
  { revert Htpl. unfold choose_ua_template.
    split_eqb; intros [= <-]; reflexivity. }
  subst tpl.
  apply format_Lit_inv in Hua. destruct Hua as (t1 & Hua & ->).
  apply format_System_inv in Hua. destruct Hua as (uap & t2 & Hp & Hua & ->).
  apply format_Lit_inv in Hua. destruct Hua as (t3 & Hua & ->).
  apply format_App_inv in Hua. destruct Hua as (bv & t4 & Hbv & Hua & ->).
  apply format_Lit_inv in Hua. destruct Hua as (t5 & Hua & ->).
  apply format_nil_inv in Hua. subst t5.
  exists uap, bv. split; [exact Hp|]. split; [exact Hbv|].
  rewrite append_empty_r. reflexivity.
Qed.

(** The Internet Explorer header: the version 11 form, or the older one. *)
Lemma ie_header dev sys app bv tpl ua :
  getitem app "build_version" = Return (VStr bv) ->
  choose_ua_template dev "ie" app = Return tpl ->
  format tpl sys app = Return ua ->
  exists uap tv,
    getitem sys "ua_platform" = Return uap /\
    getitem app "trident_version" = Return tv /\
    ua = (if String.eqb bv "MSIE 11.0"
          then "Mozilla/5.0 (" ++ str_of uap ++ "; Trident/" ++ str_of tv ++
               "; rv:11.0) like Gecko"
          else "Mozilla/5.0 (compatible; " ++ bv ++ "; " ++ str_of uap ++
               "; Trident/" ++ str_of tv ++ ")").
Proof.
  intros Hbv Htpl Hua. unfold choose_ua_template in Htpl.
  change (String.eqb "ie" "ie") with true in Htpl.
  change (String.eqb "ie" "chrome") with false in Htpl.
  cbv iota in Htpl. rewrite Hbv in Htpl. cbn [obind pyval_eqb] in Htpl.
  destruct (String.eqb bv "MSIE 11.0"); eval_hyp Htpl; injection Htpl as <-.
  - apply format_Lit_inv in Hua. destruct Hua as (t1 & Hua & ->).
    apply format_System_inv in Hua.
    destruct Hua as (uap & t2 & Hp & Hua & ->).
    apply format_Lit_inv in Hua. destruct Hua as (t3 & Hua & ->).
    apply format_App_inv in Hua. destruct Hua as (tv & t4 & Htv & Hua & ->).
    apply format_Lit_inv in Hua. destruct Hua as (t5 & Hua & ->).
    apply format_nil_inv in Hua. subst t5.
    exists uap, tv. split; [exact Hp|]. split; [exact Htv|].
    rewrite append_empty_r. reflexivity.
  - apply format_Lit_inv in Hua. destruct Hua as (t1 & Hua & ->).
    apply format_App_inv in Hua. destruct Hua as (v & t2 & Hv & Hua & ->).
    apply format_Lit_inv in Hua. destruct Hua as (t3 & Hua & ->).
    apply format_System_inv in Hua.
    destruct Hua as (uap & t4 & Hp & Hua & ->).
    apply format_Lit_inv in Hua. destruct Hua as (t5 & Hua & ->).
    apply format_App_inv in Hua. destruct Hua as (tv & t6 & Htv & Hua & ->).
    apply format_Lit_inv in Hua. destruct Hua as (t7 & Hua & ->).
    apply format_nil_inv in Hua. subst t7.
    rewrite Hbv in Hv. injection Hv as <-.
    exists uap, tv. split; [exact Hp|]. split; [exact Htv|].
    cbn [str_of]. rewrite append_empty_r. reflexivity.
Qed.

(** X12: every Firefox config has the header
    [Mozilla/5.0 (<token>; rv:<v>) Gecko/<trail> Firefox/<v>] where [<v>] is
    its [build_version], a version of the release table, and [<trail>] is
    ["20100101"] on win, linux and mac and [<v>] itself on Android.  Its
    [app_version] is ["5.0 (Windows)"], ["5.0 (Macintosh)"] or ["5.0 (X11)"]
    on the desktop systems and ["5.0 (<release>)"] on Android, where the
    token is [<release>] followed by ["; Mobile"] or ["; Tablet"]. *)
Theorem X12_firefox_header
  (device : device_module) (os navigator platform device_type : optarg)
  (w : world) (cfg : dict pyval) (w' : world) :
  generate_navigator device os navigator platform device_type w
  = (Return cfg, w') ->
  getitem cfg "navigator_id" = Return (VStr "firefox") ->
  exists o ver token av i release,
    getitem cfg "os_id" = Return (VStr o) /\
    getitem cfg "build_version" = Return (VStr ver) /\
    nth_error FIREFOX_VERSION i = Some (ver, release) /\
    getitem cfg "user_agent" =
    Return (VStr ("Mozilla/5.0 (" ++ token ++ "; rv:" ++ ver ++ ") Gecko/" ++
                  (if mem o ["win"; "linux"; "mac"] then "20100101" else ver)
                  ++ " Firefox/" ++ ver)) /\
    getitem cfg "app_version" = Return (VStr av) /\
    ((o = "win" /\ av = "5.0 (Windows)") \/
     (o = "mac" /\ av = "5.0 (Macintosh)") \/
     (o = "linux" /\ av = "5.0 (X11)") \/
     (o = "android" /\
      exists release_name,
        av = "5.0 (" ++ release_name ++ ")" /\
        (token = release_name ++ "; Mobile" \/
         token = release_name ++ "; Tablet"))).
Proof.
  intros H Hid.
  apply generate_navigator_Return_inv in H.
  destruct H as (dev & o & n & w1 & Hpick & H).
  apply navigator_of_ids_Return_inv in H.
  destruct H as (sys & w2 & app & tpl & ua & pv & av & Hsys & Happ & Htpl
                 & Hua & Epv & Hav & p & oc & bv & bid & nm & ps & vd
                 & _ & _ & Ebv & _ & _ & _ & _ & ->).
  vm_compute in Hid. injection Hid as ->.
  apply pick_config_ids_Return_inv in Hpick. destruct Hpick as (Hc & _).
  apply compatible_true_inv in Hc.
  destruct (build_app_components_firefox o w2)
    as (i & ver & release & k & t & Hnth & _ & _ & _ & E).
  rewrite E in Happ. injection Happ as <- _.
  eval_lookup Ebv. injection Ebv as <-.
  pose proof (fun Hb => firefox_header dev sys _ ver tpl ua Hb Htpl Hua)
    as Hheader.
  destruct (Hheader eq_refl) as (uap & trail & Huap & Htrail & ->).
  clear Hheader.
  eval_lookup Htrail. injection Htrail as <-. cbn [str_of].
  exists o, ver, (str_of uap).
  apply COMPATIBLE_TRIPLES_split in Hc.
  destruct Hc as [(-> & Ho & _) | (-> & Hd & _)].
  - simpl in Ho.
    destruct Ho as [<-|[<-|[<-|[]]]];
      [ assert (Hx : forall s,
                  build_navigator_app_version "win" "firefox" pv s w'
                  = (Return "5.0 (Windows)", w')) by reflexivity
      | assert (Hx : forall s,
                  build_navigator_app_version "mac" "firefox" pv s w'
                  = (Return "5.0 (Macintosh)", w')) by reflexivity
      | assert (Hx : forall s,
                  build_navigator_app_version "linux" "firefox" pv s w'
                  = (Return "5.0 (X11)", w')) by reflexivity ];
      rewrite Hx in Hav; injection Hav as <-;
      eexists; exists i, release;
      (split; [vm_compute; reflexivity|]);
      (split; [vm_compute; reflexivity|]);
      (split; [exact Hnth|]);
      (split; [vm_compute; reflexivity|]);
      (split; [vm_compute; reflexivity|]); auto 10.
  - destruct (build_system_components_android_firefox device dev w1 Hd)
      as (vs & v & cpu & _ & _ & _ & Esys).
    rewrite Esys in Hsys. injection Hsys as <- _.
    eval_lookup Epv. injection Epv as <-.
    eval_lookup Huap. injection Huap as <-.
    assert (Hx : forall s,
               build_navigator_app_version "android" "firefox" (VStr v) s w'
               = (Return ("5.0 (" ++ v ++ ")"), w')) by reflexivity.
    rewrite Hx in Hav. injection Hav as <-.
    eexists. exists i, release.
    split; [vm_compute; reflexivity|].
    split; [vm_compute; reflexivity|].
    split; [exact Hnth|].
    split; [vm_compute; reflexivity|].
    split; [vm_compute; reflexivity|].
    right. right. right. split; [reflexivity|]. exists v.
    split; [reflexivity|]. cbn [str_of].
    simpl in Hd. destruct Hd as [<-|[<-|[]]]; [left | right]; reflexivity.
Qed.

Lemma X12_witness :
  exists cfg w' o ver token av i release,
    generate_navigator sample_device (ArgStr "android") (ArgStr "firefox")
      ArgNone (ArgStr "smartphone") (seed [0; 2; 1; 430; 5])
    = (Return cfg, w') /\
    getitem cfg "os_id" = Return (VStr o) /\
    getitem cfg "build_version" = Return (VStr ver) /\
    nth_error FIREFOX_VERSION i = Some (ver, release) /\
    getitem cfg "user_agent" =
    Return (VStr ("Mozilla/5.0 (" ++ token ++ "; rv:" ++ ver ++ ") Gecko/" ++
                  (if mem o ["win"; "linux"; "mac"] then "20100101" else ver)
                  ++ " Firefox/" ++ ver)) /\
    getitem cfg "app_version" = Return (VStr av).
Proof.
  pose (run := generate_navigator sample_device (ArgStr "android")
                 (ArgStr "firefox") ArgNone (ArgStr "smartphone")
                 (seed [0; 2; 1; 430; 5])).
  exists (match fst run with Return c => c | Raise _ => [] end), (snd run).
  destruct (X12_firefox_header sample_device (ArgStr "android")
              (ArgStr "firefox") ArgNone (ArgStr "smartphone")
              (seed [0; 2; 1; 430; 5])
              (match fst run with Return c => c | Raise _ => [] end)
              (snd run))
    as (o & ver & token & av & i & release & Ho & Hv & Hnth & Hua & Hav & _);
    [vm_compute; reflexivity | vm_compute; reflexivity |].
  exists o, ver, token, av, i, release.
  split; [vm_compute; reflexivity|]. auto 10.
Defined.

(** X13: every Chrome config has the header
    [Mozilla/5.0 (<token>) AppleWebKit/537.36 (KHTML, like Gecko)
    Chrome/<v> <suffix>] where [<v>] is its [build_version], of the form
    [<major>.0.<build>.<patch>] for an entry of [CHROME_BUILD] with the
    build within the entry's bounds and the patch between 0 and 120, and
    where the suffix is ["Mobile Safari/537.36"] exactly when the picked
    device type is smartphone, ["Safari/537.36"] for tablet and desktop. *)
Theorem X13_chrome_header
  (device : device_module) (os navigator platform device_type : optarg)
  (w : world) (cfg : dict pyval) (w' : world) (dev o : string) (w1 : world) :
  pick_config_ids device_type (effective_os os platform) navigator
    (after_notice platform w) = (Return (dev, o, "chrome"), w1) ->
  generate_navigator device os navigator platform device_type w
  = (Return cfg, w') ->
  exists token major lo hi build patch,
    In (major, lo, hi) CHROME_BUILD /\ lo <= build <= hi /\
    0 <= patch <= 120 /\
    getitem cfg "build_version" =
    Return (VStr (str_int major ++ ".0." ++ str_int build ++ "." ++
                  str_int patch)) /\
    getitem cfg "user_agent" =
    Return (VStr ("Mozilla/5.0 (" ++ token ++
                  ") AppleWebKit/537.36 (KHTML, like Gecko) Chrome/" ++
                  (str_int major ++ ".0." ++ str_int build ++ "." ++
                   str_int patch) ++
                  (if String.eqb dev "smartphone"
                   then " Mobile Safari/537.36" else " Safari/537.36"))).
Proof.
  intros Hpick H.
  apply generate_navigator_Return_inv in H.
  destruct H as (dev' & o' & n' & w1' & Hpick' & H).
  rewrite Hpick in Hpick'. injection Hpick' as <- <- <- <-.
  apply navigator_of_ids_Return_inv in H.
  destruct H as (sys & w2 & app & tpl & ua & pv & av & Hsys & Happ & Htpl
                 & Hua & _ & _ & p & oc & bv & bid & nm & ps & vd
                 & _ & _ & Ebv & _ & _ & _ & _ & ->).
  destruct (get_chrome_build_spec w2)
    as (major & lo & hi & b & pt & Hin & Hb & Hp & E).
  unfold build_app_components in Happ.
  change (String.eqb "chrome" "firefox") with false in Happ.
  change (String.eqb "chrome" "chrome") with true in Happ.
  cbv iota in Happ. rewrite (bind_Return _ _ _ _ _ E) in Happ.
  apply ret_inv in Happ. destruct Happ as [-> _].
  eval_lookup Ebv. injection Ebv as <-.
  destruct (chrome_header dev sys _ tpl ua Htpl Hua)
    as (uap & bv & Huap & Hbv & ->).
  eval_lookup Hbv. injection Hbv as <-. cbn [str_of].
  exists (str_of uap), major, lo, hi, b, pt.
  repeat (split; [assumption|]).
  split; [vm_compute; reflexivity|].
  cbn [getitem]. split_eqb; reflexivity.
Qed.

Lemma X13_witness :
  exists cfg w' token major lo hi build patch,
    generate_navigator sample_device (ArgStr "android") (ArgStr "chrome")
      ArgNone (ArgStr "smartphone") (seed [0; 2; 1; 0; 37; 0; 77])
    = (Return cfg, w') /\
    In (major, lo, hi) CHROME_BUILD /\ lo <= build <= hi /\
    0 <= patch <= 120 /\
    getitem cfg "user_agent" =
    Return (VStr ("Mozilla/5.0 (" ++ token ++
                  ") AppleWebKit/537.36 (KHTML, like Gecko) Chrome/" ++
                  (str_int major ++ ".0." ++ str_int build ++ "." ++
                   str_int patch) ++ " Mobile Safari/537.36")).
Proof.
  pose (run := generate_navigator sample_device (ArgStr "android")
                 (ArgStr "chrome") ArgNone (ArgStr "smartphone")
                 (seed [0; 2; 1; 0; 37; 0; 77])).
  exists (match fst run with Return c => c | Raise _ => [] end), (snd run).
  destruct (X13_chrome_header sample_device (ArgStr "android")
              (ArgStr "chrome") ArgNone (ArgStr "smartphone")
              (seed [0; 2; 1; 0; 37; 0; 77])
              (match fst run with Return c => c | Raise _ => [] end)
              (snd run) "smartphone" "android"
              (advance (seed [0; 2; 1; 0; 37; 0; 77])))
    as (token & major & lo & hi & b & pt & Hin & Hb & Hp & _ & Hua);
    [vm_compute; reflexivity | vm_compute; reflexivity |].
  exists token, major, lo, hi, b, pt.
  split; [vm_compute; reflexivity|]. auto 10.
Defined.

(** X14: every Internet Explorer config is a Windows one.  Its
    [build_version] is one of the four entries of [IE_VERSION]; for
    ["MSIE 11.0"] the [app_name] is ["Netscape"] and the header is
    [Mozilla/5.0 (<platform>; Trident/7.0; rv:11.0) like Gecko]; for the
    three older versions the [app_name] is ["Microsoft Internet Explorer"]
    and the header is
    [Mozilla/5.0 (compatible; <version>; <platform>; Trident/<t>)] with the
    entry's Trident version.  [<platform>] is the config's [platform]. *)
Theorem X14_internet_explorer_config
  (device : device_module) (os navigator platform device_type : optarg)
  (w : world) (cfg : dict pyval) (w' : world) :
  generate_navigator device os navigator platform device_type w
  = (Return cfg, w') ->
  getitem cfg "navigator_id" = Return (VStr "ie") ->
  exists num bv tv p,
    In (num, bv, tv) IE_VERSION /\
    getitem cfg "os_id" = Return (VStr "win") /\
    getitem cfg "build_version" = Return (VStr bv) /\
    getitem cfg "platform" = Return (VStr p) /\
    getitem cfg "product_sub" = Return VNone /\
    ((num = 11 /\ bv = "MSIE 11.0" /\
      getitem cfg "app_name" = Return (VStr "Netscape") /\
      getitem cfg "user_agent" =
      Return (VStr ("Mozilla/5.0 (" ++ p ++
                    "; Trident/7.0; rv:11.0) like Gecko"))) \/
     (num < 11 /\
      getitem cfg "app_name" = Return (VStr "Microsoft Internet Explorer") /\
      getitem cfg "user_agent" =
      Return (VStr ("Mozilla/5.0 (compatible; " ++ bv ++ "; " ++ p ++
                    "; Trident/" ++ tv ++ ")")))).
Proof.
  intros H Hid.
  apply generate_navigator_Return_inv in H.
  destruct H as (dev & o & n & w1 & Hpick & H).
  apply navigator_of_ids_Return_inv in H.
  destruct H as (sys & w2 & app & tpl & ua & pv & av & Hsys & Happ & Htpl
                 & Hua & _ & _ & p & oc & bv & bid & nm & ps & vd
                 & Ep & _ & Ebv & _ & Enm & Eps & _ & ->).
  vm_compute in Hid. injection Hid as ->.
  apply pick_config_ids_Return_inv in Hpick. destruct Hpick as (Hc & _).
  apply compatible_true_inv in Hc.
  assert (Hwin : dev = "desktop" /\ o = "win").
  { unfold COMPATIBLE_TRIPLES in Hc. simpl In in Hc.
    repeat (destruct Hc as [Hc|Hc]; [try discriminate Hc|]);
      [injection Hc as <- <-; auto | contradiction]. }
  destruct Hwin as [-> ->].
  destruct (build_system_components_win device "desktop" "ie" w1)
    as (v & cpu & _ & _ & Esys). cbv zeta in Esys.
  rewrite Esys in Hsys. injection Hsys as <- _.
  destruct (build_app_components_ie "win" w2)
    as (num & b & tv & Hin & Eapp).
  rewrite Eapp in Happ. injection Happ as <- _.
  eval_lookup Ep. injection Ep as <-.
  eval_lookup Ebv. injection Ebv as <-.
  eval_lookup Enm. injection Enm as <-.
  eval_lookup Eps. injection Eps as <-.
  pose proof (fun Hb => ie_header "desktop" _ _ b tpl ua Hb Htpl Hua)
    as Hheader.
  destruct (Hheader eq_refl) as (uap & tv' & Huap & Htv & ->). clear Hheader.
  eval_lookup Huap. injection Huap as <-.
  eval_lookup Htv. injection Htv as <-. cbn [str_of].
  exists num, b, tv. eexists. split; [exact Hin|].
  split; [vm_compute; reflexivity|]. split; [vm_compute; reflexivity|].
  split; [vm_compute; reflexivity|]. split; [vm_compute; reflexivity|].
  clear -Hin. simpl in Hin.
  destruct Hin as [Hin|[Hin|[Hin|[Hin|[]]]]]; injection Hin as <- <- <-;
    [right | right | right | left];
    repeat (split; [first [reflexivity | lia
                          | cbn [getitem]; split_eqb; reflexivity]|]);
    cbn [getitem]; split_eqb; reflexivity.
Qed.

Lemma X14_witness :
  exists cfg w' num bv tv p,
    generate_navigator sample_device ArgNone (ArgStr "ie") ArgNone ArgNone
      (seed [0; 4; 1; 3]) = (Return cfg, w') /\
    In (num, bv, tv) IE_VERSION /\
    getitem cfg "os_id" = Return (VStr "win") /\
    getitem cfg "build_version" = Return (VStr bv) /\
    getitem cfg "platform" = Return (VStr p).
Proof.
  pose (run := generate_navigator sample_device ArgNone (ArgStr "ie") ArgNone
                 ArgNone (seed [0; 4; 1; 3])).
  exists (match fst run with Return c => c | Raise _ => [] end), (snd run).
  destruct (X14_internet_explorer_config sample_device ArgNone (ArgStr "ie")
              ArgNone ArgNone (seed [0; 4; 1; 3])
              (match fst run with Return c => c | Raise _ => [] end)
              (snd run))
    as (num & bv & tv & p & Hin & Ho & Hbv & Hp & _);
    [vm_compute; reflexivity | vm_compute; reflexivity |].
  exists num, bv, tv, p.
  split; [vm_compute; reflexivity|]. auto 10.
Defined.

(** X10: every returned config has the fourteen keys of [CONFIG_KEYS], in
    that order, with [app_code_name] ["Mozilla"], [product] ["Gecko"] and an
    empty [vendor_sub].  By navigator: Firefox has [app_name] ["Netscape"],
    [product_sub] ["20100101"], an empty [vendor] and a build id; Chrome has
    [app_name] ["Netscape"], [product_sub] ["20030107"], [vendor]
    ["Google Inc."] and no build id ([None]); Internet Explorer has no
    [product_sub], an empty [vendor] and no build id. *)
Theorem X10_config_fields
  (device : device_module) (os navigator platform device_type : optarg)
  (w : world) (cfg : dict pyval) (w' : world) :
  generate_navigator device os navigator platform device_type w
  = (Return cfg, w') ->
  keys cfg = CONFIG_KEYS /\
  getitem cfg "app_code_name" = Return (VStr "Mozilla") /\
  getitem cfg "product" = Return (VStr "Gecko") /\
  getitem cfg "vendor_sub" = Return (VStr "") /\
  exists n,
    getitem cfg "navigator_id" = Return (VStr n) /\
    ((n = "firefox" /\
      getitem cfg "app_name" = Return (VStr "Netscape") /\
      getitem cfg "product_sub" = Return (VStr "20100101") /\
      getitem cfg "vendor" = Return (VStr "") /\
      exists build_id, getitem cfg "build_id" = Return (VStr build_id)) \/
     (n = "chrome" /\
      getitem cfg "app_name" = Return (VStr "Netscape") /\
      getitem cfg "product_sub" = Return (VStr "20030107") /\
      getitem cfg "vendor" = Return (VStr "Google Inc.") /\
      getitem cfg "build_id" = Return VNone) \/
     (n = "ie" /\
      getitem cfg "product_sub" = Return VNone /\
      getitem cfg "vendor" = Return (VStr "") /\
      getitem cfg "build_id" = Return VNone)).
Proof.
  intros H.
  apply generate_navigator_Return_inv in H.
  destruct H as (dev & o & n & w1 & Hpick & H).
  apply navigator_of_ids_Return_inv in H.
  destruct H as (sys & w2 & app & tpl & ua & pv & av & _ & Happ & _
                 & _ & _ & _ & p & oc & bv & bid & nm & ps & vd
                 & _ & _ & _ & Ebid & Enm & Eps & Evd & ->).
  split; [reflexivity|]. split; [vm_compute; reflexivity|].
  split; [vm_compute; reflexivity|]. split; [vm_compute; reflexivity|].
  exists n. split; [vm_compute; reflexivity|].
  apply pick_config_ids_Return_inv in Hpick. destruct Hpick as (Hc & _).
  apply compatible_true_inv, COMPATIBLE_TRIPLES_split in Hc.
  assert (Hn : In n ["chrome"; "firefox"; "ie"]).
  { destruct Hc as [(_ & _ & Hn) | (_ & _ & Hn)]; simpl in *; tauto. }
  clear Hc. simpl in Hn. destruct Hn as [<-|[<-|[<-|[]]]].
  - destruct (build_app_components_chrome o w2) as (b & E).
    rewrite E in Happ. injection Happ as <- _.
    eval_lookup Ebid. injection Ebid as <-.
    eval_lookup Enm. injection Enm as <-.
    eval_lookup Eps. injection Eps as <-.
    eval_lookup Evd. injection Evd as <-.
    right. left. repeat split; vm_compute; reflexivity.
  - destruct (build_app_components_firefox o w2)
      as (i & ver & release & k & t & _ & _ & _ & _ & E).
    rewrite E in Happ. injection Happ as <- _.
    eval_lookup Ebid. injection Ebid as <-.
    eval_lookup Enm. injection Enm as <-.
    eval_lookup Eps. injection Eps as <-.
    eval_lookup Evd. injection Evd as <-.
    left. split; [reflexivity|].
    split; [vm_compute; reflexivity|]. split; [vm_compute; reflexivity|].
    split; [vm_compute; reflexivity|].
    eexists. cbn [getitem]. split_eqb. reflexivity.
  - destruct (build_app_components_ie o w2) as (num & b & tv & _ & E).
    rewrite E in Happ. injection Happ as <- _.
    eval_lookup Ebid. injection Ebid as <-.
    eval_lookup Eps. injection Eps as <-.
    eval_lookup Evd. injection Evd as <-.
    right. right. repeat split; vm_compute; reflexivity.
Qed.

Lemma X10_witness :
  exists cfg w',
    generate_navigator sample_device (ArgStr "linux") ArgNone ArgNone ArgNone
      (seed [0; 1; 1; 2; 3; 4]) = (Return cfg, w') /\
    keys cfg = CONFIG_KEYS /\
    getitem cfg "app_code_name" = Return (VStr "Mozilla") /\
    getitem cfg "product" = Return (VStr "Gecko") /\
    getitem cfg "vendor_sub" = Return (VStr "").
Proof.
  pose (run := generate_navigator sample_device (ArgStr "linux") ArgNone
                 ArgNone ArgNone (seed [0; 1; 1; 2; 3; 4])).
  exists (match fst run with Return c => c | Raise _ => [] end), (snd run).
  destruct (X10_config_fields sample_device (ArgStr "linux") ArgNone ArgNone
              ArgNone (seed [0; 1; 1; 2; 3; 4])
              (match fst run with Return c => c | Raise _ => [] end)
              (snd run))
    as (Hk & Hc & Hp & Hv & _); [vm_compute; reflexivity|].
  split; [vm_compute; reflexivity|]. auto.
Defined.

(* ===================================================================== *)
(** ** Further properties: the top-level functions *)
(* ===================================================================== *)

(** X15: [generate_navigator_js] returns exactly when [generate_navigator]
    does, in the same final state: its record has the eleven keys of
    [JS_KEYS], in that order, each holding the value of the config key it is
    read from (the ids and [build_version] are dropped); and it raises
    exactly when [generate_navigator] raises, the same exception. *)
Theorem X15_navigator_js_rekeys
  (device : device_module) (os navigator platform device_type : optarg)
  (w : world) :
  (forall cfg w',
     generate_navigator device os navigator platform device_type w
     = (Return cfg, w') ->
     exists js,
       generate_navigator_js device os navigator platform device_type w
       = (Return js, w') /\
       keys js = map fst JS_KEYS /\
       forall js_key cfg_key,
         In (js_key, cfg_key) JS_KEYS ->
         getitem js js_key = getitem cfg cfg_key) /\
  (forall e w',
     generate_navigator device os navigator platform device_type w
     = (Raise e, w') <->
     generate_navigator_js device os navigator platform device_type w
     = (Raise e, w')).
Proof.
  assert (Hret : forall cfg w',
             generate_navigator device os navigator platform device_type w
             = (Return cfg, w') ->
             exists js,
               generate_navigator_js device os navigator platform
                 device_type w = (Return js, w') /\
               keys js = map fst JS_KEYS /\
               forall js_key cfg_key,
                 In (js_key, cfg_key) JS_KEYS ->
                 getitem js js_key = getitem cfg cfg_key).
  { intros cfg w' H. unfold generate_navigator_js.
    rewrite (bind_Return _ _ _ _ _ H).
    apply generate_navigator_Return_inv in H.
    destruct H as (dev & o & n & w1 & _ & H).
    apply navigator_of_ids_Return_inv in H.
    destruct H as (sys & w2 & app & tpl & ua & pv & av & _ & _ & _ & _ & _
                   & _ & p & oc & bv & bid & nm & ps & vd
                   & _ & _ & _ & _ & _ & _ & _ & ->).
    repeat run_step.
    eexists. split; [reflexivity|]. split; [reflexivity|].
    intros jk ck Hin. unfold JS_KEYS in Hin. simpl In in Hin.
    repeat (destruct Hin as [Hin|Hin];
            [injection Hin as <- <-; cbn [getitem]; split_eqb; reflexivity|]).
    contradiction. }
  split; [exact Hret|].
  intros e w'. split.
  - intros H. unfold generate_navigator_js. now apply bind_Raise.
  - intros H.
    destruct (generate_navigator device os navigator platform device_type w)
      as [[cfg|e0] w0] eqn:E.
    + destruct (Hret cfg w0 eq_refl) as (js & Hjs & _).
      rewrite Hjs in H. discriminate H.
    + unfold generate_navigator_js in H.
      rewrite (bind_Raise _ _ _ _ _ E) in H. injection H as <- <-.
      reflexivity.
Qed.

(** X16: when [platform] is given, [os] is ignored: the call is the call
    with [os] set to that value and no [platform], made once the
    deprecation notice (stack level 3) has been added to the warnings. *)
Theorem X16_platform_replaces_os
  (device : device_module) (os os' navigator platform device_type : optarg)
  (w : world) :
  is_None platform = false ->
  generate_navigator device os navigator platform device_type w
  = generate_navigator device os' navigator platform device_type w /\
  generate_navigator device os navigator platform device_type w
  = generate_navigator device platform navigator ArgNone device_type
      (mkWorld (tape w) (pos w)
         (warnings w ++ [(deprecation_message, 3)])%list).
Proof.
  intros Hp. rewrite !generate_navigator_unfold.
  unfold effective_os, after_notice. rewrite Hp. simpl is_None.
  cbv iota. split; reflexivity.
Qed.

Lemma X16_witness :
  generate_navigator sample_device (ArgStr "bogus") ArgNone (ArgStr "linux")
    ArgNone (seed [0; 1; 1; 2; 3; 4])
  = generate_navigator sample_device (ArgStr "mac") ArgNone (ArgStr "linux")
      ArgNone (seed [0; 1; 1; 2; 3; 4]).
Proof.
  apply (X16_platform_replaces_os sample_device (ArgStr "bogus")
           (ArgStr "mac") ArgNone (ArgStr "linux") ArgNone
           (seed [0; 1; 1; 2; 3; 4])).
  reflexivity.
Defined.

(* ===================================================================== *)
(** ** Further properties: the compatibility tables *)
(* ===================================================================== *)

(** X17: the six compatibility tables are pairwise inverse: an os is listed
    for a device type exactly when the device type is listed for the os, and
    likewise for navigators and device types and for navigators and oses;
    for every pair of strings, known or not. *)
Theorem X17_tables_are_inverse (dev os nav : string) :
  allowed DEVICE_TYPE_OS dev os = allowed OS_DEVICE_TYPE os dev /\
  allowed DEVICE_TYPE_NAVIGATOR dev nav = allowed NAVIGATOR_DEVICE_TYPE nav dev /\
  allowed OS_NAVIGATOR os nav = allowed NAVIGATOR_OS nav os.
Proof.
  unfold allowed, OS_DEVICE_TYPE, NAVIGATOR_DEVICE_TYPE.
  lookup_tables.
  repeat split; split_eqb; first [reflexivity | congruence].
Qed.

(** X18: the test of the solver's loop accepts exactly the eleven triples
    of [COMPATIBLE_TRIPLES]: Internet Explorer only on desktop Windows,
    Android only on smartphones and tablets.  It returns for every known
    device type and raises [KeyError] for an unknown one. *)
Theorem X18_accepted_triples (dev os nav : string) :
  (compatible dev os nav = Return true <->
   In (dev, os, nav) COMPATIBLE_TRIPLES) /\
  (mem dev ["desktop"; "smartphone"; "tablet"] = true ->
   exists b, compatible dev os nav = Return b) /\
  (mem dev ["desktop"; "smartphone"; "tablet"] = false ->
   compatible dev os nav = Raise (KeyError dev)).
Proof.
  split; [|split].
  - split; [apply compatible_true_inv|].
    unfold COMPATIBLE_TRIPLES. simpl In. intros H.
    repeat (destruct H as [H|H];
            [injection H as <- <- <-; vm_compute; reflexivity|]).
    contradiction.
  - intros H. apply compatible_total. apply mem_In in H. exact H.
  - intros H. unfold compatible.
    rewrite getitem_missing; [reflexivity|]. exact H.
Qed.
